(** * flight-mcp-server: validation, provider error mapping, synthetic data
      and the tool dispatcher

    A shallow embedding of [src/errorHandler.js], [src/amadeusClient.js] and
    [src/index.js].

    Conventions of the embedding.
    - A JavaScript string is a [string]: a sequence of code units, here in the
      Latin-1 range; [String.length] is the JavaScript [length].
    - A JavaScript number is a rational [Q], the value of a finite double.
      A product or a sum of numbers is rounded to the nearest double, ties
      to even, as IEEE 754 has it ([Double.round]); a decimal literal stands
      for the double nearest to it.  [NaN] is a separate value, the
      infinities are left out.
    - A value that is an object or an array is one parsed from JSON: its
      properties are its own, none of them is a function, and a key occurs
      once.
    - What the JavaScript runtime supplies and the sources do not fix (the
      clock, the time zone, how the engine prints a number that is not an
      integer, how it reads a day number beyond the end of a month) is
      gathered in a [Runtime] record that the definitions take as a section
      variable.
    - [Math.random()] reads a stream of draws held in the [World]; the
      requests sent to the provider are logged there. *)

From Stdlib Require Import String Ascii List ZArith QArith Qround Bool Lia.
From Stdlib Require Import Qpower.
From Stdlib Require Import Sorting.Sorted Sorting.Permutation.
From Stdlib Require Import DecimalString.
From Stdlib Require DecimalPos.
Import ListNotations.

Local Open Scope string_scope.
Local Open Scope Z_scope.

(** ** Characters and strings *)

Module Str.

Definition code (c : ascii) : Z := Z.of_nat (nat_of_ascii c).

Definition isDigit (c : ascii) : bool := (48 <=? code c) && (code c <=? 57).
Definition isUpper (c : ascii) : bool := (65 <=? code c) && (code c <=? 90).
Definition isLower (c : ascii) : bool := (97 <=? code c) && (code c <=? 122).
Definition isAlpha (c : ascii) : bool := isUpper c || isLower c.

Definition chars (s : string) : list ascii := list_ascii_of_string s.

(** The line feed, and the test that a text holds none. *)
Definition LF : ascii := ascii_of_nat 10.
Definition nl : string := String LF EmptyString.

Fixpoint no_newline (s : string) : bool :=
  match s with
  | EmptyString => true
  | String c s' => negb (Ascii.eqb c LF) && no_newline s'
  end.

(** [contains p s]: [p] occurs in [s] ([String.prototype.includes]). *)
Fixpoint contains (p s : string) : bool :=
  prefix p s || match s with
                | EmptyString => false
                | String _ s' => contains p s'
                end.

Fixpoint all (f : ascii -> bool) (s : string) : bool :=
  match s with
  | EmptyString => true
  | String c s' => f c && all f s'
  end.

Fixpoint map (f : ascii -> ascii) (s : string) : string :=
  match s with
  | EmptyString => EmptyString
  | String c s' => String (f c) (map f s')
  end.

(** [toUpperCase], on the letters a-z; the validators apply it only to
    strings already matched against a pattern of ASCII letters and digits,
    where it is the whole of [String.prototype.toUpperCase]. *)
Definition upper (c : ascii) : ascii :=
  if isLower c then ascii_of_nat (nat_of_ascii c - 32) else c.
Definition toUpperCase (s : string) : string := map upper s.

Fixpoint replicate (n : nat) (c : ascii) : string :=
  match n with
  | O => EmptyString
  | S n' => String c (replicate n' c)
  end.

(** [s.padStart(n, c)] for a one-character filler. *)
Definition padStart (n : nat) (c : ascii) (s : string) : string :=
  replicate (n - String.length s) c ++ s.

(** [xs.join(sep)] *)
Definition join (sep : string) (xs : list string) : string :=
  String.concat sep xs.

(** Decimal text of an integer, as [Number.prototype.toString] prints the
    integers below 10^21. *)
Definition ofZ (z : Z) : string := NilZero.string_of_int (Z.to_int z).

End Str.

(** ** Regular expressions

    The patterns of the sources are all of one shape: between [^] and [$], a
    sequence of character classes, each with a repetition count [{lo,hi}].
    [test] runs the corresponding automaton over the whole string. *)

Module Regex.

Inductive cls : Type :=
| Alpha                (* [A-Za-z] *)
| Upper                (* [A-Z] *)
| Digit                (* \d *)
| UpperOrDigit         (* [A-Z0-9] *)
| Lit (c : ascii).

Definition cls_test (k : cls) (c : ascii) : bool :=
  match k with
  | Alpha => Str.isAlpha c
  | Upper => Str.isUpper c
  | Digit => Str.isDigit c
  | UpperOrDigit => Str.isUpper c || Str.isDigit c
  | Lit a => Ascii.eqb c a
  end.

Record item : Type := rep { cl : cls; lo : nat; hi : nat }.

Definition regex : Type := list item.

(** The patterns that remain to be matched after reading [c]. *)
Fixpoint step (r : regex) (c : ascii) : list regex :=
  match r with
  | [] => []
  | it :: rest =>
      (if (0 <? hi it)%nat && cls_test (cl it) c
       then [rep (cl it) (pred (lo it)) (pred (hi it)) :: rest]
       else [])
      ++ (if (lo it =? 0)%nat then step rest c else [])
  end.

Definition nullable (r : regex) : bool :=
  forallb (fun it => (lo it =? 0)%nat) r.

Fixpoint run (states : list regex) (s : string) : bool :=
  match s with
  | EmptyString => existsb nullable states
  | String c s' => run (flat_map (fun r => step r c) states) s'
  end.

(** [/^...$/.test(s)] *)
Definition test (r : regex) (s : string) : bool := run [r] s.

Definition exactly (k : cls) (n : nat) : item := rep k n n.

End Regex.

(** ** Doubles

    The finite values of the binary64 format of IEEE 754, as rationals, and
    the rounding every arithmetic operation of JavaScript ends with: to the
    nearest double, ties to the one with an even significand. *)

Module Double.

Definition pow2 (k : Z) : Q := Qpower 2 k.

(** The exponent [k] with 2^k <= q < 2^(k+1), for a positive [q]. *)
Definition log2 (q : Q) : Z :=
  let k := Z.log2 (Qnum q) - Z.log2 (Zpos (Qden q)) in
  if Qle_bool (pow2 k) q then k else k - 1.

(** The nearest integer, the even one of two that are equally near. *)
Definition nearest_even (x : Q) : Z :=
  let f := Qfloor x in
  match (x - inject_Z f ?= 1 # 2)%Q with
  | Lt => f
  | Gt => f + 1
  | Eq => if Z.even f then f else f + 1
  end.

(** The nearest multiple of 2^e. *)
Definition on_grid (e : Z) (q : Q) : Q :=
  (inject_Z (nearest_even (q / pow2 e)) * pow2 e)%Q.

(** The weight of the last of the 53 bits of the significand of a positive
    [q]; below 2^-1022 the doubles are the multiples of 2^-1074. *)
Definition last_place (q : Q) : Z := Z.max (log2 q - 52) (-1074).

(** The double nearest to [q]; the numbers the sources compute stay far
    below 2^1024, where the rounding gives an infinity instead. *)
Definition round (q : Q) : Q :=
  match Qnum q with
  | 0 => 0%Q
  | Zpos _ => on_grid (last_place q) q
  | Zneg _ => (- on_grid (last_place (- q)) (- q))%Q
  end.

Definition is_double (q : Q) : bool := Qeq_bool (round q) q.

(** The greatest double below 1. *)
Definition below_one : Q := 9007199254740991 # 9007199254740992.

End Double.

(** ** JavaScript values *)

#[local] Set Warnings "-register-all".

Inductive value : Type :=
| VUndefined
| VNull
| VBool (b : bool)
| VNum (q : Q)
| VNaN
| VStr (s : string)
| VArr (items : list value)
| VObj (fields : list (string * value)).

(** What the engine and the host decide. *)
Record Runtime : Type := {
  (** [Date.now()], milliseconds since the epoch *)
  clock : Z;
  (** local time minus UTC, in minutes, taken constant over the dates
      compared (no daylight-saving change between them) *)
  utc_offset : Z;
  (** whether [new Date("2025-02-30")] carries the day into March (V8) or is
      an invalid date (the reading of ECMA-262 other engines follow) *)
  day_carry : bool;
  (** [Number.prototype.toString] on a number that is not an integer *)
  number_text : Q -> string
}.

Module Js.

Definition truthy (v : value) : bool :=
  match v with
  | VUndefined | VNull | VNaN => false
  | VBool b => b
  | VNum q => negb (Qeq_bool q 0)
  | VStr s => negb (String.eqb s "")
  | VArr _ | VObj _ => true
  end.

(** [Number.isInteger] *)
Definition isInteger (v : value) : bool :=
  match v with
  | VNum q => (Zpos (Qden (Qred q)) =? 1)
  | _ => false
  end.

(** [a < b] and [a > b] on numbers *)
Definition lt (a b : Q) : bool := negb (Qle_bool b a).
Definition gt (a b : Q) : bool := negb (Qle_bool a b).

(** [a * b] and [a + b] on numbers, and a decimal literal *)
Definition mul (a b : Q) : Q := Double.round (a * b).
Definition add (a b : Q) : Q := Double.round (a + b).
Definition literal (q : Q) : Q := Double.round q.

(** [v === n] for a numeric literal [n] *)
Definition is_number (v : value) (n : Q) : bool :=
  match v with VNum q => Qeq_bool q n | _ => false end.

(** [v === s] for a string literal [s] *)
Definition is_string (v : value) (s : string) : bool :=
  match v with VStr t => String.eqb t s | _ => false end.

(** [o.k] for a key [k] that names no property of [Object.prototype]: the
    own property under the key, [undefined] when there is none. *)
Fixpoint field (k : string) (fs : list (string * value)) : value :=
  match fs with
  | [] => VUndefined
  | (k', v) :: rest => if String.eqb k' k then v else field k rest
  end.

(** [Object.hasOwn(o, k)] *)
Definition has_own (k : string) (fs : list (string * value)) : bool :=
  existsb (fun kv => String.eqb (fst kv) k) fs.

(** The names of the properties every object inherits from
    [Object.prototype].  Each holds a function, but for [__proto__], which
    reads as the prototype itself: all of them truthy, none a string. *)
Definition inherited_names : list string :=
  ["constructor"; "__defineGetter__"; "__defineSetter__"; "hasOwnProperty";
   "__lookupGetter__"; "__lookupSetter__"; "isPrototypeOf";
   "propertyIsEnumerable"; "toString"; "valueOf"; "__proto__";
   "toLocaleString"].

Definition inherited (k : string) : bool :=
  existsb (String.eqb k) inherited_names.

(** What [table[key] || fallback] gives on an object literal [table] whose
    values are strings: a string, or the value inherited under [key]. *)
Inductive looked_up : Type :=
| Text (s : string)
| Inherited (key : string).

Fixpoint own (key : string) (table : list (string * string))
  : option string :=
  match table with
  | [] => None
  | (k, v) :: rest => if String.eqb k key then Some v else own key rest
  end.

Definition get_or (key : string) (table : list (string * string))
    (fallback : string) : looked_up :=
  match own key table with
  | Some v => Text (if String.eqb v "" then fallback else v)
  | None => if inherited key then Inherited key else Text fallback
  end.

(** Backslash, double quote and the digits of [\u00XX]. *)
Definition backslash : string := String (ascii_of_nat 92) EmptyString.
Definition dquote : string := String (ascii_of_nat 34) EmptyString.

Definition hexdigit (n : nat) : ascii :=
  if (n <? 10)%nat then ascii_of_nat (48 + n) else ascii_of_nat (87 + n).

(** One code unit inside [QuoteJSONString]. *)
Definition json_escape (c : ascii) : string :=
  let n := nat_of_ascii c in
  if (n =? 8)%nat then backslash ++ "b"
  else if (n =? 9)%nat then backslash ++ "t"
  else if (n =? 10)%nat then backslash ++ "n"
  else if (n =? 12)%nat then backslash ++ "f"
  else if (n =? 13)%nat then backslash ++ "r"
  else if (n =? 34)%nat then backslash ++ dquote
  else if (n =? 92)%nat then backslash ++ backslash
  else if (n <? 32)%nat then
    backslash ++ "u00"
    ++ String (hexdigit (n / 16)) (String (hexdigit (n mod 16)) EmptyString)
  else String c EmptyString.

Fixpoint json_escape_all (s : string) : string :=
  match s with
  | EmptyString => EmptyString
  | String c s' => json_escape c ++ json_escape_all s'
  end.

Definition json_quote (s : string) : string :=
  dquote ++ json_escape_all s ++ dquote.

Section WithRuntime.
Variable rt : Runtime.

(** [Number.prototype.toString]: an integer of less than 22 digits is
    printed digit by digit; the text of any other number (with a fraction,
    or in exponent form from 1e+21 on) is the engine's. *)
Definition number_toString (q : Q) : string :=
  let r := Qred q in
  if (Zpos (Qden r) =? 1) && (Z.abs (Qnum r) <? 10 ^ 21)
  then Str.ofZ (Qnum r) else number_text rt q.

(** [String(v)], the conversion a template literal and [new Error(v)]
    apply.  An object is converted by its [toString]: the inherited one,
    unless the object has a property [toString] of its own, which is no
    function; the inherited [valueOf] then returns the object, and the
    conversion throws a [TypeError], here [None].  An array joins the
    conversions of its elements. *)
Fixpoint toString (v : value) : option string :=
  match v with
  | VUndefined => Some "undefined"
  | VNull => Some "null"
  | VBool true => Some "true"
  | VBool false => Some "false"
  | VNum q => Some (number_toString q)
  | VNaN => Some "NaN"
  | VStr s => Some s
  | VArr items =>
      option_map (Str.join ",")
        ((fix each (l : list value) : option (list string) :=
            match l with
            | [] => Some []
            | x :: l' =>
                match match x with
                      | VUndefined | VNull => Some ""
                      | _ => toString x
                      end, each l' with
                | Some t, Some ts => Some (t :: ts)
                | _, _ => None
                end
            end) items)
  | VObj fields =>
      if has_own "toString" fields then None else Some "[object Object]"
  end.

(** [JSON.stringify(v, null, 2)] below the indentation [ind]; [None] is
    the [undefined] that makes the enclosing object drop the property. *)
Fixpoint stringify_at (ind : string) (v : value) : option string :=
  let ind' := ind ++ "  " in
  let sep := "," ++ Str.nl ++ ind' in
  match v with
  | VUndefined => None
  | VNull | VNaN => Some "null"
  | VBool true => Some "true"
  | VBool false => Some "false"
  | VNum q => Some (number_toString q)
  | VStr s => Some (json_quote s)
  | VArr items =>
      match items with
      | [] => Some "[]"
      | _ =>
          let parts :=
            (fix each (l : list value) : list string :=
               match l with
               | [] => []
               | x :: l' =>
                   match stringify_at ind' x with
                   | Some t => t
                   | None => "null"
                   end :: each l'
               end) items in
          Some ("[" ++ Str.nl ++ ind' ++ Str.join sep parts
                    ++ Str.nl ++ ind ++ "]")
      end
  | VObj fields =>
      let parts :=
        (fix each (l : list (string * value)) : list string :=
           match l with
           | [] => []
           | (k, x) :: l' =>
               match stringify_at ind' x with
               | Some t => (json_quote k ++ ": " ++ t) :: each l'
               | None => each l'
               end
           end) fields in
      match parts with
      | [] => Some "{}"
      | _ => Some ("{" ++ Str.nl ++ ind' ++ Str.join sep parts
                       ++ Str.nl ++ ind ++ "}")
      end
  end.

(** [JSON.stringify(details, null, 2)] in a template literal. *)
Definition stringify (v : value) : string :=
  match stringify_at "" v with
  | Some t => t
  | None => "undefined"
  end.

End WithRuntime.

End Js.

(** ** Dates ([Date] of ECMA-262, as far as the sources use it) *)

Module JsDate.

Definition msPerDay : Z := 86400000.

Definition is_leap (y : Z) : bool :=
  ((y mod 4 =? 0) && negb (y mod 100 =? 0)) || (y mod 400 =? 0).

Definition days_in_month (y m : Z) : Z :=
  if m =? 2 then (if is_leap y then 29 else 28)
  else if (m =? 4) || (m =? 6) || (m =? 9) || (m =? 11) then 30
  else 31.

(** Day number, counted from 1970-01-01, of the civil date [y]-[m]-[d]. *)
Definition days_from_civil (y m d : Z) : Z :=
  let y' := if m <=? 2 then y - 1 else y in
  let era := y' / 400 in
  let yoe := y' - era * 400 in
  let mp := if 2 <? m then m - 3 else m + 9 in
  let doy := (153 * mp + 2) / 5 + d - 1 in
  let doe := yoe * 365 + yoe / 4 - yoe / 100 + doy in
  era * 146097 + doe - 719468.

(** [MakeDay(y, m - 1, d)]: the day [d] counted from the first of the
    month, whether or not the month has that many days. *)
Definition MakeDay (y m d : Z) : Z := days_from_civil y m 1 + d - 1.

Definition digit (c : ascii) : Z := Str.code c - 48.

Section WithRuntime.
Variable rt : Runtime.

(** [new Date(s).getTime()] for [s] in the date-only form [YYYY-MM-DD],
    the only form the callers pass: midnight UTC of that day.  [None] is
    the invalid date, whose time value is [NaN]; a month outside 01-12
    or a day outside 01-31 is taken to give it. *)
Definition parse (s : string) : option Z :=
  match Str.chars s with
  | [y1; y2; y3; y4; _; m1; m2; _; d1; d2] =>
      let y := 1000 * digit y1 + 100 * digit y2 + 10 * digit y3 + digit y4 in
      let m := 10 * digit m1 + digit m2 in
      let d := 10 * digit d1 + digit d2 in
      if (1 <=? m) && (m <=? 12) && (1 <=? d)
         && (d <=? (if day_carry rt then 31 else days_in_month y m))
      then Some (msPerDay * MakeDay y m d)
      else None
  | _ => None
  end.

(** [t.setHours(0, 0, 0, 0)]: the start, in local time, of the local day
    that holds the instant [t]. *)
Definition setHours0 (t : Z) : Z :=
  let off := utc_offset rt * 60000 in
  ((t + off) / msPerDay) * msPerDay - off.

(** [new Date()] *)
Definition now : Z := clock rt.

(** [new Date(a) <= new Date(b)]; a comparison with an invalid date is
    false. *)
Definition le_dates (a b : string) : bool :=
  match parse a, parse b with
  | Some ta, Some tb => ta <=? tb
  | _, _ => false
  end.
End WithRuntime.

End JsDate.

(** ** errorHandler.js *)

(** An object thrown that is neither of the two classes: an [Error] of the
    runtime, or what the provider's client library rejects with.  The
    sources read its [message], its [code], and the provider's answer in
    [response]. *)
Record ProviderError : Type := {
  pe_code : value;
  pe_detail : value
}.

Record ErrorResponse : Type := {
  (** [response.data.errors], when [response.data] is there and holds an
      array [errors] *)
  resp_errors : option (list ProviderError);
  (** whether [response.data] is truthy *)
  resp_has_data : bool;
  resp_status : value
}.

Record thrown : Type := {
  th_message : value;
  th_code : value;
  th_response : option ErrorResponse
}.

(** What the code throws: the two error classes of [errorHandler.js], and any
    other object. *)
Inductive exn : Type :=
| ValidationError (message field : string) (value : value)
| FlightAPIError (message code : string) (details : list (string * value))
| Thrown (t : thrown).

(** [new TypeError(message)] and the like: an error with a message only. *)
Definition plain_error (message : string) : exn :=
  Thrown {| th_message := VStr message; th_code := VUndefined;
            th_response := None |}.

(** [error.message], [error.code] and [error.response] on whatever was
    thrown. *)
Definition exn_message (e : exn) : value :=
  match e with
  | ValidationError m _ _ | FlightAPIError m _ _ => VStr m
  | Thrown t => th_message t
  end.

Definition exn_code (e : exn) : value :=
  match e with
  | ValidationError _ _ _ => VUndefined
  | FlightAPIError _ c _ => VStr c
  | Thrown t => th_code t
  end.

Definition exn_response (e : exn) : option ErrorResponse :=
  match e with
  | Thrown t => th_response t
  | _ => None
  end.

Definition result (A : Type) : Type := (exn + A)%type.

(** The [TypeError] of a conversion to a string that fails. *)
Definition cannot_convert : exn :=
  plain_error "Cannot convert object to primitive value".

(** [`${v}`]: the text of [v], or the [TypeError] thrown. *)
Definition template (rt : Runtime) (v : value) : result string :=
  match Js.toString rt v with
  | Some s => inr s
  | None => inl cannot_convert
  end.

(** The table [errorCodes]; it has no key [GENERAL_ERROR], which therefore
    reads as [undefined] ([None]). *)
Module errorCodes.
Definition INVALID_AIRPORT_CODE : option string := Some "INVALID_AIRPORT_CODE".
Definition INVALID_DATE_FORMAT : option string := Some "INVALID_DATE_FORMAT".
Definition INVALID_PASSENGER_COUNT : option string := Some "INVALID_PASSENGER_COUNT".
Definition FLIGHT_NOT_FOUND : option string := Some "FLIGHT_NOT_FOUND".
Definition API_RATE_LIMIT : option string := Some "API_RATE_LIMIT".
Definition API_UNAVAILABLE : option string := Some "API_UNAVAILABLE".
Definition NETWORK_ERROR : option string := Some "NETWORK_ERROR".
Definition GENERAL_ERROR : option string := None.
End errorCodes.

(** [new FlightAPIError(message, code, details)]; an argument that is
    [undefined] or left out takes its default. *)
Definition new_FlightAPIError (message : string) (code : option string)
    (details : option (list (string * value))) : exn :=
  FlightAPIError message
    (match code with Some c => c | None => "GENERAL_ERROR" end)
    (match details with Some d => d | None => [] end).

(** The content of a tool response: one block of text. *)
Record payload : Type := text_block { text : string }.

Module Patterns.
Import Regex.
(** [/^[A-Za-z]{3}$/] *)
Definition airport : regex := [exactly Alpha 3].
(** [/^\d{4}-\d{2}-\d{2}$/] *)
Definition date : regex :=
  [exactly Digit 4; exactly (Lit "-") 1; exactly Digit 2;
   exactly (Lit "-") 1; exactly Digit 2].
(** [/^[A-Za-z]{2,3}\d{1,4}$/] *)
Definition flight : regex := [rep Alpha 2 3; rep Digit 1 4].
(** [/^[A-Za-z]{2,3}$/] *)
Definition airline : regex := [rep Alpha 2 3].
(** [^[A-Z]{2}\d{4}$], the pattern the specification gives for the flight
    numbers of the synthetic offers *)
Definition mock_flight_number : regex := [exactly Upper 2; exactly Digit 4].
(** [^[A-Z][A-Z0-9]\d{4}$], which also admits the carrier code B6 *)
Definition carrier_flight_number : regex :=
  [exactly Upper 1; exactly UpperOrDigit 1; exactly Digit 4].
End Patterns.

(** The two characters backslash and n, which the templates of the sources
    write as [\\n]: a line break in the texts returned. *)
Definition bn : string := Js.backslash ++ "n".

Section ErrorHandler.
Variable rt : Runtime.

Definition validateAirportCode (code : value) : result string :=
  match code with
  | VStr s =>
      if negb (Js.truthy code) then
        inl (ValidationError "Airport code is required" "airport_code" code)
      else if negb (String.length s =? 3)%nat then
        inl (ValidationError "Airport code must be 3 characters long"
               "airport_code" code)
      else if negb (Regex.test Patterns.airport s) then
        inl (ValidationError "Airport code must contain only letters"
               "airport_code" code)
      else inr (Str.toUpperCase s)
  | _ => (* typeof code !== "string" *)
      inl (ValidationError "Airport code is required" "airport_code" code)
  end.

Definition validateDate (dateString : value) (fieldName : string)
  : result string :=
  match dateString with
  | VStr s =>
      if negb (Js.truthy dateString) then
        inl (ValidationError (fieldName ++ " is required") fieldName dateString)
      else if negb (Regex.test Patterns.date s) then
        inl (ValidationError (fieldName ++ " must be in YYYY-MM-DD format")
               fieldName dateString)
      else
        match JsDate.parse rt s with
        | None =>
            inl (ValidationError ("Invalid " ++ fieldName) fieldName dateString)
        | Some date =>
            (* Check if date is not in the past (allow today) *)
            let today := JsDate.setHours0 rt (JsDate.now rt) in
            let date := JsDate.setHours0 rt date in
            if date <? today then
              inl (ValidationError (fieldName ++ " cannot be in the past")
                     fieldName dateString)
            else inr s
        end
  | _ =>
      inl (ValidationError (fieldName ++ " is required") fieldName dateString)
  end.

Definition validateFlightNumber (flightNumber : value) : result string :=
  match flightNumber with
  | VStr s =>
      if negb (Js.truthy flightNumber) then
        inl (ValidationError "Flight number is required" "flight_number"
               flightNumber)
      else if negb (Regex.test Patterns.flight s) then
        inl (ValidationError
               "Flight number must be in format: AA123, DL1234, etc."
               "flight_number" flightNumber)
      else inr (Str.toUpperCase s)
  | _ =>
      inl (ValidationError "Flight number is required" "flight_number"
             flightNumber)
  end.

(** Returns [count || 1]: 1 for [undefined], and the count itself
    otherwise, which has passed the range test and is not 0. *)
Definition validatePassengerCount (count : value) : result Q :=
  match count with
  | VUndefined => inr 1%Q
  | VNum q =>
      if negb (Js.isInteger count) || Js.lt q 1 || Js.gt q 9 then
        inl (ValidationError "Number of adults must be between 1 and 9"
               "adults" count)
      else inr q
  | _ => (* Number.isInteger is false *)
      inl (ValidationError "Number of adults must be between 1 and 9"
             "adults" count)
  end.

Definition validClasses : list string :=
  ["economy"; "premium_economy"; "business"; "first"].

(** [xs.includes(v)] for an array of strings. *)
Definition includes (xs : list string) (v : value) : bool :=
  existsb (Js.is_string v) xs.

(** Returns [travelClass || "economy"]; a [travelClass] that has passed the
    test is falsy or one of the four strings. *)
Definition validateTravelClass (travelClass : value) : result string :=
  if Js.truthy travelClass && negb (includes validClasses travelClass) then
    inl (ValidationError
           ("Travel class must be one of: " ++ Str.join ", " validClasses)
           "travel_class" travelClass)
  else
    inr (match travelClass with
         | VStr s => if Js.truthy travelClass then s else "economy"
         | _ => "economy"
         end).

(** [formatError] returns a payload, or throws when the template that
    prints [error.value] or [error.message] cannot convert it. *)
Definition formatError (error : exn) : result payload :=
  match error with
  | ValidationError message field value =>
      match template rt value with
      | inr shown =>
          inr (text_block ("Validation Error: " ++ message ++ bn ++ bn
                           ++ "Field: " ++ field ++ bn
                           ++ "Value: " ++ shown))
      | inl e => inl e
      end
  | FlightAPIError message code details =>
      let errorText :=
        "Flight API Error: " ++ message ++ bn ++ bn ++ "Error Code: " ++ code in
      let errorText :=
        if (0 <? length details)%nat then
          errorText ++ bn ++ bn ++ "Details:" ++ bn
                    ++ Js.stringify rt (VObj details)
        else errorText in
      inr (text_block errorText)
  | Thrown t =>
      match template rt (th_message t) with
      | inr shown =>
          inr (text_block
                 ("An unexpected error occurred: " ++ shown ++ bn ++ bn
                  ++ "Please try again later or contact support if the issue persists."))
      | inl e => inl e
      end
  end.

End ErrorHandler.

(** ** Offers, provider requests and the world *)

(** A flight offer as both paths build it and [formatFlightSearchResults]
    reads it.  The fields are of the types the generator gives them; the
    offers of the provider are taken to have them too, once normalised
    (texts where the generator has texts, finite numbers for the
    prices). *)
Record FlightOffer : Type := {
  airline : string;
  flight_number : string;
  offer_origin : string;
  offer_destination : string;
  offer_departure_date : string;
  departure_time : string;
  arrival_time : string;
  duration : string;
  price_amount : Q;
  price_currency : string;
  price_per_person : Q;
  stops : Z;
  offer_travel_class : string;
  aircraft : string;
  (** [None]: no booking class, or an empty one *)
  booking_class : option string;
  (** [None]: the offer has no [segments] property *)
  segments : option Z
}.

(** The argument of [AmadeusFlightService.searchFlights]. *)
Record SearchParams : Type := {
  origin : string;
  destination : string;
  departure_date : string;
  (** [null] when there is no return date *)
  return_date : option string;
  adults : Q;
  travel_class : string
}.

(** The parameters of the provider's flight-offers search. *)
Record SearchRequest : Type := {
  originLocationCode : string;
  destinationLocationCode : string;
  departureDate : string;
  req_adults : Q;
  currencyCode : string;
  max : Z;
  returnDate : option string;
  travelClass : option Js.looked_up
}.

Inductive ProviderCall : Type :=
| FlightOffersSearch (r : SearchRequest)
| LocationsSearch (keyword subType : string) (page_limit : Z).

(** The state a call runs in: the draws [Math.random()] is going to return,
    how many have been taken, and the requests sent to the provider so
    far. *)
Record World : Type := {
  draws : nat -> Q;
  cursor : nat;
  requests : list ProviderCall
}.

(** ** Computations that read the world and may throw *)

Definition M (A : Type) : Type := World -> result A * World.

Definition ret {A} (a : A) : M A := fun w => (inr a, w).

Definition throw {A} (e : exn) : M A := fun w => (inl e, w).

Definition bind {A B} (m : M A) (k : A -> M B) : M B :=
  fun w =>
    match m w with
    | (inr a, w') => k a w'
    | (inl e, w') => (inl e, w')
    end.

(** [try { m } catch (error) { h error }] *)
Definition try_catch {A} (m : M A) (h : exn -> M A) : M A :=
  fun w =>
    match m w with
    | (inr a, w') => (inr a, w')
    | (inl e, w') => h e w'
    end.

(** A pure step that may throw. *)
Definition lift {A} (r : result A) : M A := fun w => (r, w).

Declare Scope monad_scope.
Delimit Scope monad_scope with monad.
Notation "x <- m ;; k" := (bind m (fun x => k))
  (at level 61, m at next level, right associativity) : monad_scope.
Notation "m ;;; k" := (bind m (fun _ => k))
  (at level 61, right associativity) : monad_scope.
Local Open Scope monad_scope.

(** [Math.random()] *)
Definition Math_random : M Q :=
  fun w => (inr (draws w (cursor w)),
            {| draws := draws w; cursor := S (cursor w);
               requests := requests w |}).

(** [Math.floor] *)
Definition Math_floor (q : Q) : Z := Qfloor q.

(** Sending a request to the provider. *)
Definition send (c : ProviderCall) : M unit :=
  fun w => (inr tt,
            {| draws := draws w; cursor := cursor w;
               requests := requests w ++ [c] |}).

(** [xs[i]] for a computed index: [None] is [undefined]. *)
Definition at_index {A} (xs : list A) (i : Z) : option A :=
  if i <? 0 then None else nth_error xs (Z.to_nat i).

(** ** amadeusClient.js *)

(** An airport as the provider's location search describes it. *)
Record RawAirport : Type := {
  iataCode : value;
  raw_name : value;
  (** [address?.cityName] and [address?.countryName] *)
  cityName : value;
  countryName : value;
  timeZoneOffset : value;
  (** [geoCode?.latitude] and [geoCode?.longitude] *)
  latitude : value;
  longitude : value
}.

Record Airport : Type := {
  ap_code : value;
  ap_name : value;
  ap_city : value;
  ap_country : value;
  ap_timezone : value;
  ap_lat : value;
  ap_lon : value
}.

Module AmadeusFlightService.
Section Service.
Variable rt : Runtime.

(** The provider and its client library.  [RawOffer] is an offer as the
    provider returns it; a search answers with [response.data] ([None]
    when it is missing) or is rejected with an object. *)
Variable RawOffer : Type.
Variable flightOffersSearch_get :
  SearchRequest -> thrown + option (list RawOffer).
Variable locations_get :
  string -> thrown + option (list RawAirport).

(** [formatFlightOffers], the normalisation of the provider's offers, is
    kept abstract: it returns the offers or throws (a [TypeError] on an
    offer that lacks a part). *)
Variable formatFlightOffers : list RawOffer -> thrown + list FlightOffer.

(** [x || d] *)
Definition or_else (x d : value) : value := if Js.truthy x then x else d.

Definition cabinClassMap : list (string * string) :=
  [("economy", "ECONOMY"); ("premium_economy", "PREMIUM_ECONOMY");
   ("business", "BUSINESS"); ("first", "FIRST")].

Definition requestParams (p : SearchParams) : SearchRequest :=
  {| originLocationCode := origin p;
     destinationLocationCode := destination p;
     departureDate := departure_date p;
     req_adults := if Qeq_bool (adults p) 0 then 1%Q else adults p;
     currencyCode := "USD";
     max := 10;
     returnDate :=
       match return_date p with
       | Some d => if String.eqb d "" then None else Some d
       | None => None
       end;
     travelClass :=
       if String.eqb (travel_class p) "" then None
       else Some (Js.get_or (travel_class p) cabinClassMap "ECONOMY") |}.

Definition searchParams_value (p : SearchParams) : value :=
  VObj [("origin", VStr (origin p));
        ("destination", VStr (destination p));
        ("departure_date", VStr (departure_date p));
        ("return_date",
          match return_date p with Some d => VStr d | None => VNull end);
        ("adults", VNum (adults p));
        ("travel_class", VStr (travel_class p))].

(** The [catch] block of [searchFlights]: what it throws for the error
    caught.  The constructor of [FlightAPIError] hands its message to that
    of [Error], which converts it to a string: where the message is the
    provider's [detail], the conversion may throw instead. *)
Definition searchFlights_catch (error : exn) : exn :=
  match error with
  | FlightAPIError _ _ _ => error
  | _ =>
      let structured :=
        match exn_response error with
        | Some r =>
            if resp_has_data r then
              match resp_errors r with
              | Some (firstError :: _) => Some firstError
              | _ => None
              end
            else None
        | None => None
        end in
      match structured with
      | Some firstError =>
          if Js.is_number (pe_code firstError) 38189 then
            new_FlightAPIError "Invalid airport code provided"
              errorCodes.INVALID_AIRPORT_CODE
              (Some [("detail", pe_detail firstError)])
          else if Js.is_number (pe_code firstError) 4926 then
            new_FlightAPIError "Invalid date format or date in the past"
              errorCodes.INVALID_DATE_FORMAT
              (Some [("detail", pe_detail firstError)])
          else
            match template rt
                    (or_else (pe_detail firstError)
                       (VStr "Amadeus API error")) with
            | inr message =>
                new_FlightAPIError message errorCodes.API_UNAVAILABLE
                  (Some [("code", pe_code firstError);
                         ("detail", pe_detail firstError)])
            | inl e => e
            end
      | None =>
          if Js.is_string (exn_code error) "ENOTFOUND"
             || Js.is_string (exn_code error) "ECONNREFUSED" then
            new_FlightAPIError "Unable to connect to flight data service"
              errorCodes.NETWORK_ERROR
              (Some [("originalError", exn_message error)])
          else if match exn_response error with
                  | Some r => Js.is_number (resp_status r) 429
                  | None => false
                  end then
            new_FlightAPIError
              "API rate limit exceeded. Please try again later"
              errorCodes.API_RATE_LIMIT None
          else
            new_FlightAPIError "Failed to search flights"
              errorCodes.API_UNAVAILABLE
              (Some [("originalError", exn_message error)])
      end
  end.

(** [await] of a library call: the request is sent, then the answer is
    returned or the rejection thrown. *)
Definition await {A} (c : ProviderCall) (answer : thrown + A) : M A :=
  send c ;;;
  match answer with
  | inr a => ret a
  | inl t => throw (Thrown t)
  end.

Definition searchFlights (searchParams : SearchParams)
  : M (list FlightOffer) :=
  try_catch
    (let rp := requestParams searchParams in
     data <- await (FlightOffersSearch rp) (flightOffersSearch_get rp) ;;
     match data with
     | None | Some [] =>
         throw (new_FlightAPIError
                  "No flights found for the specified criteria"
                  errorCodes.FLIGHT_NOT_FOUND
                  (Some [("searchParams", searchParams_value searchParams)]))
     | Some offers =>
         match formatFlightOffers offers with
         | inr flights => ret flights
         | inl t => throw (Thrown t)
         end
     end)
    (fun error => throw (searchFlights_catch error)).

Definition getAirportInfo (airportCode : string) : M Airport :=
  try_catch
    (data <- await (LocationsSearch airportCode "AIRPORT" 1)
                   (locations_get airportCode) ;;
     match data with
     | None | Some [] =>
         throw (new_FlightAPIError
                  ("Airport information not found for code: " ++ airportCode)
                  errorCodes.INVALID_AIRPORT_CODE
                  (Some [("airport_code", VStr airportCode)]))
     | Some (airport :: _) =>
         ret {| ap_code := iataCode airport;
                ap_name := raw_name airport;
                ap_city := or_else (cityName airport) (VStr "Unknown");
                ap_country := or_else (countryName airport) (VStr "Unknown");
                ap_timezone :=
                  or_else (timeZoneOffset airport) (VStr "Unknown");
                ap_lat := or_else (latitude airport) (VNum 0);
                ap_lon := or_else (longitude airport) (VNum 0) |}
     end)
    (fun error =>
       match error with
       | FlightAPIError _ _ _ => throw error
       | _ =>
           throw (new_FlightAPIError "Failed to get airport information"
                    errorCodes.API_UNAVAILABLE
                    (Some [("originalError", exn_message error)]))
       end).

End Service.
End AmadeusFlightService.

(** ** index.js: the server *)

(** A [tools/call] request: [request.params.name] and
    [request.params.arguments]. *)
Record Request : Type := {
  name : string;
  arguments : value
}.

Module FlightMCPServer.
Section Server.
Variable rt : Runtime.
Variable RawOffer : Type.
Variable flightOffersSearch_get :
  SearchRequest -> thrown + option (list RawOffer).
Variable locations_get : string -> thrown + option (list RawAirport).
Variable formatFlightOffers : list RawOffer -> thrown + list FlightOffer.

(** [this.useRealAPI], set by the probe at start-up: live data when it is
    truthy, sample data otherwise. *)
Variable useRealAPI : bool.

(** The arrow U+2192 of the templates, as the bytes of its UTF-8 form. *)
Definition arrow : string :=
  String (ascii_of_nat 226) (String (ascii_of_nat 134)
    (String (ascii_of_nat 146) EmptyString)).

Definition show (q : Q) : string := Js.number_toString rt q.
Definition showZ (z : Z) : string := Str.ofZ z.

(** [args.k]; reading a property of [undefined] or [null] throws. *)
Definition prop (args : value) (k : string) : M value :=
  match args with
  | VUndefined =>
      throw (plain_error
               ("Cannot read properties of undefined (reading '" ++ k ++ "')"))
  | VNull =>
      throw (plain_error
               ("Cannot read properties of null (reading '" ++ k ++ "')"))
  | VObj fs => ret (Js.field k fs)
  | _ => ret VUndefined
  end.

Definition generateRandomTime : M string :=
  r1 <- Math_random ;;
  let hours := Math_floor (Js.mul r1 24) in
  r2 <- Math_random ;;
  let minutes := Math_floor (Js.mul r2 60) in
  ret (Str.padStart 2 "0" (showZ hours) ++ ":"
       ++ Str.padStart 2 "0" (showZ minutes)).

Definition airlines : list (string * string) :=
  [("AA", "American Airlines");
   ("DL", "Delta Air Lines");
   ("UA", "United Airlines");
   ("WN", "Southwest Airlines");
   ("B6", "JetBlue Airways")].

(** One turn of the loop of [generateMockFlights]: the offer pushed. *)
Definition mockFlight (origin destination departureDate : string)
    (adults : Q) (travelClass : string) : M FlightOffer :=
  r <- Math_random ;;
  match at_index airlines
          (Math_floor (Js.mul r (inject_Z (Z.of_nat (length airlines))))) with
  | None =>
      throw (plain_error "Cannot read properties of undefined (reading 'code')")
  | Some (airline_code, airline_name) =>
      r <- Math_random ;;
      let flightNumber :=
        airline_code ++ showZ (Math_floor (Js.add (Js.mul r 9000) 1000)) in
      r <- Math_random ;;
      let basePrice := Math_floor (Js.add (Js.mul r 800) 200) in
      r <- Math_random ;;
      let duration := Math_floor (Js.add (Js.mul r 8) 2) in (* 2-10 hours *)
      departure <- generateRandomTime ;;
      arrival <- generateRandomTime ;;
      r <- Math_random ;;
      let minutes := Math_floor (Js.mul r 60) in
      r <- Math_random ;;
      ret {| airline := airline_name;
             flight_number := flightNumber;
             offer_origin := origin;
             offer_destination := destination;
             offer_departure_date := departureDate;
             departure_time := departure;
             arrival_time := arrival;
             duration := showZ duration ++ "h " ++ showZ minutes ++ "m";
             price_amount := Js.mul (inject_Z basePrice) adults;
             price_currency := "USD";
             price_per_person := inject_Z basePrice;
             stops := if Js.gt r (Js.literal (6 # 10)) then 0 else 1;
             offer_travel_class := travelClass;
             aircraft := "Boeing 737-800";
             booking_class := Some "V";
             segments := None |}
  end.

(** [for (let i = 0; i < 5; i++) flights.push(...)], [n] turns left. *)
Fixpoint mockLoop (n : nat) (flights : list FlightOffer)
    (origin destination departureDate : string)
    (adults : Q) (travelClass : string) : M (list FlightOffer) :=
  match n with
  | O => ret flights
  | S n' =>
      f <- mockFlight origin destination departureDate adults travelClass ;;
      mockLoop n' (flights ++ [f]) origin destination departureDate
        adults travelClass
  end.

(** [flights.sort((a, b) => a.price.amount - b.price.amount)]: the stable
    sort by ascending amount. *)
Fixpoint insert_by_amount (f : FlightOffer) (sorted : list FlightOffer)
  : list FlightOffer :=
  match sorted with
  | [] => [f]
  | g :: rest =>
      if Qle_bool (price_amount f) (price_amount g) then f :: g :: rest
      else g :: insert_by_amount f rest
  end.

Fixpoint sort_by_amount (flights : list FlightOffer) : list FlightOffer :=
  match flights with
  | [] => []
  | f :: rest => insert_by_amount f (sort_by_amount rest)
  end.

Definition generateMockFlights (origin destination departureDate : string)
    (returnDate : option string) (adults : Q) (travelClass : string)
  : M (list FlightOffer) :=
  flights <- mockLoop 5 [] origin destination departureDate
               adults travelClass ;;
  ret (sort_by_amount flights).

(** The block [formatFlightSearchResults] writes for the offer at
    [index]. *)
Definition formatOffer (index : nat) (flight : FlightOffer) : string :=
  showZ (Z.of_nat index + 1) ++ ". " ++ airline flight
    ++ " (" ++ flight_number flight ++ ")" ++ bn
  ++ "   Time: " ++ departure_time flight ++ " " ++ arrow ++ " "
    ++ arrival_time flight ++ " (" ++ duration flight ++ ")" ++ bn
  ++ "   Price: " ++ price_currency flight ++ " "
    ++ show (price_amount flight) ++ " total ("
    ++ price_currency flight ++ " " ++ show (price_per_person flight)
    ++ "/person)" ++ bn
  ++ "   Aircraft: "
    ++ (if String.eqb (aircraft flight) "" then "Aircraft info unavailable"
        else aircraft flight)
    ++ " | "
    ++ (if stops flight =? 0 then "Direct"
        else showZ (stops flight) ++ " stop(s)")
    ++ bn
  ++ "   Class: " ++ offer_travel_class flight
  ++ match booking_class flight with
     | Some b => if String.eqb b "" then "" else " (" ++ b ++ ")"
     | None => ""
     end
  ++ match segments flight with
     | Some n => if (negb (n =? 0)) && (1 <? n)
                 then " | " ++ showZ n ++ " segments" else ""
     | None => ""
     end
  ++ bn ++ bn.

Fixpoint formatOffers (index : nat) (flights : list FlightOffer) : string :=
  match flights with
  | [] => ""
  | f :: rest => formatOffer index f ++ formatOffers (S index) rest
  end.

Definition formatFlightSearchResults (flights : list FlightOffer)
    (origin destination departureDate : string) (returnDate : option string)
  : string :=
  "Flight Search Results" ++ bn
  ++ "Route: " ++ origin ++ " " ++ arrow ++ " " ++ destination ++ bn
  ++ "Departure Date: " ++ departureDate ++ bn
  ++ match returnDate with
     | Some d => if String.eqb d "" then ""
                 else "Return Date: " ++ d ++ bn
     | None => ""
     end
  ++ (if useRealAPI then "Live data from Amadeus API"
      else "Sample data (configure API for real results)") ++ bn ++ bn
  ++ formatOffers 0 flights
  ++ (if negb useRealAPI then
        "Note: These are sample results. Real Amadeus API integration is available with valid credentials." ++ bn
      else "").

(** The [catch] of the operations: the two error classes pass, anything
    else becomes an [API_UNAVAILABLE] error. *)
Definition rethrow {A} (message : string) (error : exn) : M A :=
  match error with
  | ValidationError _ _ _ | FlightAPIError _ _ _ => throw error
  | _ =>
      throw (new_FlightAPIError message errorCodes.API_UNAVAILABLE
               (Some [("originalError", exn_message error)]))
  end.

(** [searchFlights], first part: the statements before the [try],
    which validate the arguments and yield the validated values. *)
Definition searchFlights_validate (args : value) : M SearchParams :=
  (* Validate input parameters *)
  a <- prop args "origin" ;;
  validatedOrigin <- lift (validateAirportCode a) ;;
  a <- prop args "destination" ;;
  validatedDestination <- lift (validateAirportCode a) ;;
  a <- prop args "departure_date" ;;
  validatedDepartureDate <- lift (validateDate rt a "departure_date") ;;
  a <- prop args "adults" ;;
  validatedAdults <- lift (validatePassengerCount a) ;;
  a <- prop args "travel_class" ;;
  validatedTravelClass <- lift (validateTravelClass a) ;;
  args_return_date <- prop args "return_date" ;;
  validatedReturnDate <-
    (if Js.truthy args_return_date then
       d <- lift (validateDate rt args_return_date "return_date") ;;
       (* Check that return date is after departure date *)
       if JsDate.le_dates rt d validatedDepartureDate then
         throw (ValidationError "Return date must be after departure date"
                  "return_date" args_return_date)
       else ret (Some d)
     else ret None) ;;
  (* Check that origin and destination are different *)
  args_destination <- prop args "destination" ;;
  (if String.eqb validatedOrigin validatedDestination then
     throw (ValidationError
              "Origin and destination airports must be different"
              "destination" args_destination)
   else ret tt) ;;;
  ret {| origin := validatedOrigin;
         destination := validatedDestination;
         departure_date := validatedDepartureDate;
         return_date := validatedReturnDate;
         adults := validatedAdults;
         travel_class := validatedTravelClass |}.

(** [searchFlights], second part: the [try] block and its [catch]. *)
Definition searchFlights_try (v : SearchParams) : M payload :=
  try_catch
    (flights <-
       (if useRealAPI then
          AmadeusFlightService.searchFlights rt RawOffer
            flightOffersSearch_get formatFlightOffers v
        else
          generateMockFlights (origin v) (destination v)
            (departure_date v) (return_date v) (adults v)
            (travel_class v)) ;;
     (if (length flights =? 0)%nat then
        throw (new_FlightAPIError
                 "No flights found for the specified criteria"
                 errorCodes.FLIGHT_NOT_FOUND
                 (Some [("origin", VStr (origin v));
                        ("destination", VStr (destination v));
                        ("date", VStr (departure_date v))]))
      else ret tt) ;;;
     ret (text_block
            (formatFlightSearchResults flights (origin v)
               (destination v) (departure_date v) (return_date v))))
    (rethrow "Failed to search for flights").

Definition searchFlights (args : value) : M payload :=
  v <- searchFlights_validate args ;;
  searchFlights_try v.

Definition mockAirport (code name city country timezone : string)
    (lat lon : Q) : Airport :=
  {| ap_code := VStr code; ap_name := VStr name; ap_city := VStr city;
     ap_country := VStr country; ap_timezone := VStr timezone;
     ap_lat := VNum lat; ap_lon := VNum lon |}.

Definition mockAirports : list (string * Airport) :=
  [("LAX", mockAirport "LAX" "Los Angeles International Airport"
             "Los Angeles" "United States" "America/Los_Angeles"
             (339425 # 10000) (-1184081 # 10000));
   ("JFK", mockAirport "JFK" "John F. Kennedy International Airport"
             "New York" "United States" "America/New_York"
             (406413 # 10000) (-737781 # 10000));
   ("LHR", mockAirport "LHR" "London Heathrow Airport"
             "London" "United Kingdom" "Europe/London"
             (514700 # 10000) (-4543 # 10000));
   ("NRT", mockAirport "NRT" "Narita International Airport"
             "Tokyo" "Japan" "Asia/Tokyo"
             (357719 # 10000) (1403928 # 10000))].

(** [table[key]] on an object literal used as a table. *)
Fixpoint table_get {A} (key : string) (table : list (string * A))
  : option A :=
  match table with
  | [] => None
  | (k, v) :: rest => if String.eqb k key then Some v else table_get key rest
  end.

(** [getAirportInfo], the [try] block and its [catch]. *)
Definition getAirportInfo_try (validatedAirportCode : string) : M payload :=
  try_catch
    (airport <-
       (if useRealAPI then
          AmadeusFlightService.getAirportInfo locations_get
            validatedAirportCode
        else
          match table_get validatedAirportCode mockAirports with
          | Some airport => ret airport
          | None =>
              throw (new_FlightAPIError
                       ("Airport information not found for code: "
                        ++ validatedAirportCode)
                       errorCodes.INVALID_AIRPORT_CODE
                       (Some [("airport_code", VStr validatedAirportCode)]))
          end) ;;
     code <- lift (template rt (ap_code airport)) ;;
     name <- lift (template rt (ap_name airport)) ;;
     city <- lift (template rt (ap_city airport)) ;;
     country <- lift (template rt (ap_country airport)) ;;
     timezone <- lift (template rt (ap_timezone airport)) ;;
     lat <- lift (template rt (ap_lat airport)) ;;
     lon <- lift (template rt (ap_lon airport)) ;;
     ret (text_block
            ("Airport Information" ++ bn ++ bn
             ++ "Code: " ++ code ++ bn
             ++ "Name: " ++ name ++ bn
             ++ "City: " ++ city ++ bn
             ++ "Country: " ++ country ++ bn
             ++ "Timezone: " ++ timezone ++ bn
             ++ "Coordinates: " ++ lat ++ ", " ++ lon ++ bn ++ bn
             ++ (if useRealAPI then "Data from Amadeus API"
                 else "Sample data"))))
    (rethrow "Failed to get airport information").

Definition getAirportInfo (args : value) : M payload :=
  a <- prop args "airport_code" ;;
  validatedAirportCode <- lift (validateAirportCode a) ;;
  getAirportInfo_try validatedAirportCode.

Definition statuses : list string :=
  ["On Time"; "Delayed"; "Boarding"; "Departed"; "Arrived"; "Cancelled"].

Definition gates : list string := ["A12"; "B7"; "C14"; "D9"; "E23"].

(** [`${x}`] for an element read from an array of strings. *)
Definition shown (x : option string) : string :=
  match x with Some s => s | None => "undefined" end.

(** [x === s] *)
Definition same (x : option string) (s : string) : bool :=
  match x with Some t => String.eqb t s | None => false end.

(** The pieces [getFlightStatus] appends to [resultText], in order: the
    heading, then one labelled line each.  The three times are those of
    the calls to [generateRandomTime] the status asks for. *)
Definition statusLines (flightNumber date : string)
    (status gate : option string) (scheduled estimated actual : string)
  : list string :=
  ["Flight Status" ++ bn ++ bn;
   "Flight: " ++ flightNumber ++ bn;
   "Date: " ++ date ++ bn;
   "Status: " ++ shown status ++ bn]
  ++ (if negb (same status "Cancelled") then
        ["Gate: " ++ shown gate ++ bn;
         "Scheduled Departure: " ++ scheduled ++ bn]
        ++ (if same status "Delayed" then
              ["Estimated Departure: " ++ estimated ++ bn;
               "Delay Reason: Weather conditions" ++ bn]
            else [])
        ++ (if same status "Arrived" || same status "Departed" then
              ["Actual Time: " ++ actual ++ bn]
            else [])
      else
        ["Flight has been cancelled. Please contact your airline for rebooking options." ++ bn]).

Definition getFlightStatus (args : value) : M payload :=
  a <- prop args "flight_number" ;;
  validatedFlightNumber <- lift (validateFlightNumber a) ;;
  a <- prop args "date" ;;
  validatedDate <- lift (validateDate rt a "date") ;;
  r <- Math_random ;;
  let status :=
    at_index statuses
      (Math_floor (Js.mul r (inject_Z (Z.of_nat (length statuses))))) in
  r <- Math_random ;;
  let gate :=
    at_index gates
      (Math_floor (Js.mul r (inject_Z (Z.of_nat (length gates))))) in
  scheduled <-
    (if negb (same status "Cancelled") then generateRandomTime else ret "") ;;
  estimated <-
    (if negb (same status "Cancelled") && same status "Delayed"
     then generateRandomTime else ret "") ;;
  actual <-
    (if negb (same status "Cancelled")
        && (same status "Arrived" || same status "Departed")
     then generateRandomTime else ret "") ;;
  ret (text_block
         (String.concat ""
            (statusLines validatedFlightNumber validatedDate status gate
               scheduled estimated actual))).

Record Airline : Type := {
  al_name : string;
  al_country : string;
  al_founded : Z;
  al_hub : string;
  al_fleet_size : string;
  al_destinations : string
}.

Definition mockAirlines : list (string * Airline) :=
  [("AA", {| al_name := "American Airlines"; al_country := "United States";
             al_founded := 1930;
             al_hub := "Dallas/Fort Worth International Airport";
             al_fleet_size := "850+"; al_destinations := "350+" |});
   ("DL", {| al_name := "Delta Air Lines"; al_country := "United States";
             al_founded := 1924;
             al_hub := "Hartsfield-Jackson Atlanta International Airport";
             al_fleet_size := "800+"; al_destinations := "325+" |});
   ("UA", {| al_name := "United Airlines"; al_country := "United States";
             al_founded := 1926;
             al_hub := "Chicago O'Hare International Airport";
             al_fleet_size := "800+"; al_destinations := "340+" |});
   ("LH", {| al_name := "Lufthansa"; al_country := "Germany";
             al_founded := 1953;
             al_hub := "Frankfurt Airport";
             al_fleet_size := "300+"; al_destinations := "220+" |})].

Definition getAirlineInfo (args : value) : M payload :=
  args_airline_code <- prop args "airline_code" ;;
  match args_airline_code with
  | VStr s =>
      if negb (Js.truthy args_airline_code) then
        throw (ValidationError "Airline code is required" "airline_code"
                 args_airline_code)
      else if negb (Regex.test Patterns.airline s) then
        throw (ValidationError
                 "Airline code must be 2-3 letters (e.g., AA, DL, UA)"
                 "airline_code" args_airline_code)
      else
        let validatedAirlineCode := Str.toUpperCase s in
        match table_get validatedAirlineCode mockAirlines with
        | None =>
            throw (new_FlightAPIError
                     ("Airline information not found for code: "
                      ++ validatedAirlineCode)
                     errorCodes.FLIGHT_NOT_FOUND
                     (Some [("airline_code", VStr validatedAirlineCode)]))
        | Some airline =>
            ret (text_block
                   ("Airline Information" ++ bn ++ bn
                    ++ "Code: " ++ validatedAirlineCode ++ bn
                    ++ "Name: " ++ al_name airline ++ bn
                    ++ "Country: " ++ al_country airline ++ bn
                    ++ "Founded: " ++ showZ (al_founded airline) ++ bn
                    ++ "Main Hub: " ++ al_hub airline ++ bn
                    ++ "Fleet Size: " ++ al_fleet_size airline ++ bn
                    ++ "Destinations: " ++ al_destinations airline))
        end
  | _ =>
      throw (ValidationError "Airline code is required" "airline_code"
               args_airline_code)
  end.

(** The [switch] of the [CallToolRequestSchema] handler. *)
Definition callTool (request : Request) : M payload :=
  if String.eqb (name request) "search_flights" then
    searchFlights (arguments request)
  else if String.eqb (name request) "get_airport_info" then
    getAirportInfo (arguments request)
  else if String.eqb (name request) "get_flight_status" then
    getFlightStatus (arguments request)
  else if String.eqb (name request) "get_airline_info" then
    getAirlineInfo (arguments request)
  else
    throw (new_FlightAPIError ("Unknown tool: " ++ name request)
             errorCodes.GENERAL_ERROR None).

(** The handler: [try { switch ... } catch (error) { return
    formatError(error) }].  What [formatError] throws is thrown by the
    handler. *)
Definition handler (request : Request) : M payload :=
  try_catch (callTool request) (fun error => lift (formatError rt error)).

End Server.
End FlightMCPServer.

(** ** Notions the properties are stated with *)

(** What [Math.random()] returns: a double from 0 (included) to 1
    (excluded). *)
Definition is_draw (r : Q) : Prop :=
  (0 <= r)%Q /\ (r < 1)%Q /\ Double.is_double r = true.

(** Every draw of [Math.random()] is such a number. *)
Definition draws_in_range (w : World) : Prop :=
  forall n, is_draw (draws w n).

(** Ascending order of total price. *)
Definition ascending (flights : list FlightOffer) : Prop :=
  StronglySorted (fun f g => (price_amount f <= price_amount g)%Q) flights.

(** The arguments of [search_flights] pass the validators one by one, with
    the validated values [p]; the travel class is set apart. *)
Definition fields_valid_but_class (rt : Runtime) (fs : list (string * value))
    (p : SearchParams) : Prop :=
  validateAirportCode (Js.field "origin" fs) = inr (origin p)
  /\ validateAirportCode (Js.field "destination" fs) = inr (destination p)
  /\ validateDate rt (Js.field "departure_date" fs) "departure_date"
       = inr (departure_date p)
  /\ validatePassengerCount (Js.field "adults" fs) = inr (adults p)
  /\ (if Js.truthy (Js.field "return_date" fs)
      then exists d,
             validateDate rt (Js.field "return_date" fs) "return_date" = inr d
             /\ return_date p = Some d
      else return_date p = None).

Definition fields_valid (rt : Runtime) (fs : list (string * value))
    (p : SearchParams) : Prop :=
  fields_valid_but_class rt fs p
  /\ validateTravelClass (Js.field "travel_class" fs) = inr (travel_class p).

(** The day number of the local date at the time of the call. *)
Definition today_number (rt : Runtime) : Z :=
  (clock rt + utc_offset rt * 60000) / JsDate.msPerDay.

(** A return date was given and is not after the departure date. *)
Definition return_not_after (rt : Runtime) (p : SearchParams) : bool :=
  match return_date p with
  | Some d => JsDate.le_dates rt d (departure_date p)
  | None => false
  end.

(** The failure mapping of the provider's flight search as the
    specification words it: seven rules, tried in order. *)
Module FailureMapping.

Inductive Kind : Type :=
| FlightNotFound
| InvalidAirportCode
| InvalidDateFormat
| ApiUnavailable
| NetworkError
| ApiRateLimit.

Definition kind_code (k : Kind) : string :=
  match k with
  | FlightNotFound => "FLIGHT_NOT_FOUND"
  | InvalidAirportCode => "INVALID_AIRPORT_CODE"
  | InvalidDateFormat => "INVALID_DATE_FORMAT"
  | ApiUnavailable => "API_UNAVAILABLE"
  | NetworkError => "NETWORK_ERROR"
  | ApiRateLimit => "API_RATE_LIMIT"
  end.

(** How a flight search fails: the provider returns no offer, or
    something is thrown on the way. *)
Inductive Failure : Type :=
| NoOffers
| Rejected (t : thrown).

(** The first error of a structured answer of the provider. *)
Definition structured (f : Failure) : option ProviderError :=
  match f with
  | Rejected {| th_response :=
                  Some {| resp_has_data := true;
                          resp_errors := Some (e :: _) |} |} => Some e
  | _ => None
  end.

Definition has_code (n : Q) (f : Failure) : bool :=
  match structured f with
  | Some e => Js.is_number (pe_code e) n
  | None => false
  end.

Definition connection_failure (f : Failure) : bool :=
  match f with
  | Rejected t =>
      Js.is_string (th_code t) "ENOTFOUND"
      || Js.is_string (th_code t) "ECONNREFUSED"
  | NoOffers => false
  end.

Definition rate_limited (f : Failure) : bool :=
  match f with
  | Rejected {| th_response := Some r |} => Js.is_number (resp_status r) 429
  | _ => false
  end.

Definition is_no_offers (f : Failure) : bool :=
  match f with NoOffers => true | Rejected _ => false end.

Definition is_structured (f : Failure) : bool :=
  match structured f with Some _ => true | None => false end.

(** Rules 1 to 6, in the order of precedence; rule 7 is the default. *)
Definition rules : list ((Failure -> bool) * Kind) :=
  [(is_no_offers, FlightNotFound);
   (has_code 38189, InvalidAirportCode);
   (has_code 4926, InvalidDateFormat);
   (is_structured, ApiUnavailable);
   (connection_failure, NetworkError);
   (rate_limited, ApiRateLimit)].

Fixpoint first_rule (rs : list ((Failure -> bool) * Kind)) (f : Failure)
  : option nat :=
  match rs with
  | [] => None
  | (applies, _) :: rest =>
      if applies f then Some O
      else match first_rule rest f with
           | Some n => Some (S n)
           | None => None
           end
  end.

(** The number, from 1 to 7, of the rule that decides. *)
Definition rule (f : Failure) : nat :=
  match first_rule rules f with
  | Some n => S n
  | None => 7
  end.

Definition kind (f : Failure) : Kind :=
  match first_rule rules f with
  | Some n => nth n (List.map snd rules) ApiUnavailable
  | None => ApiUnavailable
  end.

End FailureMapping.

(** The message rule 4 gives its error: the provider's [detail], or a fixed
    text when the detail is falsy; [None] when the detail has no conversion
    to a string. *)
Definition detail_message (rt : Runtime) (e : ProviderError)
  : option string :=
  Js.toString rt
    (AmadeusFlightService.or_else (pe_detail e) (VStr "Amadeus API error")).

(** Rule 4 decides, and the message of its error cannot be built. *)
Definition message_fails (rt : Runtime) (f : FailureMapping.Failure) : bool :=
  match FailureMapping.structured f with
  | Some e =>
      (FailureMapping.rule f =? 4)%nat
      && match detail_message rt e with None => true | Some _ => false end
  | None => false
  end.

(** The stop count [Math.random() > 0.6 ? 0 : 1] as a function of the
    draw, and how many of the [n] draws 0/n, 1/n, ..., (n-1)/n give each
    outcome. *)
Definition stops_of_draw (r : Q) : Z := if Js.gt r (6 # 10) then 0 else 1.

Definition grid (n : nat) : list Q :=
  List.map (fun k => Z.of_nat k # Pos.of_nat n) (seq 0 n).

Definition one_stop_count (n : nat) : nat :=
  length (filter (fun r => stops_of_draw r =? 1) (grid n)).

Definition direct_count (n : nat) : nat :=
  length (filter (fun r => stops_of_draw r =? 0) (grid n)).

(** [s] has a line that starts with [label]: one of the pieces is the label
    followed by something. *)
Definition has_field (label : string) (lines : list string) : bool :=
  existsb (prefix label) lines.

(** A world after [n] more draws. *)
Definition advance (n : nat) (w : World) : World :=
  {| draws := draws w; cursor := n + cursor w; requests := requests w |}.

(** The text of [generateRandomTime] from the next two draws. *)
Definition time_at (w : World) : string :=
  Str.padStart 2 "0" (Str.ofZ (Math_floor (Js.mul (draws w (cursor w)) 24)))
  ++ ":"
  ++ Str.padStart 2 "0"
       (Str.ofZ (Math_floor (Js.mul (draws w (S (cursor w))) 60))).

(** The status and the gate [getFlightStatus] picks with the next two
    draws. *)
Definition status_at (w : World) : option string :=
  at_index FlightMCPServer.statuses
    (Math_floor (Js.mul (draws w (cursor w)) 6)).

Definition gate_at (w : World) : option string :=
  at_index FlightMCPServer.gates
    (Math_floor (Js.mul (draws w (S (cursor w))) 5)).

(** How many draws [getFlightStatus] takes for a status: two to pick the
    status and the gate, and two for each time it prints. *)
Definition draws_for (status : string) : nat :=
  if String.eqb status "Cancelled" then 2
  else if String.eqb status "Delayed" || String.eqb status "Arrived"
          || String.eqb status "Departed" then 6
  else 4.

(** What one turn of the loop of [generateMockFlights] yields: a carrier of
    the table, a suffix from 1000 to 9999, a base price from 200 to 999. *)
Definition mock_offer (a : Q) (c : string) (f : FlightOffer) : Prop :=
  exists code name n bp,
    In (code, name) FlightMCPServer.airlines
    /\ 1000 <= n <= 9999 /\ 200 <= bp <= 999
    /\ airline f = name
    /\ flight_number f = code ++ Str.ofZ n
    /\ price_amount f = Js.mul (inject_Z bp) a
    /\ price_per_person f = inject_Z bp
    /\ offer_travel_class f = c.

(** The numbers from 1000 to 9999. *)
Definition suffixes : list Z :=
  List.map (fun k => 1000 + Z.of_nat k) (seq 0 (Z.to_nat 9000)).

(** The decimal text of a number from 1000 to 9999 is four digits. *)
Definition four_digits (s : string) : bool :=
  (String.length s =? 4)%nat && Str.all Str.isDigit s.

(** The validated values [p] with the travel class [c]. *)
Definition with_class (p : SearchParams) (c : string) : SearchParams :=
  {| origin := origin p; destination := destination p;
     departure_date := departure_date p; return_date := return_date p;
     adults := adults p; travel_class := c |}.

(** How a run of the provider's search fails, if it does: on the answer of
    the library, or on the normalisation of the offers. *)
Definition failure_of {RawOffer : Type}
    (answer : thrown + option (list RawOffer))
    (fmt : list RawOffer -> thrown + list FlightOffer)
  : option FailureMapping.Failure :=
  match answer with
  | inl t => Some (FailureMapping.Rejected t)
  | inr None | inr (Some []) => Some FailureMapping.NoOffers
  | inr (Some offers) =>
      match fmt offers with
      | inl t => Some (FailureMapping.Rejected t)
      | inr _ => None
      end
  end.

(** A text without a line feed. *)
Definition clean (s : string) : Prop := Str.no_newline s = true.

(** An offer whose texts hold no line feed. *)
Definition clean_offer (f : FlightOffer) : Prop :=
  clean (airline f) /\ clean (flight_number f)
  /\ clean (departure_time f) /\ clean (arrival_time f)
  /\ clean (duration f) /\ clean (price_currency f)
  /\ clean (offer_travel_class f) /\ clean (aircraft f)
  /\ (forall b, booking_class f = Some b -> clean b).

(** A value whose text, when it has one, holds no line feed. *)
Definition clean_value (rt : Runtime) (v : value) : Prop :=
  forall s, Js.toString rt v = Some s -> clean s.

(** A location whose values hold no line feed. *)
Definition clean_airport (rt : Runtime) (a : RawAirport) : Prop :=
  clean_value rt (iataCode a) /\ clean_value rt (raw_name a)
  /\ clean_value rt (cityName a) /\ clean_value rt (countryName a)
  /\ clean_value rt (timeZoneOffset a)
  /\ clean_value rt (latitude a) /\ clean_value rt (longitude a).

(** An airport, as the server prints it, whose values hold no line feed. *)
Definition clean_fields (rt : Runtime) (a : Airport) : Prop :=
  clean_value rt (ap_code a) /\ clean_value rt (ap_name a)
  /\ clean_value rt (ap_city a) /\ clean_value rt (ap_country a)
  /\ clean_value rt (ap_timezone a)
  /\ clean_value rt (ap_lat a) /\ clean_value rt (ap_lon a).

(** What the provider supplies holds no line feed: the offers of a search,
    once normalised, and the first location of a location search. *)
Definition clean_provider (rt : Runtime) {RawOffer : Type}
    (fmt : list RawOffer -> thrown + list FlightOffer)
    (loc : string -> thrown + option (list RawAirport)) : Prop :=
  (forall offers flights,
     fmt offers = inr flights -> Forall clean_offer flights)
  /\ (forall k a rest, loc k = inr (Some (a :: rest)) -> clean_airport rt a).

(** The characters a pattern lets through: those of one of its classes. *)
Definition allowed (r : Regex.regex) (c : ascii) : bool :=
  existsb (fun it => Regex.cls_test (Regex.cl it) c) r.

Definition upper_or_digit (c : ascii) : bool := Str.isUpper c || Str.isDigit c.

Definition digit_or_dash (c : ascii) : bool :=
  Str.isDigit c || Ascii.eqb c "-".

(** ** Concrete inputs *)

Module Sample.

(** A host on UTC, on 15 June 2025 at 16:00 UTC. *)
Definition rt : Runtime :=
  {| clock := 1750003200000; utc_offset := 0; day_carry := true;
     number_text := fun _ => "1.5" |}.

(** The same instant on a host four hours west of UTC, where it is noon
    of 15 June 2025. *)
Definition rt_west : Runtime :=
  {| clock := 1750003200000; utc_offset := -240; day_carry := true;
     number_text := fun _ => "1.5" |}.

(** Worlds whose draws are all 0.5, all 0.9 (the double nearest to 9/10),
    and all the greatest double below 1. *)
Definition halves : World :=
  {| draws := fun _ => 1 # 2; cursor := 0; requests := [] |}.
Definition nine_tenths : World :=
  {| draws := fun _ => 8106479329266893 # 9007199254740992;
     cursor := 0; requests := [] |}.
Definition highest : World :=
  {| draws := fun _ => 9007199254740991 # 9007199254740992;
     cursor := 0; requests := [] |}.

(** A world whose draws are, in turn, the double just below 17/24 and the
    double 0.7, which is just below 7/10. *)
Definition just_below : World :=
  {| draws := fun n => if Nat.even n
                       then 3190049736054101 # 4503599627370496
                       else 3152519739159347 # 4503599627370496;
     cursor := 0; requests := [] |}.

(** A provider that is never reached, or answers nothing. *)
Definition get (r : SearchRequest) : thrown + option (list unit) := inr None.
Definition loc (k : string) : thrown + option (list RawAirport) := inr None.
Definition fmt (l : list unit) : thrown + list FlightOffer := inr [].

(** A provider that answers every location search with one airport, and
    every flight search with one offer, which the normalisation turns into
    [b6_offer] below. *)
Definition jfk : RawAirport :=
  {| iataCode := VStr "JFK"; raw_name := VStr "JOHN F KENNEDY INTL";
     cityName := VStr "NEW YORK"; countryName := VUndefined;
     timeZoneOffset := VStr "-04:00";
     latitude := VNum 40; longitude := VNum (-74) |}.
Definition loc_jfk (k : string) : thrown + option (list RawAirport) :=
  inr (Some [jfk]).
Definition get_one (r : SearchRequest) : thrown + option (list unit) :=
  inr (Some [tt]).

(** A provider whose one airport has a name of two lines. *)
Definition two_line_airport : RawAirport :=
  {| iataCode := VStr "JFK";
     raw_name := VStr ("JOHN F KENNEDY" ++ Str.nl ++ "INTL");
     cityName := VStr "NEW YORK"; countryName := VUndefined;
     timeZoneOffset := VStr "-04:00";
     latitude := VNum 40; longitude := VNum (-74) |}.
Definition loc_two_lines (k : string) : thrown + option (list RawAirport) :=
  inr (Some [two_line_airport]).

(** A provider whose one airport has the name [{"toString": 1}]. *)
Definition odd_airport : RawAirport :=
  {| iataCode := VStr "JFK"; raw_name := VObj [("toString", VNum 1)];
     cityName := VStr "NEW YORK"; countryName := VUndefined;
     timeZoneOffset := VStr "-04:00";
     latitude := VNum 40; longitude := VNum (-74) |}.
Definition loc_odd (k : string) : thrown + option (list RawAirport) :=
  inr (Some [odd_airport]).

(** A provider whose search is refused at connection, with a 429 status
    on the object rejected. *)
Definition refused : thrown :=
  {| th_message := VStr "connect ECONNREFUSED";
     th_code := VStr "ECONNREFUSED";
     th_response :=
       Some {| resp_errors := None; resp_has_data := false;
               resp_status := VNum 429 |} |}.
Definition get_refused (r : SearchRequest) : thrown + option (list unit) :=
  inl refused.

(** An object with a property [toString] of its own, as
    [JSON.parse('{"toString": 1}')] builds it. *)
Definition odd : value := VObj [("toString", VNum 1)].


Definition search_fields : list (string * value) :=
  [("origin", VStr "lax"); ("destination", VStr "JFK");
   ("departure_date", VStr "2025-12-25")].

Definition search_params : SearchParams :=
  {| origin := "LAX"; destination := "JFK";
     departure_date := "2025-12-25"; return_date := None;
     adults := 1; travel_class := "economy" |}.

(** The same airport twice, and a return before the departure. *)
Definition round_trip_fields : list (string * value) :=
  [("origin", VStr "LAX"); ("destination", VStr "lax");
   ("departure_date", VStr "2025-12-25");
   ("return_date", VStr "2025-12-24")].

Definition round_trip_params : SearchParams :=
  {| origin := "LAX"; destination := "LAX";
     departure_date := "2025-12-25"; return_date := Some "2025-12-24";
     adults := 1; travel_class := "economy" |}.

(** The same airport twice, one way. *)
Definition same_airport_fields : list (string * value) :=
  [("origin", VStr "LAX"); ("destination", VStr "lax");
   ("departure_date", VStr "2025-12-25")].

Definition same_airport_params : SearchParams :=
  {| origin := "LAX"; destination := "LAX";
     departure_date := "2025-12-25"; return_date := None;
     adults := 1; travel_class := "economy" |}.

Definition empty_class_fields : list (string * value) :=
  search_fields ++ [("travel_class", VStr "")].

Definition status_fields : list (string * value) :=
  [("flight_number", VStr "aa123"); ("date", VStr "2025-12-25")].

Definition unknown_airport : Request :=
  {| name := "get_airport_info";
     arguments := VObj [("airport_code", VStr "XYZ")] |}.

(** A call whose airport code holds a line feed. *)
Definition two_line_request : Request :=
  {| name := "get_airport_info";
     arguments := VObj [("airport_code", VStr ("A" ++ Str.nl ++ "B"))] |}.

(** A call whose airport code is the object [{"toString": 1}]. *)
Definition odd_request : Request :=
  {| name := "get_airport_info";
     arguments := VObj [("airport_code", odd)] |}.

Definition airline_request : Request :=
  {| name := "get_airline_info";
     arguments := VObj [("airline_code", VStr "lh")] |}.

(** The offer the generator builds when every draw is 0.9. *)
Definition b6_offer : FlightOffer :=
  {| airline := "JetBlue Airways"; flight_number := "B69100";
     offer_origin := "LAX"; offer_destination := "JFK";
     offer_departure_date := "2025-12-25";
     departure_time := "21:54"; arrival_time := "21:54";
     duration := "9h 54m";
     price_amount := Js.mul (inject_Z 920) 1; price_currency := "USD";
     price_per_person := inject_Z 920;
     stops := 0; offer_travel_class := "economy";
     aircraft := "Boeing 737-800"; booking_class := Some "V";
     segments := None |}.

Definition fmt_b6 (l : list unit) : thrown + list FlightOffer :=
  inr (List.map (fun _ => b6_offer) l).

End Sample.

(** ** Notions for the further properties *)

(** The longest prefix of [s] whose characters satisfy [f], and what
    follows it. *)
Fixpoint leading (f : ascii -> bool) (s : string) : string :=
  match s with
  | EmptyString => EmptyString
  | String c s' => if f c then String c (leading f s') else EmptyString
  end.

Fixpoint after (f : ascii -> bool) (s : string) : string :=
  match s with
  | EmptyString => EmptyString
  | String c s' => if f c then after f s' else s
  end.

(** Two or three letters followed by one to four digits, and nothing
    else: AA123, DL1234, SWA1. *)
Definition flight_number_shape (s : string) : bool :=
  let a := leading Str.isAlpha s in
  let d := after Str.isAlpha s in
  (2 <=? String.length a)%nat && (String.length a <=? 3)%nat
  && (1 <=? String.length d)%nat && (String.length d <=? 4)%nat
  && Str.all Str.isDigit d.

(** Two or three letters, and nothing else. *)
Definition airline_code_shape (s : string) : bool :=
  (2 <=? String.length s)%nat && (String.length s <=? 3)%nat
  && Str.all Str.isAlpha s.

(** The value is numerically one of the integers 1 to 9. *)
Definition one_to_nine (q : Q) : bool :=
  existsb (fun n => Qeq_bool q (inject_Z n)) [1; 2; 3; 4; 5; 6; 7; 8; 9].

(** ** amadeusClient.js: the helpers of [formatFlightOffers] *)

Module AmadeusFormat.

(** What follows the first occurrence of "PT" in [s], if there is one:
    where the unanchored pattern of [parseDuration] starts to match. *)
Fixpoint after_PT (s : string) : option string :=
  match s with
  | EmptyString => None
  | String c s' =>
      if Ascii.eqb c "P" then
        match s' with
        | String c' rest =>
            if Ascii.eqb c' "T" then Some rest else after_PT s'
        | EmptyString => None
        end
      else after_PT s'
  end.

(** [(?:(\d+)H)?] and [(?:(\d+)M)?] at the head of [s]: a run of digits
    followed by the letter is captured, and the match goes on after the
    letter; otherwise nothing is captured and nothing consumed. *)
Definition group (letter : ascii) (s : string) : option string * string :=
  match leading Str.isDigit s, after Str.isDigit s with
  | String d ds, String c rest =>
      if Ascii.eqb c letter then (Some (String d ds), rest) else (None, s)
  | _, _ => (None, s)
  end.

(** [parseInt] on a run of decimal digits. *)
Fixpoint digits_value (acc : Z) (s : string) : Z :=
  match s with
  | EmptyString => acc
  | String c s' => digits_value (10 * acc + JsDate.digit c) s'
  end.

(** [parseInt(m || 0)] for a capture [m] *)
Definition parseInt_or_0 (m : option string) : Z :=
  match m with
  | Some ds => digits_value 0 ds
  | None => 0
  end.

(** [duration.match(/PT(?:(\d+)H)?(?:(\d+)M)?/)], then the two numbers. *)
Definition parseDuration (duration : string) : string :=
  match after_PT duration with
  | None => duration
  | Some rest =>
      let (hours, rest') := group "H" rest in
      let (minutes, _) := group "M" rest' in
      Str.ofZ (parseInt_or_0 hours) ++ "h "
      ++ Str.ofZ (parseInt_or_0 minutes) ++ "m"
  end.

Definition airlineNames : list (string * string) :=
  [("AA", "American Airlines");
   ("DL", "Delta Air Lines");
   ("UA", "United Airlines");
   ("WN", "Southwest Airlines");
   ("B6", "JetBlue Airways");
   ("AS", "Alaska Airlines");
   ("NK", "Spirit Airlines");
   ("F9", "Frontier Airlines");
   ("G4", "Allegiant Air");
   ("SY", "Sun Country Airlines");
   ("LH", "Lufthansa");
   ("BA", "British Airways");
   ("AF", "Air France");
   ("KL", "KLM");
   ("VS", "Virgin Atlantic");
   ("EK", "Emirates");
   ("QR", "Qatar Airways");
   ("TK", "Turkish Airlines");
   ("SQ", "Singapore Airlines");
   ("CX", "Cathay Pacific");
   ("NH", "ANA");
   ("JL", "Japan Airlines")].

(** [airlineNames[airlineCode] || airlineCode], for a code that is a
    string. *)
Definition getAirlineName (airlineCode : string) : Js.looked_up :=
  Js.get_or airlineCode airlineNames airlineCode.

Definition classMap : list (string * string) :=
  [("ECONOMY", "economy"); ("PREMIUM_ECONOMY", "premium_economy");
   ("BUSINESS", "business"); ("FIRST", "first")].

(** [classMap[cabinClass] || 'economy'], on the same terms. *)
Definition mapCabinClass (cabinClass : string) : Js.looked_up :=
  Js.get_or cabinClass classMap "economy".

End AmadeusFormat.

(** ** What a call leaves untouched *)

(** The computation [m] leaves the part [part] of the world as it found
    it, whether it returns or throws. *)
Definition keeps {A B : Type} (part : World -> B) (m : M A) : Prop :=
  forall w, part (snd (m w)) = part w.

(** The request a live search sends for the validated values [p]. *)
Definition validated_request (p : SearchParams) : SearchRequest :=
  {| originLocationCode := origin p;
     destinationLocationCode := destination p;
     departureDate := departure_date p;
     req_adults := adults p;
     currencyCode := "USD";
     max := 10;
     returnDate := return_date p;
     travelClass := Some (Js.Text (Str.toUpperCase (travel_class p))) |}.

(** The world after one more request, [c], has been sent. *)
Definition sent (c : ProviderCall) (w : World) : World :=
  {| draws := draws w; cursor := cursor w; requests := requests w ++ [c] |}.

(** ** index.js: the tools the server lists *)

(** One property of an input schema. *)
Record Property : Type := {
  prop_type : string;
  prop_description : string;
  minimum : option Z;
  maximum : option Z;
  enum : option (list string)
}.

Definition plain (type description : string) : Property :=
  {| prop_type := type; prop_description := description;
     minimum := None; maximum := None; enum := None |}.

(** A tool: its name, its description and its [inputSchema], an object
    schema with [properties] and [required]. *)
Record Tool : Type := {
  tool_name : string;
  tool_description : string;
  schema_type : string;
  properties : list (string * Property);
  required : list string
}.

(** The answer of the [ListToolsRequestSchema] handler set up by
    [setupTools]. *)
Definition tools : list Tool :=
  [{| tool_name := "search_flights";
      tool_description := "Search for flights between two airports";
      schema_type := "object";
      properties :=
        [("origin",
          plain "string"
            "Origin airport code (IATA 3-letter code, e.g., NYC, LAX)");
         ("destination",
          plain "string"
            "Destination airport code (IATA 3-letter code, e.g., NYC, LAX)");
         ("departure_date",
          plain "string" "Departure date in YYYY-MM-DD format");
         ("return_date",
          plain "string"
            "Return date in YYYY-MM-DD format (optional for one-way flights)");
         ("adults",
          {| prop_type := "integer";
             prop_description := "Number of adult passengers (default: 1)";
             minimum := Some 1; maximum := Some 9; enum := None |});
         ("travel_class",
          {| prop_type := "string";
             prop_description := "Travel class preference";
             minimum := None; maximum := None;
             enum := Some ["economy"; "premium_economy"; "business";
                           "first"] |})];
      required := ["origin"; "destination"; "departure_date"] |};
   {| tool_name := "get_airport_info";
      tool_description := "Get information about an airport by its code";
      schema_type := "object";
      properties :=
        [("airport_code",
          plain "string"
            "Airport IATA code (3-letter code, e.g., LAX, JFK)")];
      required := ["airport_code"] |};
   {| tool_name := "get_flight_status";
      tool_description := "Get real-time status of a specific flight";
      schema_type := "object";
      properties :=
        [("flight_number",
          plain "string" "Flight number (e.g., AA123, DL456)");
         ("date", plain "string" "Flight date in YYYY-MM-DD format")];
      required := ["flight_number"; "date"] |};
   {| tool_name := "get_airline_info";
      tool_description := "Get information about an airline";
      schema_type := "object";
      properties :=
        [("airline_code",
          plain "string"
            "Airline IATA code (2-letter code, e.g., AA, DL, UA)")];
      required := ["airline_code"] |}].

(** The error a call throws is a validation error. *)
Definition is_validation_error {A} (r : result A) : bool :=
  match r with
  | inl (ValidationError _ _ _) => true
  | _ => false
  end.

(** ** The synthetic offers in detail *)

(** A time of day HH:MM, from 00:00 to 23:59. *)
Definition clock_time (t : string) : bool :=
  match Str.chars t with
  | [h1; h2; sep; m1; m2] =>
      Str.isDigit h1 && Str.isDigit h2 && Ascii.eqb sep ":"
      && Str.isDigit m1 && Str.isDigit m2
      && (10 * JsDate.digit h1 + JsDate.digit h2 <=? 23)
      && (10 * JsDate.digit m1 + JsDate.digit m2 <=? 59)
  | _ => false
  end.

(** The text [h]h [m]m of a duration. *)
Definition duration_text (h m : Z) : string :=
  Str.ofZ h ++ "h " ++ Str.ofZ m ++ "m".

(** What every offer of [generateMockFlights] is like, whatever is
    drawn. *)
Definition mock_details (o d dd : string) (a : Q) (c : string)
    (f : FlightOffer) : Prop :=
  offer_origin f = o /\ offer_destination f = d
  /\ offer_departure_date f = dd /\ offer_travel_class f = c
  /\ price_currency f = "USD" /\ aircraft f = "Boeing 737-800"
  /\ booking_class f = Some "V" /\ segments f = None
  /\ (exists bp, 200 <= bp <= 999
                 /\ price_per_person f = inject_Z bp
                 /\ price_amount f = Js.mul (inject_Z bp) a)
  /\ clock_time (departure_time f) = true
  /\ clock_time (arrival_time f) = true
  /\ (exists h m, 2 <= h <= 10 /\ 0 <= m <= 59
                  /\ duration f = duration_text h m)
  /\ (stops f = 0 \/ stops f = 1).

(** The numbers from 0 to [n] - 1. *)
Definition below (n : nat) : list Z := List.map Z.of_nat (seq 0 n).

Definition two_digits (n : Z) : string := Str.padStart 2 "0" (Str.ofZ n).

(** ** index.js: the probe at start-up *)

Module Startup.
Section Probe.
Variable rt : Runtime.
Variable RawOffer : Type.
Variable flightOffersSearch_get :
  SearchRequest -> thrown + option (list RawOffer).
Variable formatFlightOffers : list RawOffer -> thrown + list FlightOffer.

(** The search [testAmadeusConnection] tries; it gives no return date. *)
Definition testSearchParams : SearchParams :=
  {| origin := "NYC"; destination := "LAX";
     departure_date := "2025-12-25"; return_date := None;
     adults := 1; travel_class := "economy" |}.

(** [error.message.includes(...)], which the [catch] of the probe
    evaluates to choose what it logs: the message has to be a string (or
    an array), reading [includes] of anything else throws. *)
Definition message_includes (error : exn) : M unit :=
  match exn_message error with
  | VStr _ | VArr _ => ret tt
  | VUndefined =>
      throw (plain_error
               "Cannot read properties of undefined (reading 'includes')")
  | VNull =>
      throw (plain_error
               "Cannot read properties of null (reading 'includes')")
  | _ => throw (plain_error "error.message.includes is not a function")
  end.

(** [testAmadeusConnection]: it returns nothing; the result here is the
    value it leaves in [this.useRealAPI].  What it writes to the log is
    left out. *)
Definition testAmadeusConnection : M bool :=
  try_catch
    (flights <- AmadeusFlightService.searchFlights rt RawOffer
                  flightOffersSearch_get formatFlightOffers
                  testSearchParams ;;
     if (0 <? length flights)%nat then ret true
     else throw (plain_error "No flight data returned"))
    (fun error => message_includes error ;;; ret false).

End Probe.
End Startup.

(** The request of the probe. *)
Definition probe_request : SearchRequest :=
  {| originLocationCode := "NYC"; destinationLocationCode := "LAX";
     departureDate := "2025-12-25"; req_adults := 1;
     currencyCode := "USD"; max := 10; returnDate := None;
     travelClass := Some (Js.Text "ECONOMY") |}.

(** A text as the lines it shows, a line break between two of them. *)
Definition lines (ls : list string) : string := String.concat bn ls.

(** The lines of an airport: a heading, an empty line, one line for each
    datum, an empty line and the source of the data. *)
Definition airport_lines
    (code name city country timezone lat lon source : string)
  : list string :=
  ["Airport Information"; "";
   "Code: " ++ code;
   "Name: " ++ name;
   "City: " ++ city;
   "Country: " ++ country;
   "Timezone: " ++ timezone;
   "Coordinates: " ++ lat ++ ", " ++ lon;
   "";
   source].

(** The lines of an airline. *)
Definition airline_lines (code : string) (a : FlightMCPServer.Airline)
  : list string :=
  ["Airline Information"; "";
   "Code: " ++ code;
   "Name: " ++ FlightMCPServer.al_name a;
   "Country: " ++ FlightMCPServer.al_country a;
   "Founded: " ++ Str.ofZ (FlightMCPServer.al_founded a);
   "Main Hub: " ++ FlightMCPServer.al_hub a;
   "Fleet Size: " ++ FlightMCPServer.al_fleet_size a;
   "Destinations: " ++ FlightMCPServer.al_destinations a].

(** The texts of some values, when each of them has one. *)
Fixpoint texts (rt : Runtime) (vs : list value) : option (list string) :=
  match vs with
  | [] => Some []
  | v :: rest =>
      match Js.toString rt v, texts rt rest with
      | Some t, Some ts => Some (t :: ts)
      | _, _ => None
      end
  end.

(** What the server prints of a location of the provider: its code and
    name, its city, country and time zone, or "Unknown" for one that is
    missing or falsy, its latitude and longitude, or 0. *)
Definition printed (a : RawAirport) : list value :=
  [iataCode a; raw_name a;
   AmadeusFlightService.or_else (cityName a) (VStr "Unknown");
   AmadeusFlightService.or_else (countryName a) (VStr "Unknown");
   AmadeusFlightService.or_else (timeZoneOffset a) (VStr "Unknown");
   AmadeusFlightService.or_else (latitude a) (VNum 0);
   AmadeusFlightService.or_else (longitude a) (VNum 0)].

(** The keys of the two tables of sample data. *)
Definition sample_airports : list string := ["LAX"; "JFK"; "LHR"; "NRT"].
Definition sample_airlines : list string := ["AA"; "DL"; "UA"; "LH"].

(** [x] is one of [xs]. *)
Definition one_of (xs : list string) (x : string) : bool :=
  existsb (String.eqb x) xs.

(** Four digits, a dash, two digits, a dash, two digits, and nothing
    else. *)
Definition date_shape (s : string) : bool :=
  match Str.chars s with
  | [y1; y2; y3; y4; a; m1; m2; b; d1; d2] =>
      Str.isDigit y1 && Str.isDigit y2 && Str.isDigit y3 && Str.isDigit y4
      && Ascii.eqb a "-" && Str.isDigit m1 && Str.isDigit m2
      && Ascii.eqb b "-" && Str.isDigit d1 && Str.isDigit d2
  | _ => false
  end.

(** [flightOffers.map(offer => ...)] of [formatFlightOffers]: the offers
    are normalised one by one, in order, by the function [formatOne], which
    stands for the body of the callback; the first offer on which it throws
    ends the whole. *)
Fixpoint formatFlightOffers_by {RawOffer : Type}
    (formatOne : RawOffer -> thrown + FlightOffer)
    (flightOffers : list RawOffer) : thrown + list FlightOffer :=
  match flightOffers with
  | [] => inr []
  | offer :: rest =>
      match formatOne offer with
      | inl t => inl t
      | inr f =>
          match formatFlightOffers_by formatOne rest with
          | inl t => inl t
          | inr fs => inr (f :: fs)
          end
      end
  end.

(** The schema of the argument [k] of the tool [n], if the tool is listed
    and has such an argument. *)
Definition schema_of (n k : string) : option Property :=
  match find (fun t => String.eqb (tool_name t) n) tools with
  | Some t => FlightMCPServer.table_get k (properties t)
  | None => None
  end.

(** The validated values [p] without the return date. *)
Definition one_way (p : SearchParams) : SearchParams :=
  {| origin := origin p; destination := destination p;
     departure_date := departure_date p; return_date := None;
     adults := adults p; travel_class := travel_class p |}.

(** * Properties *)

(** ** Doubles *)

Lemma pow2_pos (k : Z) : (0 < Double.pow2 k)%Q.
Proof. apply Qpower_0_lt. reflexivity. Qed.

Lemma pow2_plus (a b : Z) :
  (Double.pow2 (a + b) == Double.pow2 a * Double.pow2 b)%Q.
Proof. apply Qpower_plus. discriminate. Qed.

Lemma pow2_le (a b : Z) : a <= b -> (Double.pow2 a <= Double.pow2 b)%Q.
Proof. intros H. apply Qpower_le_compat_l; [exact H | discriminate]. Qed.

Lemma pow2_lt (a b : Z) : a < b -> (Double.pow2 a < Double.pow2 b)%Q.
Proof. intros H. apply Qpower_lt_compat_l; [exact H | reflexivity]. Qed.

Lemma pow2_lt_inv (a b : Z) : (Double.pow2 a < Double.pow2 b)%Q -> a < b.
Proof. intros H. apply (Qpower_lt_compat_l_inv 2); [exact H | reflexivity]. Qed.

Lemma pow2_frac (x y : Z) :
  0 <= x -> 0 <= y ->
  (Double.pow2 (x - y) == 2 ^ x # Z.to_pos (2 ^ y))%Q.
Proof.
  intros Hx Hy. unfold Double.pow2.
  rewrite Qpower_minus by discriminate.
  change (2%Q) with (inject_Z 2).
  rewrite <- !Zpower_Qpower by assumption.
  assert (H : 0 < 2 ^ y) by (apply Z.pow_pos_nonneg; lia).
  unfold Qdiv, Qinv, Qmult, Qeq, inject_Z. cbn [Qnum Qden].
  destruct (2 ^ y) as [|p|p] eqn:E; try lia.
  cbn. lia.
Qed.

(** The binary logarithm brackets its argument. *)
Lemma log2_spec (q : Q) :
  (0 < q)%Q ->
  (Double.pow2 (Double.log2 q) <= q)%Q
  /\ (q < Double.pow2 (Double.log2 q + 1))%Q.
Proof.
  intros Hq. destruct q as [n d]. unfold Double.log2. cbn [Qnum Qden].
  assert (Hn : 0 < n) by (unfold Qlt in Hq; cbn in Hq; lia).
  set (a := Z.log2 n). set (b := Z.log2 (Zpos d)).
  destruct (Z.log2_spec n Hn) as [Ha1 Ha2]. fold a in Ha1, Ha2.
  destruct (Z.log2_spec (Zpos d) eq_refl) as [Hb1 Hb2]. fold b in Hb1, Hb2.
  assert (Ha0 : 0 <= a) by apply Z.log2_nonneg.
  assert (Hb0 : 0 <= b) by apply Z.log2_nonneg.
  assert (Hpa : 0 < 2 ^ a) by (apply Z.pow_pos_nonneg; lia).
  assert (Hpb : 0 < 2 ^ b) by (apply Z.pow_pos_nonneg; lia).
  assert (Hlow : (Double.pow2 (a - b - 1) < n # d)%Q).
  { replace (a - b - 1) with (a - (b + 1)) by ring.
    rewrite pow2_frac by lia. unfold Qlt. cbn [Qnum Qden].
    rewrite Z2Pos.id by (apply Z.pow_pos_nonneg; lia).
    replace (Z.succ b) with (b + 1) in Hb2 by ring. nia. }
  assert (Hhigh : (n # d < Double.pow2 (a - b + 1))%Q).
  { replace (a - b + 1) with (a + 1 - b) by ring.
    rewrite pow2_frac by lia. unfold Qlt. cbn [Qnum Qden].
    rewrite Z2Pos.id by exact Hpb.
    replace (Z.succ a) with (a + 1) in Ha2 by ring. nia. }
  destruct (Qle_bool (Double.pow2 (a - b)) (n # d)) eqn:E.
  - apply Qle_bool_iff in E. now split.
  - assert (H : (n # d < Double.pow2 (a - b))%Q).
    { apply Qnot_le_lt. intros H. apply Qle_bool_iff in H. congruence. }
    split; [now apply Qlt_le_weak|].
    now replace (a - b - 1 + 1) with (a - b) by ring.
Qed.

Lemma log2_unique (q : Q) (k : Z) :
  (Double.pow2 k <= q)%Q -> (q < Double.pow2 (k + 1))%Q -> Double.log2 q = k.
Proof.
  intros H1 H2.
  assert (Hq : (0 < q)%Q) by (eapply Qlt_le_trans; [apply pow2_pos | exact H1]).
  destruct (log2_spec q Hq) as [H3 H4].
  assert (Double.log2 q < k + 1)
    by (apply pow2_lt_inv; eapply Qle_lt_trans; eassumption).
  assert (k < Double.log2 q + 1)
    by (apply pow2_lt_inv; eapply Qle_lt_trans; eassumption).
  lia.
Qed.

Lemma log2_mono (x y : Q) :
  (0 < x)%Q -> (x <= y)%Q -> Double.log2 x <= Double.log2 y.
Proof.
  intros Hx Hxy.
  assert (Hy : (0 < y)%Q) by (eapply Qlt_le_trans; eassumption).
  destruct (log2_spec x Hx) as [H1 _]. destruct (log2_spec y Hy) as [_ H2].
  assert (Double.log2 x < Double.log2 y + 1); [|lia].
  apply pow2_lt_inv. eapply Qle_lt_trans; [exact H1|].
  eapply Qle_lt_trans; eassumption.
Qed.

(** Rounding to the nearest integer. *)
Lemma nearest_even_bounds (x : Q) :
  Qfloor x <= Double.nearest_even x <= Qfloor x + 1.
Proof.
  unfold Double.nearest_even.
  destruct (_ ?= _)%Q; [destruct (Z.even _)|..]; lia.
Qed.

Lemma nearest_even_Z (n : Z) : Double.nearest_even (inject_Z n) = n.
Proof.
  unfold Double.nearest_even. rewrite Qfloor_Z.
  assert (E : (inject_Z n - inject_Z n ?= 1 # 2)%Q = Lt).
  { apply Qlt_alt. setoid_replace (inject_Z n - inject_Z n)%Q with 0%Q by ring.
    reflexivity. }
  now rewrite E.
Qed.

Lemma nearest_even_mono (x y : Q) :
  (x <= y)%Q -> Double.nearest_even x <= Double.nearest_even y.
Proof.
  intros H.
  pose proof (Qfloor_resp_le _ _ H) as Hf.
  pose proof (nearest_even_bounds x). pose proof (nearest_even_bounds y).
  destruct (Z.eq_dec (Qfloor x) (Qfloor y)) as [E | N]; [|lia].
  unfold Double.nearest_even. rewrite <- E.
  assert (Hr : (x - inject_Z (Qfloor x) <= y - inject_Z (Qfloor x))%Q).
  { apply Qplus_le_l with (z := inject_Z (Qfloor x)).
    ring_simplify. exact H. }
  destruct (x - inject_Z (Qfloor x) ?= 1 # 2)%Q eqn:Ex;
    destruct (y - inject_Z (Qfloor x) ?= 1 # 2)%Q eqn:Ey;
    try (destruct (Z.even (Qfloor x))); try lia.
  all: exfalso; apply (Qlt_irrefl (1 # 2));
    first
      [ apply Qeq_alt in Ex; apply Qlt_alt in Ey; rewrite Ex in Hr;
        eapply Qle_lt_trans; eassumption
      | apply Qgt_alt in Ex; apply Qeq_alt in Ey; rewrite Ey in Hr;
        eapply Qlt_le_trans; eassumption
      | apply Qgt_alt in Ex; apply Qlt_alt in Ey;
        eapply Qlt_trans; [exact Ex|]; eapply Qle_lt_trans; eassumption ].
Qed.

Lemma nearest_even_ge (x : Q) (n : Z) :
  (inject_Z n <= x)%Q -> n <= Double.nearest_even x.
Proof.
  intros H. rewrite <- (nearest_even_Z n). now apply nearest_even_mono.
Qed.

Lemma nearest_even_le (x : Q) (n : Z) :
  (x <= inject_Z n)%Q -> Double.nearest_even x <= n.
Proof.
  intros H. rewrite <- (nearest_even_Z n). now apply nearest_even_mono.
Qed.

Lemma pow2_Z (k : Z) : 0 <= k -> (Double.pow2 k == inject_Z (2 ^ k))%Q.
Proof.
  intros Hk. unfold Double.pow2. change (2%Q) with (inject_Z 2).
  now rewrite Zpower_Qpower.
Qed.

Lemma pow2_0 : (Double.pow2 0 == 1)%Q.
Proof. reflexivity. Qed.

(** Rounding onto a grid. *)
Lemma on_grid_le (e : Z) (x : Q) (n : Z) :
  (x <= inject_Z n * Double.pow2 e)%Q ->
  (Double.on_grid e x <= inject_Z n * Double.pow2 e)%Q.
Proof.
  intros H. unfold Double.on_grid.
  apply Qmult_le_compat_r; [|apply Qlt_le_weak, pow2_pos].
  rewrite <- Zle_Qle. apply nearest_even_le.
  apply Qle_shift_div_r; [apply pow2_pos | exact H].
Qed.

Lemma on_grid_ge (e : Z) (x : Q) (n : Z) :
  (inject_Z n * Double.pow2 e <= x)%Q ->
  (inject_Z n * Double.pow2 e <= Double.on_grid e x)%Q.
Proof.
  intros H. unfold Double.on_grid.
  apply Qmult_le_compat_r; [|apply Qlt_le_weak, pow2_pos].
  rewrite <- Zle_Qle. apply nearest_even_ge.
  apply Qle_shift_div_l; [apply pow2_pos | exact H].
Qed.

Lemma on_grid_mono (e : Z) (x y : Q) :
  (x <= y)%Q -> (Double.on_grid e x <= Double.on_grid e y)%Q.
Proof.
  intros H. unfold Double.on_grid.
  apply Qmult_le_compat_r; [|apply Qlt_le_weak, pow2_pos].
  rewrite <- Zle_Qle. apply nearest_even_mono.
  apply Qmult_le_compat_r; [exact H|].
  apply Qlt_le_weak, Qinv_lt_0_compat, pow2_pos.
Qed.

(** A power of two on a grid at least as fine. *)
Lemma pow2_on_grid (e k : Z) :
  0 <= k -> (Double.pow2 (e + k) == inject_Z (2 ^ k) * Double.pow2 e)%Q.
Proof.
  intros Hk. rewrite pow2_plus, <- pow2_Z by exact Hk. ring.
Qed.

Lemma round_pos (q : Q) :
  (0 < q)%Q -> Double.round q = Double.on_grid (Double.last_place q) q.
Proof.
  intros H. unfold Double.round. destruct q as [[|n|n] d]; try reflexivity;
    unfold Qlt in H; cbn in H; lia.
Qed.

Lemma round_0 (q : Q) : (q == 0)%Q -> Double.round q = 0%Q.
Proof.
  intros H. unfold Double.round. destruct q as [[|n|n] d]; try reflexivity;
    unfold Qeq in H; cbn in H; lia.
Qed.

Lemma round_nonneg (q : Q) : (0 <= q)%Q -> (0 <= Double.round q)%Q.
Proof.
  intros H. destruct (Qlt_le_dec 0 q) as [Hp | Hz].
  - rewrite round_pos by exact Hp.
    setoid_replace 0%Q with (inject_Z 0 * Double.pow2 (Double.last_place q))%Q
      by ring.
    apply on_grid_ge. ring_simplify. exact H.
  - rewrite round_0; [apply Qle_refl|]. now apply Qle_antisym.
Qed.

(** A positive number rounds to a double between the powers of two that
    bracket it. *)
Lemma round_ge_pow2 (q : Q) (k : Z) :
  Double.last_place q <= k -> (Double.pow2 k <= q)%Q ->
  (Double.pow2 k <= Double.round q)%Q.
Proof.
  intros He Hk.
  assert (Hq : (0 < q)%Q) by (eapply Qlt_le_trans; [apply pow2_pos|exact Hk]).
  rewrite round_pos by exact Hq.
  replace k with (Double.last_place q + (k - Double.last_place q)) in * by ring.
  rewrite pow2_on_grid in * by lia.
  now apply on_grid_ge.
Qed.

Lemma round_le_pow2 (q : Q) (k : Z) :
  (0 < q)%Q -> Double.last_place q <= k -> (q <= Double.pow2 k)%Q ->
  (Double.round q <= Double.pow2 k)%Q.
Proof.
  intros Hq He Hk.
  rewrite round_pos by exact Hq.
  replace k with (Double.last_place q + (k - Double.last_place q)) in * by ring.
  rewrite pow2_on_grid in * by lia.
  now apply on_grid_le.
Qed.

Lemma last_place_mono (x y : Q) :
  (0 < x)%Q -> (x <= y)%Q -> Double.last_place x <= Double.last_place y.
Proof.
  intros Hx Hxy. unfold Double.last_place.
  pose proof (log2_mono x y Hx Hxy). lia.
Qed.

(** Rounding keeps the order. *)
Lemma round_mono (x y : Q) :
  (0 <= x)%Q -> (x <= y)%Q -> (Double.round x <= Double.round y)%Q.
Proof.
  intros Hx Hxy.
  destruct (Qlt_le_dec 0 x) as [Hp | Hz].
  2:{ rewrite (round_0 x) by now apply Qle_antisym.
      apply round_nonneg. eapply Qle_trans; eassumption. }
  assert (Hy : (0 < y)%Q) by (eapply Qlt_le_trans; eassumption).
  pose proof (last_place_mono x y Hp Hxy) as He.
  destruct (Z.eq_dec (Double.last_place x) (Double.last_place y)) as [E | N].
  - rewrite !round_pos by assumption. rewrite E. now apply on_grid_mono.
  - assert (Hl : Double.last_place y = Double.log2 y - 52)
      by (unfold Double.last_place in *; lia).
    assert (Hlx : Double.log2 x + 1 <= Double.log2 y)
      by (unfold Double.last_place in *; lia).
    destruct (log2_spec x Hp) as [_ Hx2]. destruct (log2_spec y Hy) as [Hy1 _].
    apply Qle_trans with (Double.pow2 (Double.log2 y)).
    + apply round_le_pow2; [exact Hp | lia |].
      apply Qlt_le_weak. eapply Qlt_le_trans; [exact Hx2|].
      now apply pow2_le.
    + apply round_ge_pow2; [lia | exact Hy1].
Qed.

Lemma log2_below_one (r : Q) :
  (0 < r)%Q -> (r < 1)%Q -> Double.log2 r <= -1.
Proof.
  intros H0 H1. destruct (log2_spec r H0) as [Hl _].
  assert (Double.log2 r < 0); [|lia].
  apply pow2_lt_inv. eapply Qle_lt_trans; [exact Hl|]. exact H1.
Qed.

(** A double from 1/2 up to 1 is a multiple of 2^-53. *)
Lemma double_upper_half (r : Q) :
  Double.is_double r = true -> (1 # 2 <= r)%Q -> (r < 1)%Q ->
  exists m : Z, (r == m # 9007199254740992)%Q.
Proof.
  intros Hd Hlo Hhi.
  assert (H0 : (0 < r)%Q) by (eapply Qlt_le_trans; [|exact Hlo]; reflexivity).
  assert (El : Double.log2 r = -1).
  { apply log2_unique; [exact Hlo | exact Hhi]. }
  unfold Double.is_double in Hd. apply Qeq_bool_eq in Hd.
  rewrite round_pos in Hd by exact H0.
  unfold Double.last_place in Hd. rewrite El in Hd.
  change (Z.max (-1 - 52) (-1074)) with (-53) in Hd.
  unfold Double.on_grid in Hd.
  exists (Double.nearest_even (r / Double.pow2 (-53))).
  rewrite <- Hd at 1.
  generalize (Double.nearest_even (r / Double.pow2 (-53))). intros m.
  unfold Qeq. cbn. ring.
Qed.

(** No double lies strictly between [Double.below_one] and 1. *)
Lemma double_below_one (r : Q) :
  Double.is_double r = true -> (r < 1)%Q -> (r <= Double.below_one)%Q.
Proof.
  intros Hd Hhi.
  destruct (Qlt_le_dec r (1 # 2)) as [Hs | Hlo].
  - apply Qlt_le_weak. eapply Qlt_trans; [exact Hs | reflexivity].
  - destruct (double_upper_half r Hd Hlo Hhi) as (m & Hm).
    rewrite Hm in *. unfold Qlt in Hhi. unfold Qle, Double.below_one.
    cbn [Qnum Qden] in *. lia.
Qed.

Lemma mul_draw_bounds (r k : Q) :
  is_draw r -> (0 <= k)%Q ->
  (0 <= Js.mul r k)%Q /\ (Js.mul r k <= Js.mul Double.below_one k)%Q.
Proof.
  intros (H0 & H1 & Hd) Hk. unfold Js.mul.
  assert (Hrk : (0 <= r * k)%Q) by now apply Qmult_le_0_compat.
  split; [now apply round_nonneg|].
  apply round_mono; [exact Hrk|].
  apply Qmult_le_compat_r; [|exact Hk]. now apply double_below_one.
Qed.

Lemma add_mul_draw_bounds (r k c : Q) :
  is_draw r -> (0 <= k)%Q -> (0 <= c)%Q ->
  (Js.add 0 c <= Js.add (Js.mul r k) c)%Q
  /\ (Js.add (Js.mul r k) c <= Js.add (Js.mul Double.below_one k) c)%Q.
Proof.
  intros Hr Hk Hc. destruct (mul_draw_bounds r k Hr Hk) as [Hlo Hhi].
  unfold Js.add. split.
  - apply round_mono.
    + setoid_replace (0 + c)%Q with c by ring. exact Hc.
    + now apply Qplus_le_l.
  - apply round_mono.
    + setoid_replace 0%Q with (0 + 0)%Q by ring.
      now apply Qplus_le_compat.
    + now apply Qplus_le_l.
Qed.

Lemma round_ge_one (q : Q) : (1 <= q)%Q -> (1 <= Double.round q)%Q.
Proof.
  intros H. apply Qle_trans with (Double.round 1); [discriminate|].
  apply round_mono; [discriminate | exact H].
Qed.

(** A number on the grid of its own last place is a double. *)
Lemma round_grid_point (q : Q) (n : Z) :
  (0 < q)%Q -> (q == inject_Z n * Double.pow2 (Double.last_place q))%Q ->
  (Double.round q == q)%Q.
Proof.
  intros Hq Hn. rewrite round_pos by exact Hq.
  apply Qle_antisym.
  - rewrite Hn at 3. apply on_grid_le. rewrite <- Hn. apply Qle_refl.
  - rewrite Hn at 1. apply on_grid_ge. rewrite <- Hn. apply Qle_refl.
Qed.

(** The integers below 2^53 are doubles. *)
Lemma round_integer (q : Q) (z : Z) :
  0 < z < 2 ^ 53 -> (q == inject_Z z)%Q ->
  (Double.round q == inject_Z z)%Q.
Proof.
  intros Hz Hq.
  assert (H0 : (0 < q)%Q).
  { rewrite Hq. change 0%Q with (inject_Z 0). rewrite <- Zlt_Qlt. lia. }
  destruct (log2_spec q H0) as [Hl1 Hl2].
  assert (Hlo : 0 <= Double.log2 q).
  { assert (0 < Double.log2 q + 1); [|lia].
    apply pow2_lt_inv. eapply Qle_lt_trans; [|exact Hl2].
    rewrite Hq, pow2_0. change 1%Q with (inject_Z 1). rewrite <- Zle_Qle. lia. }
  assert (Hhi : Double.log2 q < 53).
  { apply pow2_lt_inv. eapply Qle_lt_trans; [exact Hl1|].
    rewrite Hq, (pow2_Z 53) by lia. rewrite <- Zlt_Qlt. lia. }
  set (e := Double.last_place q).
  assert (He : -52 <= e <= 0) by (subst e; unfold Double.last_place; lia).
  rewrite <- Hq.
  apply (round_grid_point q (z * 2 ^ (- e)) H0).
  fold e. rewrite inject_Z_mult, <- Qmult_assoc.
  rewrite <- (pow2_on_grid e (- e)) by lia.
  replace (e + - e) with 0 by ring. rewrite pow2_0, Qmult_1_r. exact Hq.
Qed.

(** [Math.floor(Math.random() * k)] for the factors of the sources. *)
Lemma floor_mul_draw (r : Q) (k : Z) :
  In k [5; 6; 24; 60] -> is_draw r -> 0 <= Qfloor (Js.mul r (inject_Z k)) < k.
Proof.
  intros Hk Hr.
  assert (H : (0 <= inject_Z k)%Q /\ Qfloor (Js.mul Double.below_one (inject_Z k)) = k - 1).
  { cbn in Hk. destruct Hk as [<- | [<- | [<- | [<- | []]]]];
      (split; [discriminate | vm_compute; reflexivity]). }
  destruct H as [H0 Htop].
  destruct (mul_draw_bounds r (inject_Z k) Hr H0) as [Hlo Hhi].
  apply Qfloor_resp_le in Hlo, Hhi. rewrite Htop in Hhi.
  change (Qfloor 0) with 0 in Hlo. lia.
Qed.

(** [Math.floor(Math.random() * k + c)]: the flight number, the base price
    and the hours of the duration. *)
Lemma floor_add_mul_draw (r : Q) (k c top : Z) :
  In (k, c, top) [(9000, 1000, 9999); (800, 200, 999); (8, 2, 10)] ->
  is_draw r ->
  c <= Qfloor (Js.add (Js.mul r (inject_Z k)) (inject_Z c)) <= top.
Proof.
  intros Hk Hr.
  assert (H : (0 <= inject_Z k)%Q /\ (0 <= inject_Z c)%Q
              /\ Qfloor (Js.add 0 (inject_Z c)) = c
              /\ Qfloor (Js.add (Js.mul Double.below_one (inject_Z k)) (inject_Z c)) = top).
  { cbn in Hk.
    destruct Hk as [E | [E | [E | []]]]; injection E as <- <- <-;
      (split; [discriminate|]); (split; [discriminate|]);
      split; vm_compute; reflexivity. }
  destruct H as (H0 & Hc & Hbot & Htop).
  destruct (add_mul_draw_bounds r _ _ Hr H0 Hc) as [Hlo Hhi].
  apply Qfloor_resp_le in Hlo, Hhi. rewrite Htop in Hhi. rewrite Hbot in Hlo.
  lia.
Qed.

(** The hours of a duration do reach 10. *)
Lemma hours_reach_ten :
  is_draw Double.below_one /\ Qfloor (Js.add (Js.mul Double.below_one 8) 2) = 10.
Proof. repeat split; vm_compute; congruence. Qed.

(** Against the literal 0.6 a draw compares as against 6/10. *)
Lemma gt_literal (r : Q) :
  is_draw r ->
  Js.gt r (Js.literal (6 # 10)) = Js.gt r (6 # 10).
Proof.
  intros (H0 & H1 & Hd). unfold Js.gt, Js.literal. f_equal.
  assert (Hl : (Double.round (6 # 10) == 5404319552844595 # 9007199254740992)%Q)
    by (vm_compute; reflexivity).
  destruct (Qle_bool r (6 # 10)) eqn:E.
  - apply Qle_bool_iff in E. 
    destruct (Qle_bool r (Double.round (6 # 10))) eqn:E'; [reflexivity|].
    exfalso.
    assert (Hgt : (Double.round (6 # 10) < r)%Q).
    { apply Qnot_le_lt. intros H. apply Qle_bool_iff in H. congruence. }
    assert (Hlo : (1 # 2 <= r)%Q).
    { apply Qlt_le_weak. eapply Qlt_trans; [|exact Hgt]. rewrite Hl. reflexivity. }
    destruct (double_upper_half r Hd Hlo H1) as (m & Hm).
    rewrite Hl, Hm in Hgt. rewrite Hm in E.
    unfold Qlt, Qle in *. cbn [Qnum Qden] in *. lia.
  - destruct (Qle_bool r (Double.round (6 # 10))) eqn:E'; [|reflexivity].
    apply Qle_bool_iff in E'. rewrite Hl in E'.
    assert (H : (r <= 6 # 10)%Q).
    { eapply Qle_trans; [exact E'|]. unfold Qle. cbn. lia. }
    apply Qle_bool_iff in H. congruence.
Qed.

(** ** Characters *)

Ltac each_ascii c :=
  destruct c as [[] [] [] [] [] [] [] []].

Lemma upper_of_alpha (c : ascii) :
  Str.isAlpha c = true -> Str.isUpper (Str.upper c) = true.
Proof. each_ascii c; vm_compute; congruence. Qed.

Lemma airport_test_3 (a b c : ascii) :
  Regex.test Patterns.airport (String a (String b (String c "")))
  = Str.isAlpha a && Str.isAlpha b && Str.isAlpha c.
Proof.
  unfold Regex.test, Patterns.airport. cbn.
  destruct (Str.isAlpha a); cbn; [|reflexivity].
  destruct (Str.isAlpha b); cbn; [|reflexivity].
  destruct (Str.isAlpha c); reflexivity.
Qed.

Lemma length_3 (s : string) :
  String.length s = 3%nat ->
  exists a b c, s = String a (String b (String c "")).
Proof.
  destruct s as [|a [|b [|c [|d s]]]]; simpl; try discriminate.
  intros _. now exists a, b, c.
Qed.

(** C5 (amended).  For every input to airport-code validation: a string of
    exactly 3 alphabetic characters, in any case, is accepted and returned
    in upper case, every character of the result being an upper-case
    letter; every other input (a string of another length or with a
    character that is not a letter, or a value that is not a string) is
    rejected with a [ValidationError] that names the field "airport_code"
    and carries the input. *)
Theorem validateAirportCode_spec (v : value) :
  (forall s, v = VStr s -> String.length s = 3%nat ->
             Str.all Str.isAlpha s = true ->
     validateAirportCode v = inr (Str.toUpperCase s)
     /\ Str.all Str.isUpper (Str.toUpperCase s) = true)
  /\ ((forall s, v = VStr s ->
                 String.length s <> 3%nat \/ Str.all Str.isAlpha s = false) ->
      exists m, validateAirportCode v = inl (ValidationError m "airport_code" v)).
Proof.
  split.
  - intros s -> Hlen Hall.
    destruct (length_3 s Hlen) as (a & b & c & ->).
    simpl in Hall.
    destruct (Str.isAlpha a) eqn:Ha; [|discriminate].
    destruct (Str.isAlpha b) eqn:Hb; [|discriminate].
    destruct (Str.isAlpha c) eqn:Hc; [|discriminate].
    unfold validateAirportCode.
    rewrite airport_test_3, Ha, Hb, Hc. simpl. split; [reflexivity|].
    now rewrite !upper_of_alpha.
  - intros H. destruct v; try (eexists; reflexivity).
    unfold validateAirportCode.
    destruct (negb (Js.truthy (VStr s))); [eexists; reflexivity|].
    destruct (String.length s =? 3)%nat eqn:Hlen; simpl; [|eexists; reflexivity].
    apply Nat.eqb_eq in Hlen.
    destruct (H s eq_refl) as [Hne | Hall]; [contradiction|].
    destruct (length_3 s Hlen) as (a & b & c & ->).
    rewrite airport_test_3. simpl in Hall. rewrite andb_true_r in Hall.
    rewrite <- andb_assoc, Hall. simpl. eexists; reflexivity.
Qed.

Lemma validateAirportCode_spec_witness :
  validateAirportCode (VStr "lax") = inr "LAX"
  /\ exists m,
       validateAirportCode (VStr "LAX1")
       = inl (ValidationError m "airport_code" (VStr "LAX1")).
Proof.
  split.
  - exact (proj1 (proj1 (validateAirportCode_spec (VStr "lax"))
                    "lax" eq_refl eq_refl eq_refl)).
  - apply (proj2 (validateAirportCode_spec (VStr "LAX1"))).
    intros s E. inversion E. left. discriminate.
Defined.

Lemma validateAirportCode_kind_counterexample :
  ~ (exists m d,
       validateAirportCode (VStr "LAX1")
       = inl (FlightAPIError m "INVALID_AIRPORT_CODE" d)).
Proof. intros (m & d & H). vm_compute in H. discriminate H. Qed.

(** C10, the validator *)
Lemma validateTravelClass_falsy (v : value) :
  Js.truthy v = false -> validateTravelClass v = inr "economy".
Proof.
  intros H. unfold validateTravelClass. rewrite H. simpl.
  destruct v; reflexivity.
Qed.

Lemma validateTravelClass_rejects (v : value) (e : exn) :
  validateTravelClass v = inl e ->
  Js.truthy v = true /\ includes validClasses v = false
  /\ exists m, e = ValidationError m "travel_class" v.
Proof.
  unfold validateTravelClass.
  destruct (Js.truthy v), (includes validClasses v);
    cbn [andb negb]; intros H; try discriminate H.
  inversion H.
  split; [reflexivity|]. split; [reflexivity|]. eexists; reflexivity.
Qed.

Lemma validateTravelClass_member (s : string) :
  In s validClasses -> validateTravelClass (VStr s) = inr s.
Proof.
  unfold validClasses. intros H.
  repeat (destruct H as [H | H]; [subst s; reflexivity|]). destruct H.
Qed.

(** ** Dates *)

Lemma setHours0_west (rt : Runtime) (n : Z) :
  -1440 <= utc_offset rt < 0 ->
  JsDate.setHours0 rt (JsDate.msPerDay * n)
  = JsDate.msPerDay * (n - 1) - utc_offset rt * 60000.
Proof.
  intros H. unfold JsDate.setHours0, JsDate.msPerDay.
  replace ((86400000 * n + utc_offset rt * 60000) / 86400000) with (n - 1).
  - ring.
  - apply Z.div_unique with (r := 86400000 + utc_offset rt * 60000); lia.
Qed.

Lemma setHours0_east (rt : Runtime) (n : Z) :
  0 <= utc_offset rt < 1440 ->
  JsDate.setHours0 rt (JsDate.msPerDay * n)
  = JsDate.msPerDay * n - utc_offset rt * 60000.
Proof.
  intros H. unfold JsDate.setHours0, JsDate.msPerDay.
  replace ((86400000 * n + utc_offset rt * 60000) / 86400000) with n.
  - ring.
  - apply Z.div_unique with (r := utc_offset rt * 60000); lia.
Qed.

Lemma date_test_nonempty (s : string) :
  Regex.test Patterns.date s = true -> Js.truthy (VStr s) = true.
Proof. destruct s; [discriminate | reflexivity]. Qed.

Lemma setHours0_now (rt : Runtime) :
  JsDate.setHours0 rt (JsDate.now rt)
  = JsDate.msPerDay * today_number rt - utc_offset rt * 60000.
Proof. unfold JsDate.setHours0, JsDate.now, today_number. ring. Qed.

Lemma days_from_civil_examples :
  JsDate.days_from_civil 1970 1 1 = 0
  /\ JsDate.days_from_civil 1969 12 31 = -1
  /\ JsDate.days_from_civil 2000 2 29 = 11016
  /\ JsDate.days_from_civil 2000 3 1 = 11017
  /\ JsDate.days_from_civil 2025 6 15 = 20254
  /\ JsDate.MakeDay 2025 2 30 = JsDate.days_from_civil 2025 3 2.
Proof. repeat split. Qed.

(** From Greenwich eastwards a date is accepted exactly when its day is
    today or later. *)
Lemma validateDate_east (rt : Runtime) (s f : string) (n : Z) :
  0 <= utc_offset rt < 1440 ->
  Regex.test Patterns.date s = true ->
  JsDate.parse rt s = Some (JsDate.msPerDay * n) ->
  validateDate rt (VStr s) f
  = if n <? today_number rt
    then inl (ValidationError (f ++ " cannot be in the past") f (VStr s))
    else inr s.
Proof.
  intros Hoff Hre Hp. unfold validateDate.
  rewrite (date_test_nonempty s Hre), Hre, Hp. simpl negb. cbv iota.
  rewrite setHours0_now, setHours0_east by assumption.
  unfold JsDate.msPerDay.
  destruct (Z.ltb_spec n (today_number rt));
    destruct (Z.ltb_spec (86400000 * n - utc_offset rt * 60000)
                (86400000 * today_number rt - utc_offset rt * 60000));
    try reflexivity; lia.
Qed.

(** West of Greenwich it is accepted only when its day is later than
    today: the date of today is rejected as past. *)
Lemma validateDate_west (rt : Runtime) (s f : string) (n : Z) :
  -1440 <= utc_offset rt < 0 ->
  Regex.test Patterns.date s = true ->
  JsDate.parse rt s = Some (JsDate.msPerDay * n) ->
  validateDate rt (VStr s) f
  = if n <=? today_number rt
    then inl (ValidationError (f ++ " cannot be in the past") f (VStr s))
    else inr s.
Proof.
  intros Hoff Hre Hp. unfold validateDate.
  rewrite (date_test_nonempty s Hre), Hre, Hp. simpl negb. cbv iota.
  rewrite setHours0_now, setHours0_west by assumption.
  unfold JsDate.msPerDay.
  destruct (Z.leb_spec n (today_number rt));
    destruct (Z.ltb_spec (86400000 * (n - 1) - utc_offset rt * 60000)
                (86400000 * today_number rt - utc_offset rt * 60000));
    try reflexivity; lia.
Qed.

(** C3.  What the code does at noon of 15 June 2025, local time, on a host
    four hours west of UTC: the string "2025-06-15" parses to midnight UTC
    of that day, the local date is that same day, and yet date validation
    rejects the string as being in the past.  At the same instant a host
    on UTC accepts it. *)
Theorem validateDate_rejects_today_west_of_utc :
  JsDate.parse Sample.rt_west "2025-06-15"
    = Some (JsDate.msPerDay * JsDate.MakeDay 2025 6 15)
  /\ today_number Sample.rt_west = JsDate.MakeDay 2025 6 15
  /\ validateDate Sample.rt_west (VStr "2025-06-15") "date"
     = inl (ValidationError "date cannot be in the past" "date"
              (VStr "2025-06-15"))
  /\ validateDate Sample.rt (VStr "2025-06-15") "date" = inr "2025-06-15".
Proof. repeat split; vm_compute; reflexivity. Qed.

(** ** The failure mapping of the provider client *)

Import FailureMapping.

Lemma catch_rejected (rt : Runtime) (t : thrown) :
  if message_fails rt (Rejected t) then
    AmadeusFlightService.searchFlights_catch rt (Thrown t) = cannot_convert
  else
    exists m d,
      AmadeusFlightService.searchFlights_catch rt (Thrown t)
      = FlightAPIError m (kind_code (kind (Rejected t))) d
      /\ (rule (Rejected t) = 4%nat ->
          exists e, structured (Rejected t) = Some e
                    /\ detail_message rt e = Some m
                    /\ d = [("code", pe_code e); ("detail", pe_detail e)])
      /\ (rule (Rejected t) = 7%nat -> d = [("originalError", th_message t)])
      /\ (2 <= rule (Rejected t) <= 7)%nat.
Proof.
  unfold message_fails, detail_message.
  destruct t as [msg code [[[[|e es]|] [|] st]|]];
    unfold kind, rule, has_code, is_structured;
    cbn [AmadeusFlightService.searchFlights_catch exn_response exn_code
         exn_message th_response th_code th_message resp_has_data
         resp_errors resp_status structured first_rule rules is_no_offers
         connection_failure rate_limited];
    unfold template;
    try (destruct (Js.toString rt
                     (AmadeusFlightService.or_else (pe_detail e)
                        (VStr "Amadeus API error"))) as [m'|] eqn:Edt);
    repeat match goal with
      | |- context [Js.is_number ?a ?b] => destruct (Js.is_number a b); cbn
      | |- context [Js.is_string ?a ?b] => destruct (Js.is_string a b); cbn
      end;
    try reflexivity;
    do 2 eexists; (split; [reflexivity|]);
    (split; [intros; try discriminate; eexists; repeat split;
             first [reflexivity | exact Edt]|]);
    (split; [intros; try discriminate; reflexivity|]); lia.
Qed.

(** Without a failing message, the catch throws a [FlightAPIError]. *)
Lemma catch_rejected_error (rt : Runtime) (t : thrown) :
  message_fails rt (Rejected t) = false ->
  exists m d,
    AmadeusFlightService.searchFlights_catch rt (Thrown t)
    = FlightAPIError m (kind_code (kind (Rejected t))) d.
Proof.
  intros H. pose proof (catch_rejected rt t) as Hc. rewrite H in Hc.
  destruct Hc as (m & d & E & _). now exists m, d.
Qed.





(** ** Draws *)

Lemma floor_scaled0 (r : Q) (a : Z) :
  is_draw r -> In a [5; 6; 24; 60] ->
  0 <= Math_floor (Js.mul r (inject_Z a)) <= a - 1.
Proof.
  intros Hr Ha. pose proof (floor_mul_draw r a Ha Hr) as H.
  unfold Math_floor. lia.
Qed.

Lemma floor_scaled (r : Q) (a b top : Z) :
  is_draw r -> In (a, b, top) [(9000, 1000, 9999); (800, 200, 999); (8, 2, 10)] ->
  b <= Math_floor (Js.add (Js.mul r (inject_Z a)) (inject_Z b)) <= top.
Proof. intros Hr Ha. exact (floor_add_mul_draw r a b top Ha Hr). Qed.

Lemma at_index_In {A} (xs : list A) (i : Z) (x : A) :
  at_index xs i = Some x -> In x xs.
Proof.
  unfold at_index. destruct (i <? 0); [discriminate|]. apply nth_error_In.
Qed.

Lemma at_index_Some {A} (xs : list A) (i : Z) :
  0 <= i < Z.of_nat (length xs) -> exists x, at_index xs i = Some x.
Proof.
  intros H. unfold at_index.
  destruct (Z.ltb_spec i 0); [lia|].
  destruct (nth_error xs (Z.to_nat i)) eqn:E; [now eexists|].
  apply nth_error_None in E. lia.
Qed.

Lemma mockFlight_ok (o d dd : string) (a : Q) (c : string) (w : World) :
  draws_in_range w ->
  exists code name n bp f,
    FlightMCPServer.mockFlight o d dd a c w = (inr f, advance 10 w)
    /\ In (code, name) FlightMCPServer.airlines
    /\ 1000 <= n <= 9999 /\ 200 <= bp <= 999
    /\ airline f = name
    /\ flight_number f = code ++ Str.ofZ n
    /\ price_amount f = Js.mul (inject_Z bp) a
    /\ price_per_person f = inject_Z bp
    /\ stops f = stops_of_draw (draws w (9 + cursor w))
    /\ offer_travel_class f = c.
Proof.
  intros Hr.
  pose proof (floor_scaled0 _ 5 (Hr (cursor w)) ltac:(cbn; tauto)) as Hk.
  pose proof (floor_scaled _ 9000 1000 9999 (Hr (S (cursor w)))
                ltac:(cbn; tauto)) as Hn.
  pose proof (floor_scaled _ 800 200 999 (Hr (S (S (cursor w))))
                ltac:(cbn; tauto)) as Hb.
  destruct (at_index_Some FlightMCPServer.airlines
              (Math_floor (Js.mul (draws w (cursor w)) (inject_Z 5))))
    as [[code name] Ha];
    [change (Z.of_nat (length FlightMCPServer.airlines)) with 5; lia|].
  exists code, name,
    (Math_floor
       (Js.add (Js.mul (draws w (S (cursor w))) (inject_Z 9000))
          (inject_Z 1000))),
    (Math_floor
       (Js.add (Js.mul (draws w (S (S (cursor w)))) (inject_Z 800))
          (inject_Z 200))).
  unfold FlightMCPServer.mockFlight, FlightMCPServer.generateRandomTime, bind, Math_random, ret.
  cbn [draws cursor requests].
  change (inject_Z (Z.of_nat (length FlightMCPServer.airlines))) with (inject_Z 5).
  rewrite Ha. cbn [draws cursor requests].
  eexists. split; [reflexivity|].
  split; [exact (at_index_In _ _ _ Ha)|].
  split; [exact Hn|]. split; [exact Hb|].
  cbn [airline flight_number price_amount price_per_person stops
       offer_travel_class].
  repeat split.
  unfold stops_of_draw. rewrite <- (gt_literal _ (Hr (9 + cursor w)%nat)).
  reflexivity.
Qed.

(** ** Validation of the arguments of [search_flights] *)

Section Validation.
Variable rt : Runtime.
Variable fs : list (string * value).
Variable p : SearchParams.
Hypothesis valid : fields_valid rt fs p.

Lemma validate_accepts (w : World) :
  return_not_after rt p = false ->
  origin p <> destination p ->
  FlightMCPServer.searchFlights_validate rt (VObj fs) w = (inr p, w).
Proof.
  destruct valid as ((Ho & Hd & Hdep & Ha & Hret) & Hc).
  intros Hna Hne.
  unfold FlightMCPServer.searchFlights_validate, FlightMCPServer.prop,
    bind, ret, lift, throw.
  rewrite Ho, Hd, Hdep, Ha, Hc.
  unfold return_not_after in Hna.
  apply String.eqb_neq in Hne.
  destruct p as [po pd pdep pret pa pc]; cbn in *.
  destruct (Js.truthy (Js.field "return_date" fs)).
  - destruct Hret as (r & Hr & ->). rewrite Hr, Hna, Hne. reflexivity.
  - rewrite Hret, Hne. reflexivity.
Qed.

Lemma validate_rejects_return (w : World) :
  return_not_after rt p = true ->
  FlightMCPServer.searchFlights_validate rt (VObj fs) w
  = (inl (ValidationError "Return date must be after departure date"
            "return_date" (Js.field "return_date" fs)), w).
Proof.
  destruct valid as ((Ho & Hd & Hdep & Ha & Hret) & Hc).
  intros Hna.
  unfold FlightMCPServer.searchFlights_validate, FlightMCPServer.prop,
    bind, ret, lift, throw.
  rewrite Ho, Hd, Hdep, Ha, Hc.
  unfold return_not_after in Hna.
  destruct (Js.truthy (Js.field "return_date" fs)).
  - destruct Hret as (r & Hr & E). rewrite E in Hna. rewrite Hr, Hna.
    reflexivity.
  - rewrite Hret in Hna. discriminate.
Qed.

Lemma validate_rejects_same (w : World) :
  return_not_after rt p = false ->
  origin p = destination p ->
  FlightMCPServer.searchFlights_validate rt (VObj fs) w
  = (inl (ValidationError "Origin and destination airports must be different"
            "destination" (Js.field "destination" fs)), w).
Proof.
  destruct valid as ((Ho & Hd & Hdep & Ha & Hret) & Hc).
  intros Hna Heq.
  unfold FlightMCPServer.searchFlights_validate, FlightMCPServer.prop,
    bind, ret, lift, throw.
  rewrite Ho, Hd, Hdep, Ha, Hc.
  unfold return_not_after in Hna.
  apply String.eqb_eq in Heq.
  destruct (Js.truthy (Js.field "return_date" fs)).
  - destruct Hret as (r & Hr & E). rewrite E in Hna. rewrite Hr, Hna, Heq.
    reflexivity.
  - rewrite Heq. reflexivity.
Qed.
End Validation.

Lemma searchFlights_rejected (rt : Runtime) (RawOffer : Type)
    (get : SearchRequest -> thrown + option (list RawOffer))
    (fmt : list RawOffer -> thrown + list FlightOffer) (mode : bool)
    (args : value) (w w' : World) (e : exn) :
  FlightMCPServer.searchFlights_validate rt args w = (inl e, w') ->
  FlightMCPServer.searchFlights rt RawOffer get fmt mode args w = (inl e, w').
Proof.
  intros H. unfold FlightMCPServer.searchFlights, bind. now rewrite H.
Qed.

(** C4 (amended).  For every search_flights call whose arguments pass the
    validators one by one, in Live and in Fallback mode: if a return date is
    given that is earlier than or equal to the departure date, the call
    fails with a validation error naming the field "return_date", whether
    or not origin and destination differ; if the return date is absent or
    later than the departure date and the normalized origin equals the
    normalized destination, the call fails with a validation error naming
    the field "destination".  In both cases the world is left as it was:
    no request went to the provider and no draw was taken by the
    generator. *)
Theorem searchFlights_cross_field_rules (rt : Runtime) (RawOffer : Type)
    (get : SearchRequest -> thrown + option (list RawOffer))
    (fmt : list RawOffer -> thrown + list FlightOffer) (mode : bool)
    (fs : list (string * value)) (p : SearchParams) (w : World) :
  fields_valid rt fs p ->
  (return_not_after rt p = true ->
   exists m, FlightMCPServer.searchFlights rt RawOffer get fmt mode (VObj fs) w
             = (inl (ValidationError m "return_date"
                       (Js.field "return_date" fs)), w))
  /\ (return_not_after rt p = false -> origin p = destination p ->
      exists m, FlightMCPServer.searchFlights rt RawOffer get fmt mode
                  (VObj fs) w
                = (inl (ValidationError m "destination"
                          (Js.field "destination" fs)), w)).
Proof.
  intros Hv. split.
  - intros Hn. eexists. apply searchFlights_rejected.
    now apply validate_rejects_return with (p := p).
  - intros Hn He. eexists. apply searchFlights_rejected.
    now apply validate_rejects_same with (p := p).
Qed.

Lemma searchFlights_cross_field_rules_witness :
  (exists m,
     FlightMCPServer.searchFlights Sample.rt unit Sample.get Sample.fmt true
       (VObj Sample.round_trip_fields) Sample.halves
     = (inl (ValidationError m "return_date" (VStr "2025-12-24")),
        Sample.halves))
  /\ (exists m,
        FlightMCPServer.searchFlights Sample.rt unit Sample.get Sample.fmt
          true (VObj Sample.same_airport_fields) Sample.halves
        = (inl (ValidationError m "destination" (VStr "lax")),
           Sample.halves)).
Proof.
  split.
  - apply (searchFlights_cross_field_rules Sample.rt unit Sample.get
             Sample.fmt true Sample.round_trip_fields
             Sample.round_trip_params Sample.halves).
    + repeat split. exists "2025-12-24". split; reflexivity.
    + reflexivity.
  - apply (searchFlights_cross_field_rules Sample.rt unit Sample.get
             Sample.fmt true Sample.same_airport_fields
             Sample.same_airport_params Sample.halves).
    + repeat split.
    + reflexivity.
    + reflexivity.
Defined.

Lemma same_airport_with_early_return_counterexample :
  fields_valid Sample.rt Sample.round_trip_fields Sample.round_trip_params
  /\ origin Sample.round_trip_params = destination Sample.round_trip_params
  /\ FlightMCPServer.searchFlights Sample.rt unit Sample.get Sample.fmt false
       (VObj Sample.round_trip_fields) Sample.halves
     = (inl (ValidationError "Return date must be after departure date"
               "return_date" (VStr "2025-12-24")), Sample.halves)
  /\ ~ (exists m v,
          fst (FlightMCPServer.searchFlights Sample.rt unit Sample.get
                 Sample.fmt false (VObj Sample.round_trip_fields)
                 Sample.halves)
          = inl (ValidationError m "destination" v)).
Proof.
  split; [repeat split; exists "2025-12-24"; split; reflexivity|].
  split; [reflexivity|]. split; [vm_compute; reflexivity|].
  intros (m & v & H). vm_compute in H. discriminate H.
Qed.

(** ** The synthetic offers *)

Lemma insert_by_amount_perm (f : FlightOffer) (l : list FlightOffer) :
  Permutation (f :: l) (FlightMCPServer.insert_by_amount f l).
Proof.
  induction l as [|g l IH]; cbn; [reflexivity|].
  destruct (Qle_bool (price_amount f) (price_amount g)); [reflexivity|].
  rewrite perm_swap. now apply perm_skip.
Qed.

Lemma sort_by_amount_perm (l : list FlightOffer) :
  Permutation l (FlightMCPServer.sort_by_amount l).
Proof.
  induction l as [|f l IH]; cbn; [constructor|].
  rewrite <- insert_by_amount_perm. now apply perm_skip.
Qed.

Lemma insert_by_amount_sorted (f : FlightOffer) (l : list FlightOffer) :
  ascending l -> ascending (FlightMCPServer.insert_by_amount f l).
Proof.
  unfold ascending. induction l as [|g l IH]; cbn; intros Hs.
  - repeat constructor.
  - inversion Hs as [|? ? Hl Hg]; subst.
    destruct (Qle_bool (price_amount f) (price_amount g)) eqn:E.
    + apply Qle_bool_iff in E. constructor; [exact Hs|].
      constructor; [exact E|].
      eapply Forall_impl; [|exact Hg].
      intros h Hh. cbn in Hh. now apply Qle_trans with (price_amount g).
    + assert (Hgf : (price_amount g <= price_amount f)%Q).
      { apply Qlt_le_weak, Qnot_le_lt. intros H.
        apply Qle_bool_iff in H. congruence. }
      constructor; [now apply IH|].
      eapply Permutation_Forall; [apply insert_by_amount_perm|].
      now constructor.
Qed.

Lemma sort_by_amount_sorted (l : list FlightOffer) :
  ascending (FlightMCPServer.sort_by_amount l).
Proof.
  induction l as [|f l IH]; cbn; [constructor|].
  now apply insert_by_amount_sorted.
Qed.

Lemma advance_advance (m n : nat) (w : World) :
  advance m (advance n w) = advance (m + n) w.
Proof. unfold advance. cbn. now rewrite Nat.add_assoc. Qed.

Lemma draws_in_range_advance (n : nat) (w : World) :
  draws_in_range w -> draws_in_range (advance n w).
Proof. intros H k. apply H. Qed.

Lemma mockLoop_ok (o d dd : string) (a : Q) (c : string) (n : nat) :
  forall (acc : list FlightOffer) (w : World),
    draws_in_range w ->
    exists new,
      FlightMCPServer.mockLoop n acc o d dd a c w
        = (inr (acc ++ new)%list, advance (10 * n) w)
      /\ length new = n
      /\ Forall (mock_offer a c) new
      /\ forall i, (i < n)%nat ->
           exists f, nth_error new i = Some f
                     /\ stops f
                        = stops_of_draw (draws w (10 * i + 9 + cursor w)).
Proof.
  induction n as [|n IH]; intros acc w Hr.
  - exists []. rewrite app_nil_r.
    split; [destruct w; reflexivity|].
    repeat split; [constructor | intros i Hi; lia].
  - destruct (mockFlight_ok o d dd a c w Hr)
      as (code & name & k & bp & f & Ef & Hin & Hk & Hbp & Hn & Hf & Hp & Hpp & Hs & Hc).
    destruct (IH (acc ++ [f])%list (advance 10 w) (draws_in_range_advance _ _ Hr))
      as (new & El & Hlen & Hall & Hst).
    exists (f :: new).
    split.
    { cbn [FlightMCPServer.mockLoop]. unfold bind. rewrite Ef, El.
      rewrite <- app_assoc, advance_advance. cbn [app].
      do 2 f_equal. lia. }
    split; [cbn; now rewrite Hlen|].
    split.
    { constructor; [|exact Hall].
      exists code, name, k, bp. tauto. }
    intros [|i] Hi.
    + exists f. split; [reflexivity|]. exact Hs.
    + destruct (Hst i) as (g & Eg & Hg); [lia|].
      exists g. split; [exact Eg|]. rewrite Hg. cbn [advance draws cursor].
      do 2 f_equal. lia.
Qed.

Lemma generateMockFlights_ok (o d dd : string) (ret_ : option string)
    (a : Q) (c : string) (w : World) :
  draws_in_range w ->
  exists pre flights,
    FlightMCPServer.mockLoop 5 [] o d dd a c w = (inr pre, advance 50 w)
    /\ FlightMCPServer.generateMockFlights o d dd ret_ a c w
       = (inr flights, advance 50 w)
    /\ Permutation pre flights
    /\ ascending flights
    /\ length flights = 5%nat
    /\ Forall (mock_offer a c) flights
    /\ forall i, (i < 5)%nat ->
         exists f, nth_error pre i = Some f
                   /\ stops f = stops_of_draw (draws w (10 * i + 9 + cursor w)).
Proof.
  intros Hr.
  destruct (mockLoop_ok o d dd a c 5 [] w Hr) as (pre & E & Hlen & Hall & Hst).
  cbn [app] in E. change (10 * 5)%nat with 50%nat in E.
  exists pre, (FlightMCPServer.sort_by_amount pre).
  split; [exact E|].
  split; [unfold FlightMCPServer.generateMockFlights, bind; now rewrite E|].
  split; [apply sort_by_amount_perm|].
  split; [apply sort_by_amount_sorted|].
  split; [now rewrite <- (Permutation_length (sort_by_amount_perm pre))|].
  split; [|exact Hst].
  eapply Permutation_Forall; [apply sort_by_amount_perm | exact Hall].
Qed.

Lemma suffixes_spec (n : Z) : 1000 <= n <= 9999 -> In n suffixes.
Proof.
  intros H. unfold suffixes. apply in_map_iff.
  exists (Z.to_nat (n - 1000)). split; [lia|]. apply in_seq. lia.
Qed.

Lemma suffixes_checked :
  forallb (fun n => four_digits (Str.ofZ n)) suffixes = true.
Proof. vm_compute. reflexivity. Qed.

Lemma carrier_test (a b d1 d2 d3 d4 : ascii) :
  Str.isUpper a = true -> Str.isUpper b || Str.isDigit b = true ->
  Str.isDigit d1 = true -> Str.isDigit d2 = true ->
  Str.isDigit d3 = true -> Str.isDigit d4 = true ->
  Regex.test Patterns.carrier_flight_number
    (String a (String b (String d1 (String d2 (String d3 (String d4 ""))))))
  = true.
Proof.
  intros Ha Hb H1 H2 H3 H4.
  unfold Regex.test, Patterns.carrier_flight_number. cbn.
  rewrite Ha. cbn. rewrite Hb. cbn. rewrite H1. cbn. rewrite H2. cbn.
  rewrite H3. cbn. rewrite H4. reflexivity.
Qed.

Lemma carrier_flight_number_ok (code name : string) (n : Z) :
  In (code, name) FlightMCPServer.airlines -> 1000 <= n <= 9999 ->
  Regex.test Patterns.carrier_flight_number (code ++ Str.ofZ n) = true.
Proof.
  intros Hin Hn.
  pose proof suffixes_checked as H.
  rewrite forallb_forall in H. specialize (H n (suffixes_spec n Hn)).
  unfold four_digits in H. apply andb_true_iff in H. destruct H as [Hlen Hd].
  apply Nat.eqb_eq in Hlen.
  destruct (Str.ofZ n) as [|d1 [|d2 [|d3 [|d4 [|d5 s]]]]]; try discriminate Hlen.
  cbn [Str.all] in Hd.
  repeat (apply andb_true_iff in Hd; destruct Hd as [? Hd]).
  unfold FlightMCPServer.airlines in Hin.
  repeat (destruct Hin as [Hin | Hin];
          [inversion Hin; cbn [append]; now apply carrier_test|]).
  destruct Hin.
Qed.

Lemma validatePassengerCount_range (v : value) (a : Q) :
  validatePassengerCount v = inr a -> (1 <= a)%Q /\ (a <= 9)%Q.
Proof.
  unfold validatePassengerCount. destruct v; try discriminate.
  - intros H. inversion H. split; discriminate.
  - destruct (negb (Js.isInteger (VNum q))); [discriminate|].
    unfold Js.lt, Js.gt. cbn [orb].
    destruct (Qle_bool 1 q) eqn:E1; [|discriminate].
    destruct (Qle_bool q 9) eqn:E9; [|discriminate].
    cbn. intros H. inversion H. subst a.
    split; now apply Qle_bool_iff.
Qed.

(** A search in Fallback mode, once the arguments are validated. *)
Lemma fallback_search (rt : Runtime) (RawOffer : Type)
    (get : SearchRequest -> thrown + option (list RawOffer))
    (fmt : list RawOffer -> thrown + list FlightOffer)
    (args : value) (p : SearchParams) (w : World) :
  FlightMCPServer.searchFlights_validate rt args w = (inr p, w) ->
  draws_in_range w ->
  exists flights,
    FlightMCPServer.generateMockFlights (origin p) (destination p)
      (departure_date p) (return_date p) (adults p) (travel_class p) w
      = (inr flights, advance 50 w)
    /\ FlightMCPServer.searchFlights rt RawOffer get fmt false args w
       = (inr (text_block
                 (FlightMCPServer.formatFlightSearchResults rt false flights
                    (origin p) (destination p) (departure_date p)
                    (return_date p))),
          advance 50 w)
    /\ length flights = 5%nat
    /\ ascending flights
    /\ Forall (mock_offer (adults p) (travel_class p)) flights.
Proof.
  intros Hv Hr.
  destruct (generateMockFlights_ok (origin p) (destination p)
              (departure_date p) (return_date p) (adults p) (travel_class p)
              w Hr)
    as (pre & flights & _ & E & _ & Hs & Hlen & Hall & _).
  exists flights. split; [exact E|].
  split; [|now repeat split].
  unfold FlightMCPServer.searchFlights, FlightMCPServer.searchFlights_try,
    bind, try_catch.
  rewrite Hv, E, Hlen. reflexivity.
Qed.

Lemma mock_offer_price (a : Q) (c : string) (f : FlightOffer) :
  (1 <= a)%Q -> mock_offer a c f -> (0 < price_amount f)%Q.
Proof.
  intros Ha (code & name & n & bp & _ & _ & Hbp & _ & _ & Hp & _).
  rewrite Hp. apply Qlt_le_trans with 1%Q; [reflexivity|].
  apply round_ge_one.
  setoid_replace 1%Q with (1 * 1)%Q by ring.
  apply Qmult_le_compat_nonneg; (split; [discriminate|]); [|exact Ha].
  change 1%Q with (inject_Z 1). rewrite <- Zle_Qle. lia.
Qed.

(** C1 (amended).  In Fallback mode, for every call to search_flights whose
    arguments pass validation, whose origin differs from its destination
    and whose return date, if any, is after the departure date, the draws
    of [Math.random()] lying in the unit interval: the result is the text
    of the offers [generateMockFlights] returns, which are exactly 5,
    sorted in ascending order of total price amount; every offer has a
    strictly positive price amount and a flight number that is a carrier
    code of the table (AA, DL, UA, WN or B6) followed by a number from 1000
    to 9999, and so matches [^[A-Z][A-Z0-9]\d{4}$]. *)
Theorem search_flights_fallback_offers (rt : Runtime) (RawOffer : Type)
    (get : SearchRequest -> thrown + option (list RawOffer))
    (fmt : list RawOffer -> thrown + list FlightOffer)
    (fs : list (string * value)) (p : SearchParams) (w : World) :
  fields_valid rt fs p ->
  return_not_after rt p = false ->
  origin p <> destination p ->
  draws_in_range w ->
  exists flights w',
    FlightMCPServer.generateMockFlights (origin p) (destination p)
      (departure_date p) (return_date p) (adults p) (travel_class p) w
      = (inr flights, w')
    /\ FlightMCPServer.searchFlights rt RawOffer get fmt false (VObj fs) w
       = (inr (text_block
                 (FlightMCPServer.formatFlightSearchResults rt false flights
                    (origin p) (destination p) (departure_date p)
                    (return_date p))), w')
    /\ length flights = 5%nat
    /\ ascending flights
    /\ Forall (fun f =>
         (0 < price_amount f)%Q
         /\ Regex.test Patterns.carrier_flight_number (flight_number f) = true
         /\ exists code name n,
              In (code, name) FlightMCPServer.airlines
              /\ 1000 <= n <= 9999
              /\ flight_number f = code ++ Str.ofZ n) flights.
Proof.
  intros Hv Hna Hne Hr.
  pose proof (validate_accepts rt fs p Hv w Hna Hne) as Hok.
  destruct (fallback_search rt RawOffer get fmt (VObj fs) p w Hok Hr)
    as (flights & Eg & Es & Hlen & Hs & Hall).
  exists flights, (advance 50 w).
  repeat (split; [assumption|]).
  destruct Hv as ((_ & _ & _ & Ha & _) & _).
  apply validatePassengerCount_range in Ha.
  eapply Forall_impl; [|exact Hall].
  intros f Hf. split; [exact (mock_offer_price _ _ _ (proj1 Ha) Hf)|].
  destruct Hf as (code & name & n & bp & Hin & Hn & _ & _ & Hfn & _).
  split.
  - rewrite Hfn. now apply carrier_flight_number_ok with (name := name).
  - now exists code, name, n.
Qed.

Lemma search_flights_fallback_offers_witness :
  exists flights w',
    FlightMCPServer.searchFlights Sample.rt unit Sample.get Sample.fmt false
      (VObj Sample.search_fields) Sample.halves
    = (inr (text_block
              (FlightMCPServer.formatFlightSearchResults Sample.rt false
                 flights "LAX" "JFK" "2025-12-25" None)), w')
    /\ length flights = 5%nat
    /\ ascending flights.
Proof.
  destruct (search_flights_fallback_offers Sample.rt unit Sample.get
              Sample.fmt Sample.search_fields Sample.search_params
              Sample.halves)
    as (flights & w' & _ & Es & Hlen & Hs & _).
  - repeat split.
  - reflexivity.
  - discriminate.
  - intros n. repeat split; vm_compute; congruence.
  - exists flights, w'. repeat split; assumption.
Defined.

Lemma search_flights_b6_counterexample :
  draws_in_range Sample.nine_tenths
  /\ FlightMCPServer.generateMockFlights "LAX" "JFK" "2025-12-25" None 1
       "economy" Sample.nine_tenths
     = (inr (repeat Sample.b6_offer 5), advance 50 Sample.nine_tenths)
  /\ FlightMCPServer.searchFlights Sample.rt unit Sample.get Sample.fmt false
       (VObj Sample.search_fields) Sample.nine_tenths
     = (inr (text_block
               (FlightMCPServer.formatFlightSearchResults Sample.rt false
                  (repeat Sample.b6_offer 5) "LAX" "JFK" "2025-12-25" None)),
        advance 50 Sample.nine_tenths)
  /\ Regex.test Patterns.mock_flight_number
       (flight_number Sample.b6_offer) = false.
Proof.
  split; [intros n; repeat split; vm_compute; congruence|].
  repeat split; vm_compute; reflexivity.
Qed.

(** ** The stop count *)

Lemma stops_of_draw_one (r : Q) : stops_of_draw r = 1 <-> (r <= 6 # 10)%Q.
Proof.
  unfold stops_of_draw, Js.gt. rewrite <- Qle_bool_iff.
  destruct (Qle_bool r (6 # 10)); cbn; split; intros H;
    try reflexivity; discriminate.
Qed.

Lemma stops_of_draw_direct (r : Q) : stops_of_draw r = 0 <-> (6 # 10 < r)%Q.
Proof.
  unfold stops_of_draw, Js.gt. split.
  - destruct (Qle_bool r (6 # 10)) eqn:E; cbn; [discriminate|].
    intros _. apply Qnot_le_lt. intros H. apply Qle_bool_iff in H. congruence.
  - intros H. destruct (Qle_bool r (6 # 10)) eqn:E; cbn; [|reflexivity].
    apply Qle_bool_iff in E. exfalso. exact (Qlt_not_le _ _ H E).
Qed.

Lemma stops_of_draw_cases (r : Q) : stops_of_draw r = 0 \/ stops_of_draw r = 1.
Proof. unfold stops_of_draw. destruct (Js.gt r (6 # 10)); auto. Qed.

Lemma count_upto (m n : nat) :
  length (filter (fun k => (k <=? m)%nat) (seq 0 n)) = Nat.min n (S m).
Proof.
  induction n as [|n IH]; [reflexivity|].
  rewrite seq_S, filter_app, length_app, IH. cbn [Nat.add filter].
  destruct (Nat.leb_spec n m); cbn [length]; lia.
Qed.

Lemma grid_one_stop (n k : nat) :
  (0 < n)%nat ->
  (stops_of_draw (Z.of_nat k # Pos.of_nat n) =? 1) = (k <=? 6 * n / 10)%nat.
Proof.
  intros Hn. unfold stops_of_draw, Js.gt, Qle_bool. cbn [Qnum Qden].
  assert (E : Z.pos (Pos.of_nat n) = Z.of_nat n).
  { rewrite <- positive_nat_Z, Nat2Pos.id; lia. }
  rewrite E.
  pose proof (Nat.div_mod_eq (6 * n) 10) as Hdiv.
  pose proof (Nat.mod_upper_bound (6 * n) 10) as Hmod.
  destruct (Z.leb_spec (Z.of_nat k * 10) (6 * Z.of_nat n));
    destruct (Nat.leb_spec k (6 * n / 10)); cbn; try reflexivity; exfalso; lia.
Qed.

Lemma one_stop_count_grid (n : nat) :
  (0 < n)%nat -> one_stop_count n = S (6 * n / 10).
Proof.
  intros Hn. unfold one_stop_count, grid.
  assert (E : forall l,
    (forall k, In k l -> True) ->
    length (filter (fun r => stops_of_draw r =? 1)
              (List.map (fun k => Z.of_nat k # Pos.of_nat n) l))
    = length (filter (fun k => (k <=? 6 * n / 10)%nat) l)).
  { induction l as [|k l IH]; intros _; [reflexivity|].
    cbn [List.map filter]. rewrite (grid_one_stop n k Hn).
    destruct (k <=? 6 * n / 10)%nat; cbn [length]; rewrite IH; auto. }
  rewrite E by auto. rewrite count_upto.
  pose proof (Nat.div_mod_eq (6 * n) 10) as Hdiv.
  pose proof (Nat.mod_upper_bound (6 * n) 10) as Hmod.
  lia.
Qed.

Lemma counts_add_up (n : nat) : (one_stop_count n + direct_count n = n)%nat.
Proof.
  unfold one_stop_count, direct_count.
  assert (E : forall l : list Q,
    Nat.add (length (filter (fun r => stops_of_draw r =? 1) l))
            (length (filter (fun r => stops_of_draw r =? 0) l)) = length l).
  { induction l as [|r l IH]; [reflexivity|]. cbn [filter].
    destruct (stops_of_draw_cases r) as [-> | ->]; cbn; lia. }
  rewrite E. unfold grid. now rewrite length_map, length_seq.
Qed.

(** C9 (amended).  For every synthetic flight offer of the Fallback search
    generator the stop count is 0 (direct) or 1.  With the draw as an
    input, the offer built at turn [i] of the loop is direct exactly when
    its last draw exceeds 0.6 and has one stop otherwise, so the selection
    is biased toward one stop: of [n] equally spaced draws 0/n, ...,
    (n-1)/n, exactly floor(6n/10) + 1 give one stop (a share of about 0.6)
    and the others (about 0.4) a direct flight. *)
Theorem mock_stops_biased_to_one_stop :
  (forall (o d dd : string) (ret_ : option string) (a : Q) (c : string)
          (w : World),
     draws_in_range w ->
     exists pre flights w',
       FlightMCPServer.mockLoop 5 [] o d dd a c w = (inr pre, w')
       /\ FlightMCPServer.generateMockFlights o d dd ret_ a c w
          = (inr flights, w')
       /\ Permutation pre flights
       /\ (forall i, (i < 5)%nat ->
             exists f, nth_error pre i = Some f
                       /\ stops f
                          = stops_of_draw (draws w (10 * i + 9 + cursor w)))
       /\ Forall (fun f => stops f = 0 \/ stops f = 1) flights)
  /\ (forall r : Q,
        (stops_of_draw r = 1 <-> (r <= 6 # 10)%Q)
        /\ (stops_of_draw r = 0 <-> (6 # 10 < r)%Q))
  /\ (forall n : nat,
        (0 < n)%nat ->
        one_stop_count n = S (6 * n / 10)
        /\ Nat.add (one_stop_count n) (direct_count n) = n).
Proof.
  split; [|split].
  - intros o d dd ret_ a c w Hr.
    destruct (generateMockFlights_ok o d dd ret_ a c w Hr)
      as (pre & flights & El & Eg & Hp & _ & Hlen & _ & Hst).
    exists pre, flights, (advance 50 w).
    repeat (split; [assumption|]).
    eapply Permutation_Forall; [exact Hp|].
    apply Forall_forall. intros f Hin.
    apply In_nth_error in Hin. destruct Hin as (i & Hi).
    assert (Hlt : (i < 5)%nat).
    { rewrite <- Hlen, <- (Permutation_length Hp).
      apply nth_error_Some. congruence. }
    destruct (Hst i Hlt) as (g & Eg' & Hs).
    assert (g = f) by congruence. subst g. rewrite Hs.
    apply stops_of_draw_cases.
  - intros r. split; [apply stops_of_draw_one | apply stops_of_draw_direct].
  - intros n Hn. split; [now apply one_stop_count_grid | apply counts_add_up].
Qed.

Lemma mock_stops_biased_to_one_stop_witness :
  one_stop_count 100 = 61%nat /\ direct_count 100 = 39%nat
  /\ exists pre flights w',
       FlightMCPServer.mockLoop 5 [] "LAX" "JFK" "2025-12-25" 1 "economy"
         Sample.halves = (inr pre, w')
       /\ FlightMCPServer.generateMockFlights "LAX" "JFK" "2025-12-25" None
            1 "economy" Sample.halves = (inr flights, w')
       /\ Forall (fun f => stops f = 0 \/ stops f = 1) flights.
Proof.
  pose proof mock_stops_biased_to_one_stop as (Hgen & _ & Hcount).
  destruct (Hcount 100%nat) as (H1 & H2); [lia|].
  split; [exact H1|].
  split; [vm_compute; reflexivity|].
  destruct (Hgen "LAX" "JFK" "2025-12-25" None 1%Q "economy" Sample.halves)
    as (pre & flights & w' & El & Eg & _ & _ & Hall).
  - intros n. repeat split; vm_compute; congruence.
  - exists pre, flights, w'. repeat split; assumption.
Defined.

Lemma stops_bias_counterexample :
  stops_of_draw (1 # 2) = 1
  /\ one_stop_count 100 = 61%nat /\ direct_count 100 = 39%nat
  /\ ~ (one_stop_count 100 <= direct_count 100)%nat.
Proof.
  assert (H1 : one_stop_count 100 = 61%nat) by (vm_compute; reflexivity).
  assert (H2 : direct_count 100 = 39%nat) by (vm_compute; reflexivity).
  repeat split; try assumption. rewrite H1, H2. lia.
Qed.

(** C10.  Travel-class validation rejects only truthy values outside
    {economy, premium_economy, business, first}: every falsy argument
    ([undefined], [null], the empty string, ...) is defaulted to "economy".
    A search_flights call whose other arguments are valid and whose
    travel_class is falsy, the empty string for one, validates to the class
    economy, and in Fallback mode succeeds with 5 offers of class
    economy. *)
Theorem travel_class_defaults_to_economy :
  (forall v : value,
     Js.truthy v = false -> validateTravelClass v = inr "economy")
  /\ (forall (v : value) (e : exn),
        validateTravelClass v = inl e ->
        Js.truthy v = true /\ includes validClasses v = false)
  /\ (forall (rt : Runtime) (RawOffer : Type)
             (get : SearchRequest -> thrown + option (list RawOffer))
             (fmt : list RawOffer -> thrown + list FlightOffer)
             (fs : list (string * value)) (p : SearchParams) (w : World),
        fields_valid_but_class rt fs p ->
        Js.truthy (Js.field "travel_class" fs) = false ->
        return_not_after rt p = false ->
        origin p <> destination p ->
        FlightMCPServer.searchFlights_validate rt (VObj fs) w
          = (inr (with_class p "economy"), w)
        /\ (draws_in_range w ->
            exists flights w',
              FlightMCPServer.searchFlights rt RawOffer get fmt false
                (VObj fs) w
              = (inr (text_block
                        (FlightMCPServer.formatFlightSearchResults rt false
                           flights (origin p) (destination p)
                           (departure_date p) (return_date p))), w')
              /\ length flights = 5%nat
              /\ Forall (fun f => offer_travel_class f = "economy") flights)).
Proof.
  split; [exact validateTravelClass_falsy|].
  split.
  { intros v e H. destruct (validateTravelClass_rejects v e H) as (? & ? & _).
    now split. }
  intros rt RawOffer get fmt fs p w Hv Hf Hna Hne.
  assert (Hv' : fields_valid rt fs (with_class p "economy")).
  { split; [exact Hv|]. cbn. now apply validateTravelClass_falsy. }
  pose proof (validate_accepts rt fs _ Hv' w Hna Hne) as Hok.
  split; [exact Hok|].
  intros Hr.
  destruct (fallback_search rt RawOffer get fmt (VObj fs) _ w Hok Hr)
    as (flights & _ & Es & Hlen & _ & Hall).
  exists flights, (advance 50 w).
  split; [exact Es|]. split; [exact Hlen|].
  eapply Forall_impl; [|exact Hall].
  intros f (code & name & n & bp & _ & _ & _ & _ & _ & _ & _ & Hc).
  exact Hc.
Qed.

Lemma travel_class_defaults_to_economy_witness :
  validateTravelClass (VStr "") = inr "economy"
  /\ validateTravelClass VUndefined = inr "economy"
  /\ validateTravelClass VNull = inr "economy"
  /\ exists flights w',
       FlightMCPServer.searchFlights Sample.rt unit Sample.get Sample.fmt
         false (VObj Sample.empty_class_fields) Sample.halves
       = (inr (text_block
                 (FlightMCPServer.formatFlightSearchResults Sample.rt false
                    flights "LAX" "JFK" "2025-12-25" None)), w')
       /\ length flights = 5%nat
       /\ Forall (fun f => offer_travel_class f = "economy") flights.
Proof.
  pose proof travel_class_defaults_to_economy as (Hfalsy & _ & Hsearch).
  split; [apply Hfalsy; reflexivity|].
  split; [apply Hfalsy; reflexivity|].
  split; [apply Hfalsy; reflexivity|].
  apply (Hsearch Sample.rt unit Sample.get Sample.fmt
           Sample.empty_class_fields Sample.search_params Sample.halves).
  - repeat split.
  - reflexivity.
  - reflexivity.
  - discriminate.
  - intros n. repeat split; vm_compute; congruence.
Defined.

(** ** Flight status *)

Lemma generateRandomTime_eq (w : World) :
  FlightMCPServer.generateRandomTime w = (inr (time_at w), advance 2 w).
Proof. reflexivity. Qed.

Lemma below_spec (n : nat) (z : Z) : 0 <= z < Z.of_nat n -> In z (below n).
Proof.
  intros H. unfold below. apply in_map_iff. exists (Z.to_nat z).
  split; [lia|]. apply in_seq. lia.
Qed.

Lemma clock_times_checked :
  forallb (fun h =>
             forallb (fun m =>
                        clock_time (two_digits h ++ ":" ++ two_digits m))
               (below 60))
    (below 24) = true.
Proof. vm_compute. reflexivity. Qed.

Lemma clock_time_ok (h m : Z) :
  0 <= h <= 23 -> 0 <= m <= 59 ->
  clock_time (two_digits h ++ ":" ++ two_digits m) = true.
Proof.
  intros Hh Hm. pose proof clock_times_checked as H.
  rewrite forallb_forall in H.
  specialize (H h (below_spec 24 h ltac:(lia))).
  rewrite forallb_forall in H.
  exact (H m (below_spec 60 m ltac:(lia))).
Qed.

Lemma clock_time_at (w : World) :
  draws_in_range w -> clock_time (time_at w) = true.
Proof.
  intros Hr. unfold time_at. apply clock_time_ok.
  - pose proof (floor_scaled0 _ 24 (Hr (cursor w)) ltac:(cbn; tauto)) as H.
    change (inject_Z 24) with 24%Q in H. lia.
  - pose proof (floor_scaled0 _ 60 (Hr (S (cursor w))) ltac:(cbn; tauto))
      as H.
    change (inject_Z 60) with 60%Q in H. lia.
Qed.

(** The products are rounded before [Math.floor] is taken: of draws just
    below 17/24 and 7/10 the products with 24 and 60 round to 17 and 42, and
    the time is 17:42, where the exact products would give 16:41. *)
Lemma generateRandomTime_rounds :
  draws_in_range Sample.just_below
  /\ (draws Sample.just_below 0 * 24 < 17)%Q
  /\ (draws Sample.just_below 1 * 60 < 42)%Q
  /\ FlightMCPServer.generateRandomTime Sample.just_below
     = (inr "17:42", advance 2 Sample.just_below).
Proof.
  split.
  - intros n. unfold Sample.just_below. cbn [draws].
    destruct (Nat.even n); repeat split; vm_compute; congruence.
  - repeat split; vm_compute; reflexivity.
Qed.

Lemma status_drawn (w : World) :
  draws_in_range w ->
  exists status,
    status_at w = Some status /\ In status FlightMCPServer.statuses.
Proof.
  intros Hr. unfold status_at.
  destruct (at_index_Some FlightMCPServer.statuses
              (Math_floor (Js.mul (draws w (cursor w)) 6)))
    as [s Hs].
  - change (Z.of_nat (length FlightMCPServer.statuses)) with 6.
    pose proof (floor_scaled0 _ 6 (Hr (cursor w)) ltac:(cbn; tauto)) as H.
    change (inject_Z 6) with 6%Q in H. lia.
  - exists s. split; [exact Hs | exact (at_index_In _ _ _ Hs)].
Qed.

Lemma gate_drawn (w : World) :
  draws_in_range w ->
  exists gate,
    gate_at w = Some gate /\ In gate FlightMCPServer.gates.
Proof.
  intros Hr. unfold gate_at.
  destruct (at_index_Some FlightMCPServer.gates
              (Math_floor (Js.mul (draws w (S (cursor w))) 5)))
    as [s Hs].
  - change (Z.of_nat (length FlightMCPServer.gates)) with 5.
    pose proof (floor_scaled0 _ 5 (Hr (S (cursor w))) ltac:(cbn; tauto))
      as H.
    change (inject_Z 5) with 5%Q in H. lia.
  - exists s. split; [exact Hs | exact (at_index_In _ _ _ Hs)].
Qed.

(** The pieces of a flight status, by status. *)
Lemma flight_status_lines (rt : Runtime) (fs : list (string * value))
    (fn d : string) (w : World) :
  validateFlightNumber (Js.field "flight_number" fs) = inr fn ->
  validateDate rt (Js.field "date" fs) "date" = inr d ->
  draws_in_range w ->
  exists status gate,
    status_at w = Some status /\ gate_at w = Some gate
    /\ In status FlightMCPServer.statuses
    /\ In gate FlightMCPServer.gates
    /\ let scheduled := time_at (advance 2 w) in
       let later := time_at (advance 4 w) in
       let lines :=
         FlightMCPServer.statusLines fn d (Some status) (Some gate)
           scheduled later later in
       FlightMCPServer.getFlightStatus rt (VObj fs) w
         = (inr (text_block (String.concat "" lines)),
            advance (draws_for status) w)
       /\ (status = "Cancelled" -> has_field "Gate: " lines = false)
       /\ (status <> "Cancelled" ->
           In ("Gate: " ++ gate ++ bn) lines
           /\ In ("Scheduled Departure: " ++ scheduled ++ bn) lines)
       /\ (status = "Delayed" ->
           In ("Estimated Departure: " ++ later ++ bn) lines
           /\ In ("Delay Reason: Weather conditions" ++ bn) lines)
       /\ (status = "Arrived" \/ status = "Departed" ->
           In ("Actual Time: " ++ later ++ bn) lines).
Proof.
  intros Hfn Hd Hr.
  destruct (status_drawn w Hr) as (status & Es & Hs).
  destruct (gate_drawn w Hr) as (gate & Eg & Hg).
  exists status, gate.
  split; [exact Es|]. split; [exact Eg|].
  split; [exact Hs|]. split; [exact Hg|].
  unfold status_at in Es. unfold gate_at in Eg.
  unfold FlightMCPServer.getFlightStatus, FlightMCPServer.prop.
  unfold bind at 1 2 3 4. unfold ret at 1 2. unfold lift at 1 2.
  rewrite Hfn, Hd.
  unfold bind at 1 2. unfold Math_random at 1 2.
  cbn [draws cursor requests].
  change (inject_Z (Z.of_nat (length FlightMCPServer.statuses))) with 6%Q.
  change (inject_Z (Z.of_nat (length FlightMCPServer.gates))) with 5%Q.
  rewrite Es, Eg.
  unfold FlightMCPServer.statuses in Hs.
  repeat (destruct Hs as [Hs | Hs]; [subst status|]); [..|destruct Hs];
    unfold bind;
    cbn [FlightMCPServer.same negb andb orb String.eqb Ascii.eqb Bool.eqb];
    rewrite ?generateRandomTime_eq; unfold ret;
    cbv zeta;
    (split; [reflexivity|]);
    unfold FlightMCPServer.statusLines;
    cbn [FlightMCPServer.same negb andb orb String.eqb Ascii.eqb Bool.eqb app];
    (split; [intros; try discriminate; reflexivity|]);
    (split; [intros Hne; try (exfalso; apply Hne; reflexivity);
             cbn [In]; tauto|]);
    (split; [intros He; try discriminate He; cbn [In]; tauto|]);
    (intros [He | He]; try discriminate He; cbn [In]; tauto).
Qed.

(** ** The dispatcher boundary *)

Lemma append_assoc (a b c : string) : (a ++ b) ++ c = a ++ b ++ c.
Proof. induction a as [|x a IH]; cbn; [reflexivity | now rewrite IH]. Qed.

Lemma append_empty_r (a : string) : a ++ "" = a.
Proof. induction a as [|x a IH]; cbn; [reflexivity | now rewrite IH]. Qed.

(** The payload of a formatted error, by class. *)
Lemma formatError_cases (rt : Runtime) (e : exn) :
  match e with
  | ValidationError m f v =>
      match Js.toString rt v with
      | Some shown =>
          formatError rt e
          = inr (text_block
                   ("Validation Error: " ++ m ++ bn ++ bn
                    ++ "Field: " ++ f ++ bn ++ "Value: " ++ shown))
      | None => formatError rt e = inl cannot_convert
      end
  | FlightAPIError m c d =>
      formatError rt e
      = inr (text_block
               ("Flight API Error: " ++ m ++ bn ++ bn ++ "Error Code: " ++ c
                ++ match d with
                   | [] => ""
                   | _ => bn ++ bn ++ "Details:" ++ bn
                          ++ Js.stringify rt (VObj d)
                   end))
  | Thrown t =>
      match Js.toString rt (th_message t) with
      | Some shown =>
          formatError rt e
          = inr (text_block
                   ("An unexpected error occurred: " ++ shown ++ bn ++ bn
                    ++ "Please try again later or contact support if the issue persists."))
      | None => formatError rt e = inl cannot_convert
      end
  end.
Proof.
  destruct e as [m f v | m c d | t]; cbn [formatError]; unfold template.
  - now destruct (Js.toString rt v).
  - destruct d as [|x d].
    + change (0 <? length (@nil (string * value)))%nat with false.
      cbv iota. now rewrite append_empty_r.
    + change (0 <? length (x :: d))%nat with true. cbv iota.
      now rewrite !append_assoc.
  - now destruct (Js.toString rt (th_message t)).
Qed.

Lemma handler_eq (rt : Runtime) (RawOffer : Type)
    (get : SearchRequest -> thrown + option (list RawOffer))
    (loc : string -> thrown + option (list RawAirport))
    (fmt : list RawOffer -> thrown + list FlightOffer) (mode : bool)
    (request : Request) (w : World) :
  FlightMCPServer.handler rt RawOffer get loc fmt mode request w
  = match FlightMCPServer.callTool rt RawOffer get loc fmt mode request w with
    | (inr p, w') => (inr p, w')
    | (inl e, w') => (formatError rt e, w')
    end.
Proof. reflexivity. Qed.

(** C7.  For every call of a tool the handler catches what the operation
    throws and hands it to [formatError], leaving the world as the
    operation left it.  When the operation returned, the handler returns
    its result.  When it threw a domain error, the handler returns the
    formatted payload: the message, the machine-readable kind and, when
    there are any, the details.  When it threw a validation error, or an
    error of no class, the payload renders the message, the field and the
    value, or a generic text around the error's message -- provided the
    value, or the message, has a conversion to a string.  When it has none,
    [formatError] itself throws inside the [catch], and the [TypeError]
    leaves the handler: so it does for the call [Sample.odd_request], whose
    airport code is the object [{"toString": 1}]. *)
Theorem handler_formats_every_error :
  (forall (rt : Runtime) (RawOffer : Type)
          (get : SearchRequest -> thrown + option (list RawOffer))
          (loc : string -> thrown + option (list RawAirport))
          (fmt : list RawOffer -> thrown + list FlightOffer) (mode : bool)
          (request : Request) (w : World),
     let run :=
       FlightMCPServer.callTool rt RawOffer get loc fmt mode request w in
     let out :=
       FlightMCPServer.handler rt RawOffer get loc fmt mode request w in
     snd out = snd run
     /\ match fst run with
        | inr p => fst out = inr p
        | inl (ValidationError m f v) =>
            match Js.toString rt v with
            | Some shown =>
                fst out
                = inr (text_block
                         ("Validation Error: " ++ m ++ bn ++ bn
                          ++ "Field: " ++ f ++ bn ++ "Value: " ++ shown))
            | None => fst out = inl cannot_convert
            end
        | inl (FlightAPIError m c d) =>
            fst out
            = inr (text_block
                     ("Flight API Error: " ++ m ++ bn ++ bn
                      ++ "Error Code: " ++ c
                      ++ match d with
                         | [] => ""
                         | _ => bn ++ bn ++ "Details:" ++ bn
                                ++ Js.stringify rt (VObj d)
                         end))
        | inl (Thrown t) =>
            match Js.toString rt (th_message t) with
            | Some shown =>
                fst out
                = inr (text_block
                         ("An unexpected error occurred: " ++ shown
                          ++ bn ++ bn
                          ++ "Please try again later or contact support if the issue persists."))
            | None => fst out = inl cannot_convert
            end
        end)
  /\ (forall (rt : Runtime) (RawOffer : Type)
             (get : SearchRequest -> thrown + option (list RawOffer))
             (loc : string -> thrown + option (list RawAirport))
             (fmt : list RawOffer -> thrown + list FlightOffer) (mode : bool)
             (w : World),
        FlightMCPServer.callTool rt RawOffer get loc fmt mode
          Sample.odd_request w
        = (inl (ValidationError "Airport code is required" "airport_code"
                  Sample.odd), w)
        /\ FlightMCPServer.handler rt RawOffer get loc fmt mode
             Sample.odd_request w
           = (inl cannot_convert, w)).
Proof.
  split.
  - intros rt RawOffer get loc fmt mode request w. cbv zeta.
    rewrite handler_eq.
    destruct (FlightMCPServer.callTool rt RawOffer get loc fmt mode request w)
      as [[e | p] w']; [|split; reflexivity].
    split; [reflexivity|]. cbn [fst].
    pose proof (formatError_cases rt e) as H.
    destruct e as [m f v | m c d | t].
    + destruct (Js.toString rt v); exact H.
    + exact H.
    + destruct (Js.toString rt (th_message t)); exact H.
  - intros rt RawOffer get loc fmt mode w. split; reflexivity.
Qed.

(** The three kinds of error do reach the boundary: a rejected argument, an
    unknown airline, a call without arguments. *)
Lemma handler_error_examples :
  fst (FlightMCPServer.handler Sample.rt unit Sample.get Sample.loc
         Sample.fmt false
         {| name := "search_flights";
            arguments := VObj [("origin", VStr "INVALID")] |}
         Sample.halves)
  = inr (text_block
           ("Validation Error: Airport code must be 3 characters long"
            ++ bn ++ bn ++ "Field: airport_code" ++ bn ++ "Value: INVALID"))
  /\ fst (FlightMCPServer.handler Sample.rt unit Sample.get Sample.loc
            Sample.fmt false
            {| name := "convert_currency"; arguments := VObj [] |}
            Sample.halves)
     = inr (text_block
              ("Flight API Error: Unknown tool: convert_currency" ++ bn ++ bn
               ++ "Error Code: GENERAL_ERROR"))
  /\ fst (FlightMCPServer.handler Sample.rt unit Sample.get Sample.loc
            Sample.fmt false
            {| name := "get_airline_info"; arguments := VUndefined |}
            Sample.halves)
     = inr (text_block
              ("An unexpected error occurred: Cannot read properties of undefined (reading 'airline_code')"
               ++ bn ++ bn
               ++ "Please try again later or contact support if the issue persists.")).
Proof. repeat split; vm_compute; reflexivity. Qed.

(** ** Texts without a line feed *)

Lemma no_newline_app (a b : string) :
  Str.no_newline (a ++ b) = Str.no_newline a && Str.no_newline b.
Proof.
  induction a as [|x a IH]; cbn [append Str.no_newline]; [reflexivity|].
  now rewrite IH, andb_assoc.
Qed.

Lemma clean_app (a b : string) : clean a -> clean b -> clean (a ++ b).
Proof. unfold clean. intros Ha Hb. now rewrite no_newline_app, Ha, Hb. Qed.

Lemma clean_all (P : ascii -> bool) (s : string) :
  (forall c, P c = true -> Ascii.eqb c Str.LF = false) ->
  Str.all P s = true -> clean s.
Proof.
  intros HP. unfold clean.
  induction s as [|c s IH]; cbn [Str.no_newline Str.all]; [reflexivity|].
  intros H. apply andb_true_iff in H. destruct H as [Hc Hs].
  now rewrite (HP c Hc), IH.
Qed.

Lemma all_impl (P Q : ascii -> bool) (s : string) :
  (forall c, P c = true -> Q c = true) ->
  Str.all P s = true -> Str.all Q s = true.
Proof.
  intros H. induction s as [|c s IH]; cbn; [reflexivity|].
  intros Hs. apply andb_true_iff in Hs. destruct Hs as [Hc Hs].
  now rewrite (H c Hc), IH.
Qed.

Lemma all_map (P Q : ascii -> bool) (f : ascii -> ascii) (s : string) :
  (forall c, P c = true -> Q (f c) = true) ->
  Str.all P s = true -> Str.all Q (Str.map f s) = true.
Proof.
  intros H. induction s as [|c s IH]; cbn; [reflexivity|].
  intros Hs. apply andb_true_iff in Hs. destruct Hs as [Hc Hs].
  now rewrite (H c Hc), IH.
Qed.

Lemma clean_uint (d : Decimal.uint) : clean (NilEmpty.string_of_uint d).
Proof. induction d; cbn; try reflexivity; exact IHd. Qed.

Lemma clean_ofZ (z : Z) : clean (Str.ofZ z).
Proof.
  unfold Str.ofZ, NilZero.string_of_int.
  destruct (Z.to_int z) as [d | d]; unfold NilZero.string_of_uint.
  - destruct d; try reflexivity; apply clean_uint.
  - change (clean ("-" ++ match d with
                            | Decimal.Nil => "0"
                            | _ => NilEmpty.string_of_uint d
                            end)).
    apply clean_app; [reflexivity|].
    destruct d; try reflexivity; apply clean_uint.
Qed.

Lemma clean_replicate (n : nat) (c : ascii) :
  Ascii.eqb c Str.LF = false -> clean (Str.replicate n c).
Proof.
  intros H. unfold clean.
  induction n as [|n IH]; cbn [Str.replicate Str.no_newline]; [reflexivity|].
  now rewrite H, IH.
Qed.

Lemma clean_padStart (n : nat) (s : string) :
  clean s -> clean (Str.padStart n "0" s).
Proof.
  intros H. unfold Str.padStart. apply clean_app; [|exact H].
  now apply clean_replicate.
Qed.

Lemma clean_time_at (w : World) : clean (time_at w).
Proof.
  unfold time_at.
  apply clean_app; [apply clean_padStart, clean_ofZ|].
  apply clean_app; [reflexivity|]. apply clean_padStart, clean_ofZ.
Qed.

Section CleanNumbers.
Variable rt : Runtime.
Hypothesis Hnum : forall q, clean (number_text rt q).

Lemma clean_number (q : Q) : clean (Js.number_toString rt q).
Proof.
  unfold Js.number_toString.
  destruct ((Z.pos (Qden (Qred q)) =? 1)
            && (Z.abs (Qnum (Qred q)) <? 10 ^ 21));
    [apply clean_ofZ | apply Hnum].
Qed.
End CleanNumbers.

(** ** What a pattern lets through *)

Lemma allowed_cons (it : Regex.item) (rest : Regex.regex) (c : ascii) :
  allowed (it :: rest) c = Regex.cls_test (Regex.cl it) c || allowed rest c.
Proof. reflexivity. Qed.

Lemma step_allowed (r r' : Regex.regex) (c : ascii) :
  In r' (Regex.step r c) ->
  allowed r c = true
  /\ forall c', allowed r' c' = true -> allowed r c' = true.
Proof.
  revert r'. induction r as [|it rest IH]; intros r' Hin; [destruct Hin|].
  cbn [Regex.step] in Hin. apply in_app_or in Hin. destruct Hin as [Hin | Hin].
  - destruct ((0 <? Regex.hi it)%nat && Regex.cls_test (Regex.cl it) c) eqn:E;
      [|destruct Hin].
    destruct Hin as [<- | []].
    apply andb_true_iff in E. destruct E as [_ E].
    split; [now rewrite allowed_cons, E|]. intros c' H. exact H.
  - destruct (Regex.lo it =? 0)%nat; [|destruct Hin].
    destruct (IH r' Hin) as [H1 H2]. split.
    + rewrite allowed_cons, H1. apply orb_true_r.
    + intros c' H. rewrite allowed_cons, (H2 c' H). apply orb_true_r.
Qed.

Lemma run_nil (s : string) : Regex.run [] s = false.
Proof. induction s as [|c s IH]; [reflexivity | exact IH]. Qed.

Lemma run_allowed (A : ascii -> bool) (s : string) :
  forall states,
    (forall r, In r states -> forall c, allowed r c = true -> A c = true) ->
    Regex.run states s = true -> Str.all A s = true.
Proof.
  induction s as [|c s IH]; intros states Hst Hrun; [reflexivity|].
  cbn [Regex.run] in Hrun. cbn [Str.all].
  assert (Hnew : forall r', In r' (flat_map (fun r => Regex.step r c) states) ->
            exists r, In r states /\ In r' (Regex.step r c)).
  { intros r' H. apply in_flat_map in H. exact H. }
  apply andb_true_iff. split.
  - destruct (flat_map (fun r => Regex.step r c) states) as [|r' rs] eqn:E.
    + now rewrite run_nil in Hrun.
    + destruct (Hnew r' (or_introl eq_refl)) as (r & Hr & Hin).
      apply (Hst r Hr). exact (proj1 (step_allowed r r' c Hin)).
  - apply (IH _ (fun r' Hr' c' Hc' =>
      match Hnew r' Hr' with
      | ex_intro _ r (conj Hr Hin) =>
          Hst r Hr c' (proj2 (step_allowed r r' c Hin) c' Hc')
      end) Hrun).
Qed.

Lemma test_allowed (r : Regex.regex) (s : string) :
  Regex.test r s = true -> Str.all (allowed r) s = true.
Proof.
  intros H. apply (run_allowed (allowed r) s [r]); [|exact H].
  intros r0 [<- | []] c Hc. exact Hc.
Qed.

(** ** What the validators return *)

Lemma upper_or_digit_not_LF (c : ascii) :
  upper_or_digit c = true -> Ascii.eqb c Str.LF = false.
Proof. each_ascii c; vm_compute; congruence. Qed.

Lemma digit_or_dash_not_LF (c : ascii) :
  digit_or_dash c = true -> Ascii.eqb c Str.LF = false.
Proof. each_ascii c; vm_compute; congruence. Qed.

Lemma upper_of_alnum (c : ascii) :
  Str.isAlpha c || Str.isDigit c = true -> upper_or_digit (Str.upper c) = true.
Proof. each_ascii c; vm_compute; congruence. Qed.

Lemma isUpper_upper_or_digit (c : ascii) :
  Str.isUpper c = true -> upper_or_digit c = true.
Proof. unfold upper_or_digit. now intros ->. Qed.

Lemma validateAirportCode_upper (v : value) (s : string) :
  validateAirportCode v = inr s -> Str.all Str.isUpper s = true.
Proof.
  unfold validateAirportCode. destruct v; try discriminate.
  destruct (negb (Js.truthy (VStr s0))); [discriminate|].
  destruct (negb (String.length s0 =? 3)%nat); [discriminate|].
  destruct (Regex.test Patterns.airport s0) eqn:E; [|discriminate].
  cbn [negb]. intros H. inversion H. subst s.
  apply test_allowed in E. unfold Str.toUpperCase.
  eapply all_map; [|exact E].
  intros c Hc. apply upper_of_alpha.
  unfold allowed, Patterns.airport in Hc. cbn in Hc.
  now rewrite orb_false_r in Hc.
Qed.

Lemma validateFlightNumber_chars (v : value) (s : string) :
  validateFlightNumber v = inr s -> Str.all upper_or_digit s = true.
Proof.
  unfold validateFlightNumber. destruct v; try discriminate.
  destruct (negb (Js.truthy (VStr s0))); [discriminate|].
  destruct (Regex.test Patterns.flight s0) eqn:E; [|discriminate].
  cbn [negb]. intros H. inversion H. subst s.
  apply test_allowed in E. unfold Str.toUpperCase.
  eapply all_map; [|exact E].
  intros c Hc. apply upper_of_alnum.
  unfold allowed, Patterns.flight in Hc. cbn in Hc.
  now rewrite orb_false_r in Hc.
Qed.

Lemma validateDate_chars (rt : Runtime) (v : value) (f s : string) :
  validateDate rt v f = inr s -> Str.all digit_or_dash s = true.
Proof.
  unfold validateDate. destruct v; try discriminate.
  destruct (negb (Js.truthy (VStr s0))); [discriminate|].
  destruct (Regex.test Patterns.date s0) eqn:E; [|discriminate].
  cbn [negb]. destruct (JsDate.parse rt s0); [|discriminate].
  destruct (_ <? _); [discriminate|].
  intros H. inversion H. subst s.
  apply test_allowed in E. eapply all_impl; [|exact E].
  intros c Hc. unfold allowed, Patterns.date in Hc. cbn in Hc.
  unfold digit_or_dash.
  destruct (Str.isDigit c); [reflexivity|]. cbn in Hc |- *.
  destruct (Ascii.eqb c "-"); [reflexivity | discriminate].
Qed.

Lemma airline_code_upper (s : string) :
  Regex.test Patterns.airline s = true ->
  Str.all Str.isUpper (Str.toUpperCase s) = true.
Proof.
  intros E. apply test_allowed in E. unfold Str.toUpperCase.
  eapply all_map; [|exact E].
  intros c Hc. apply upper_of_alpha.
  unfold allowed, Patterns.airline in Hc. cbn in Hc.
  now rewrite orb_false_r in Hc.
Qed.

Lemma clean_upper (s : string) : Str.all Str.isUpper s = true -> clean s.
Proof.
  intros H. apply (clean_all upper_or_digit); [apply upper_or_digit_not_LF|].
  eapply all_impl; [|exact H]. apply isUpper_upper_or_digit.
Qed.

Lemma clean_upper_or_digit (s : string) :
  Str.all upper_or_digit s = true -> clean s.
Proof. apply clean_all, upper_or_digit_not_LF. Qed.

Lemma clean_digit_or_dash (s : string) :
  Str.all digit_or_dash s = true -> clean s.
Proof. apply clean_all, digit_or_dash_not_LF. Qed.

Lemma validateTravelClass_clean (v : value) (s : string) :
  validateTravelClass v = inr s -> clean s.
Proof.
  unfold validateTravelClass.
  destruct (Js.truthy v) eqn:Et.
  - destruct (includes validClasses v) eqn:Ei; cbn [andb negb];
      [|discriminate].
    destruct v; try discriminate Ei.
    intros H. inversion H. subst s0.
    unfold includes, validClasses in Ei. cbn [existsb Js.is_string] in Ei.
    repeat (apply orb_true_iff in Ei; destruct Ei as [Ei | Ei];
            [apply String.eqb_eq in Ei; subst s; reflexivity|]).
    discriminate Ei.
  - cbn [andb]. destruct v; intros H; inversion H; reflexivity.
Qed.

(** A run that threw cannot have returned. *)
Ltac stop :=
  solve [cbv beta iota; let H := fresh in intros H; inversion H].

Lemma prop_cases (args : value) :
  (forall k w, exists e, FlightMCPServer.prop args k w = (inl e, w))
  \/ (exists g, forall k w, FlightMCPServer.prop args k w = (inr (g k), w)).
Proof.
  destruct args;
    try (right; exists (fun _ => VUndefined); intros; reflexivity);
    try (left; intros; eexists; reflexivity).
  right. exists (fun k => Js.field k fields). intros; reflexivity.
Qed.

(** The validated values are what the validators returned. *)
Lemma validate_inv (rt : Runtime) (args : value) (w w1 : World)
    (v : SearchParams) :
  FlightMCPServer.searchFlights_validate rt args w = (inr v, w1) ->
  w1 = w
  /\ (exists a, validateAirportCode a = inr (origin v))
  /\ (exists a, validateAirportCode a = inr (destination v))
  /\ (exists a, validateDate rt a "departure_date" = inr (departure_date v))
  /\ (exists a, validatePassengerCount a = inr (adults v))
  /\ (exists a, validateTravelClass a = inr (travel_class v))
  /\ (forall r, return_date v = Some r ->
        exists a, validateDate rt a "return_date" = inr r).
Proof.
  unfold FlightMCPServer.searchFlights_validate.
  destruct (prop_cases args) as [Ht | (g & Hg)].
  - unfold bind. destruct (Ht "origin" w) as (e & E). rewrite E. stop.
  - unfold bind, lift, ret, throw. rewrite !Hg.
    destruct (validateAirportCode (g "origin")) as [e | o] eqn:Eo;
      [stop|].
    destruct (validateAirportCode (g "destination")) as [e | d] eqn:Ed;
      [stop|].
    destruct (validateDate rt (g "departure_date") "departure_date")
      as [e | dep] eqn:Edep; [stop|].
    destruct (validatePassengerCount (g "adults")) as [e | a] eqn:Ea;
      [stop|].
    destruct (validateTravelClass (g "travel_class")) as [e | c] eqn:Ec;
      [stop|].
    destruct (Js.truthy (g "return_date")).
    + destruct (validateDate rt (g "return_date") "return_date")
        as [e | r] eqn:Er; [stop|].
      destruct (JsDate.le_dates rt r dep); [stop|].
      cbv beta iota. rewrite Hg.
      destruct (String.eqb o d); [stop|].
      intros H. inversion H. subst. cbn.
      repeat (split; [try reflexivity; eexists; eassumption|]).
      intros r' Hr'. inversion Hr'. subst. eexists; eassumption.
    + cbv beta iota. rewrite Hg.
      destruct (String.eqb o d); [stop|].
      intros H. inversion H. subst. cbn.
      repeat (split; [try reflexivity; eexists; eassumption|]).
      discriminate.
Qed.

(** ** Offers whose texts hold no line feed *)

Ltac clean_step :=
  match goal with
  | |- clean (_ ++ _) => apply clean_app
  | |- clean (Str.ofZ _) => apply clean_ofZ
  | |- clean (Str.padStart _ _ _) => apply clean_padStart
  | |- clean (time_at _) => apply clean_time_at
  | |- clean _ => first [assumption | reflexivity]
  end.

Ltac solve_clean := repeat clean_step.

Lemma run_returned {A} (a b : A) (w w' : World) :
  (inr a : result A, w) = (inr b, w') -> a = b /\ w = w'.
Proof. intros H. inversion H. now split. Qed.

Lemma mockFlight_clean (o d dd : string) (a : Q) (c : string)
    (w w' : World) (f : FlightOffer) :
  FlightMCPServer.mockFlight o d dd a c w = (inr f, w') ->
  clean c -> clean_offer f.
Proof.
  unfold FlightMCPServer.mockFlight, FlightMCPServer.generateRandomTime,
    bind, Math_random, ret.
  cbn [draws cursor requests].
  destruct (at_index FlightMCPServer.airlines _) as [[code name]|] eqn:Ha;
    [|stop].
  apply at_index_In in Ha.
  unfold ret. intros H Hc. apply run_returned in H. destruct H as [<- _].
  unfold clean_offer.
  cbn [airline flight_number departure_time arrival_time duration
       price_currency offer_travel_class aircraft booking_class].
  unfold FlightMCPServer.airlines in Ha.
  assert (Hcn : clean code /\ clean name).
  { repeat (destruct Ha as [Ha | Ha];
            [inversion Ha; split; reflexivity|]). destruct Ha. }
  destruct Hcn as [Hcode Hname].
  unfold FlightMCPServer.showZ.
  repeat (split; [solve_clean|]).
  intros b Hb. inversion Hb. reflexivity.
Qed.

Lemma mockLoop_clean (o d dd : string) (a : Q) (c : string) (n : nat) :
  forall (acc fl : list FlightOffer) (w w' : World),
    FlightMCPServer.mockLoop n acc o d dd a c w = (inr fl, w') ->
    clean c -> Forall clean_offer acc -> Forall clean_offer fl.
Proof.
  induction n as [|n IH]; intros acc fl w w' H Hc Hacc.
  - inversion H. now subst.
  - cbn [FlightMCPServer.mockLoop] in H. unfold bind in H.
    destruct (FlightMCPServer.mockFlight o d dd a c w) as [[e | f] w1] eqn:Ef;
      [inversion H|].
    apply (IH _ _ _ _ H Hc).
    apply Forall_app. split; [exact Hacc|].
    constructor; [|constructor].
    exact (mockFlight_clean _ _ _ _ _ _ _ _ Ef Hc).
Qed.

Lemma generateMockFlights_clean (o d dd : string) (r : option string)
    (a : Q) (c : string) (w w' : World) (fl : list FlightOffer) :
  FlightMCPServer.generateMockFlights o d dd r a c w = (inr fl, w') ->
  clean c -> Forall clean_offer fl.
Proof.
  unfold FlightMCPServer.generateMockFlights, bind.
  destruct (FlightMCPServer.mockLoop 5 [] o d dd a c w) as [[e | pre] w1] eqn:E;
    [stop|].
  intros H Hc. inversion H. subst.
  eapply Permutation_Forall; [apply sort_by_amount_perm|].
  exact (mockLoop_clean _ _ _ _ _ _ _ _ _ _ E Hc (Forall_nil _)).
Qed.

Lemma contains_prefix (p s : string) :
  prefix p s = true -> Str.contains p s = true.
Proof. intros H. destruct s; cbn [Str.contains]; now rewrite H. Qed.

Lemma contains_app_r (p a b : string) :
  Str.contains p b = true -> Str.contains p (a ++ b) = true.
Proof.
  intros H. induction a as [|c a IH]; [exact H|].
  cbn [append Str.contains]. rewrite IH. apply orb_true_r.
Qed.

(** A text that reaches [bn] after a first piece. *)
Lemma contains_bn (a b : string) :
  Str.contains bn (a ++ bn ++ b) = true.
Proof.
  apply contains_app_r, contains_prefix.
  destruct b; vm_compute; reflexivity.
Qed.

Section CleanTexts.
Variable rt : Runtime.
Hypothesis Hnum : forall q, clean (number_text rt q).

Ltac solve_clean' :=
  repeat first
    [ match goal with
      | |- clean (Js.number_toString _ _) => apply (clean_number rt Hnum)
      end
    | clean_step ].

Lemma formatOffer_clean (i : nat) (f : FlightOffer) :
  clean_offer f -> clean (FlightMCPServer.formatOffer rt i f).
Proof.
  intros (H1 & H2 & H3 & H4 & H5 & H6 & H7 & H8 & H9).
  unfold FlightMCPServer.formatOffer, FlightMCPServer.show,
    FlightMCPServer.showZ.
  destruct (String.eqb (aircraft f) ""); destruct (stops f =? 0);
    destruct (booking_class f) as [b|] eqn:Eb;
    try (pose proof (H9 b eq_refl) as Hb; destruct (String.eqb b ""));
    destruct (segments f) as [n|];
    try destruct (negb (n =? 0) && (1 <? n));
    solve_clean'.
Qed.

Lemma formatOffers_clean (flights : list FlightOffer) :
  Forall clean_offer flights ->
  forall i, clean (FlightMCPServer.formatOffers rt i flights).
Proof.
  induction 1 as [|f l Hf Hl IH]; intros i; [reflexivity|].
  cbn [FlightMCPServer.formatOffers].
  apply clean_app; [now apply formatOffer_clean | apply IH].
Qed.

Lemma formatFlightSearchResults_clean (mode : bool)
    (flights : list FlightOffer) (o d dd : string) (r : option string) :
  Forall clean_offer flights -> clean o -> clean d -> clean dd ->
  (forall x, r = Some x -> clean x) ->
  clean (FlightMCPServer.formatFlightSearchResults rt mode flights o d dd r).
Proof.
  intros Hf Ho Hd Hdd Hr.
  pose proof (formatOffers_clean flights Hf 0) as Hfs.
  unfold FlightMCPServer.formatFlightSearchResults.
  destruct r as [x|]; [pose proof (Hr x eq_refl); destruct (String.eqb x "")|];
    destruct mode; cbn [negb]; solve_clean'.
Qed.

Lemma live_search_returned (RawOffer : Type)
    (get : SearchRequest -> thrown + option (list RawOffer))
    (fmt : list RawOffer -> thrown + list FlightOffer)
    (v : SearchParams) (w w' : World) (flights : list FlightOffer) :
  AmadeusFlightService.searchFlights rt RawOffer get fmt v w
    = (inr flights, w') ->
  exists offers, fmt offers = inr flights.
Proof.
  unfold AmadeusFlightService.searchFlights, AmadeusFlightService.await,
    try_catch, bind, send, throw, ret.
  destruct (get (AmadeusFlightService.requestParams v)) as [t | [[|o os]|]];
    try stop.
  destruct (fmt (o :: os)) as [t | fl] eqn:E; [stop|].
  intros H. inversion H. subst. now exists (o :: os).
Qed.

Lemma searchFlights_clean (RawOffer : Type)
    (get : SearchRequest -> thrown + option (list RawOffer))
    (fmt : list RawOffer -> thrown + list FlightOffer) (mode : bool)
    (args : value) (w w' : World) (p : payload) :
  FlightMCPServer.searchFlights rt RawOffer get fmt mode args w
    = (inr p, w') ->
  Str.contains bn (text p) = true
  /\ ((mode = true ->
       forall offers flights,
         fmt offers = inr flights -> Forall clean_offer flights) ->
      clean (text p)).
Proof.
  unfold FlightMCPServer.searchFlights. unfold bind at 1.
  destruct (FlightMCPServer.searchFlights_validate rt args w)
    as [[e | v] w1] eqn:Ev; [stop|].
  destruct (validate_inv rt args w w1 v Ev)
    as (_ & (a1 & Ho) & (a2 & Hd) & (a3 & Hdep) & _ & (a5 & Hc) & Hret).
  unfold FlightMCPServer.searchFlights_try, try_catch, bind.
  match goal with
  | |- context [match ?m w1 with _ => _ end] =>
      destruct (m w1) as [[e | flights] w2] eqn:Eg
  end.
  { unfold FlightMCPServer.rethrow, throw. destruct e; stop. }
  destruct (length flights =? 0)%nat;
    [unfold throw, FlightMCPServer.rethrow; cbn; stop|].
  unfold ret. intros H. apply run_returned in H. destruct H as [<- _].
  cbn [text]. split.
  - unfold FlightMCPServer.formatFlightSearchResults. apply contains_bn.
  - intros Hp. apply formatFlightSearchResults_clean.
    + destruct mode.
      * destruct (live_search_returned _ _ _ _ _ _ _ Eg) as (offers & E).
        exact (Hp eq_refl offers flights E).
      * apply (generateMockFlights_clean _ _ _ _ _ _ _ _ _ Eg).
        exact (validateTravelClass_clean _ _ Hc).
    + exact (clean_upper _ (validateAirportCode_upper _ _ Ho)).
    + exact (clean_upper _ (validateAirportCode_upper _ _ Hd)).
    + exact (clean_digit_or_dash _ (validateDate_chars _ _ _ _ Hdep)).
    + intros x Hx. destruct (Hret x Hx) as (a & Ha).
      exact (clean_digit_or_dash _ (validateDate_chars _ _ _ _ Ha)).
Qed.

Lemma table_get_In {A} (k : string) (t : list (string * A)) (x : A) :
  FlightMCPServer.table_get k t = Some x -> In x (List.map snd t).
Proof.
  induction t as [|[k' y] t IH]; cbn; [discriminate|].
  destruct (String.eqb k' k); [intros H; inversion H; now left|].
  intros H. right. now apply IH.
Qed.

Lemma clean_value_string (s : string) : clean s -> clean_value rt (VStr s).
Proof. intros H t E. inversion E. now subst. Qed.

Lemma clean_value_number (q : Q) : clean_value rt (VNum q).
Proof. intros t E. inversion E. apply (clean_number rt Hnum). Qed.

Lemma clean_value_or_else (x d : value) :
  clean_value rt x -> clean_value rt d ->
  clean_value rt (AmadeusFlightService.or_else x d).
Proof.
  intros Hx Hd. unfold AmadeusFlightService.or_else.
  now destruct (Js.truthy x).
Qed.

Lemma mockAirports_clean (k : string) (a : Airport) :
  FlightMCPServer.table_get k FlightMCPServer.mockAirports = Some a ->
  clean_fields rt a.
Proof.
  intros Et. apply table_get_In in Et.
  unfold FlightMCPServer.mockAirports in Et. cbn [List.map snd] in Et.
  repeat (destruct Et as [Et | Et];
          [subst a; unfold clean_fields, FlightMCPServer.mockAirport;
           cbn [ap_code ap_name ap_city ap_country ap_timezone ap_lat ap_lon];
           repeat split;
           first [apply clean_value_number
                 | apply clean_value_string; reflexivity]|]).
  destruct Et.
Qed.

Lemma live_airport_returned
    (loc : string -> thrown + option (list RawAirport))
    (code : string) (w w' : World) (a : Airport) :
  AmadeusFlightService.getAirportInfo loc code w = (inr a, w') ->
  exists raw rest,
    loc code = inr (Some (raw :: rest))
    /\ a = {| ap_code := iataCode raw;
              ap_name := raw_name raw;
              ap_city :=
                AmadeusFlightService.or_else (cityName raw) (VStr "Unknown");
              ap_country :=
                AmadeusFlightService.or_else (countryName raw)
                  (VStr "Unknown");
              ap_timezone :=
                AmadeusFlightService.or_else (timeZoneOffset raw)
                  (VStr "Unknown");
              ap_lat := AmadeusFlightService.or_else (latitude raw) (VNum 0);
              ap_lon := AmadeusFlightService.or_else (longitude raw) (VNum 0)
           |}.
Proof.
  unfold AmadeusFlightService.getAirportInfo, AmadeusFlightService.await,
    try_catch, bind, send, throw, ret.
  destruct (loc code) as [t | [[|raw rest]|]]; try stop.
  intros H. inversion H. now exists raw, rest.
Qed.

Lemma live_airport_clean
    (loc : string -> thrown + option (list RawAirport))
    (code : string) (w w' : World) (a : Airport) :
  (forall k raw rest,
     loc k = inr (Some (raw :: rest)) -> clean_airport rt raw) ->
  AmadeusFlightService.getAirportInfo loc code w = (inr a, w') ->
  clean_fields rt a.
Proof.
  intros Hp H.
  destruct (live_airport_returned loc code w w' a H) as (raw & rest & E & ->).
  destruct (Hp code raw rest E) as (H1 & H2 & H3 & H4 & H5 & H6 & H7).
  unfold clean_fields.
  cbn [ap_code ap_name ap_city ap_country ap_timezone ap_lat ap_lon].
  repeat split; try assumption;
    apply clean_value_or_else; try assumption;
    first [apply clean_value_number | apply clean_value_string; reflexivity].
Qed.

(** A template that returned gives the text of its value. *)
Lemma template_returned {B} (v : value) (k : string -> M B) (w w' : World)
    (b : B) :
  bind (lift (template rt v)) k w = (inr b, w') ->
  exists t, Js.toString rt v = Some t /\ k t w = (inr b, w').
Proof.
  unfold bind, lift, template.
  destruct (Js.toString rt v) as [t|]; [|stop].
  intros H. now exists t.
Qed.

Lemma getAirportInfo_clean
    (loc : string -> thrown + option (list RawAirport)) (mode : bool)
    (args : value) (w w' : World) (p : payload) :
  FlightMCPServer.getAirportInfo rt loc mode args w = (inr p, w') ->
  Str.contains bn (text p) = true
  /\ ((mode = true ->
       forall k raw rest,
         loc k = inr (Some (raw :: rest)) -> clean_airport rt raw) ->
      clean (text p)).
Proof.
  unfold FlightMCPServer.getAirportInfo, FlightMCPServer.getAirportInfo_try.
  destruct (prop_cases args) as [Ht | (g & Hg)].
  { unfold bind. destruct (Ht "airport_code" w) as (e & E). rewrite E. stop. }
  unfold bind at 1. rewrite Hg. unfold bind at 1, lift at 1.
  destruct (validateAirportCode (g "airport_code")) as [e | code] eqn:Ec;
    [stop|].
  unfold try_catch.
  match goal with
  | |- context [match ?m w with _ => _ end] =>
      destruct (m w) as [[e | q] w1] eqn:Em
  end.
  { unfold FlightMCPServer.rethrow, throw. destruct e; stop. }
  intros H. apply run_returned in H. destruct H as [<- _].
  unfold bind at 1 in Em.
  match type of Em with
  | context [match ?m w with _ => _ end] =>
      destruct (m w) as [[e | airport] w2] eqn:Ea
  end; [inversion Em|].
  apply template_returned in Em. destruct Em as (t1 & E1 & Em).
  apply template_returned in Em. destruct Em as (t2 & E2 & Em).
  apply template_returned in Em. destruct Em as (t3 & E3 & Em).
  apply template_returned in Em. destruct Em as (t4 & E4 & Em).
  apply template_returned in Em. destruct Em as (t5 & E5 & Em).
  apply template_returned in Em. destruct Em as (t6 & E6 & Em).
  apply template_returned in Em. destruct Em as (t7 & E7 & Em).
  unfold ret in Em. apply run_returned in Em. destruct Em as [<- _].
  cbn [text]. split; [apply contains_bn|].
  intros Hp.
  assert (Hc : clean_fields rt airport).
  { destruct mode.
    - exact (live_airport_clean loc code w w2 airport (Hp eq_refl) Ea).
    - destruct (FlightMCPServer.table_get code FlightMCPServer.mockAirports)
        as [a|] eqn:Et; [|inversion Ea].
      unfold ret in Ea. apply run_returned in Ea. destruct Ea as [<- _].
      exact (mockAirports_clean code a Et). }
  destruct Hc as (H1 & H2 & H3 & H4 & H5 & H6 & H7).
  pose proof (H1 _ E1). pose proof (H2 _ E2). pose proof (H3 _ E3).
  pose proof (H4 _ E4). pose proof (H5 _ E5). pose proof (H6 _ E6).
  pose proof (H7 _ E7).
  destruct mode; solve_clean'.
Qed.
End CleanTexts.

Lemma shown_clean (xs : list string) (i : Z) :
  Forall clean xs -> clean (FlightMCPServer.shown (at_index xs i)).
Proof.
  intros H. destruct (at_index xs i) as [s|] eqn:E; [|reflexivity].
  apply at_index_In in E. rewrite Forall_forall in H. exact (H s E).
Qed.

Lemma statuses_clean : Forall clean FlightMCPServer.statuses.
Proof. repeat constructor. Qed.

Lemma gates_clean : Forall clean FlightMCPServer.gates.
Proof. repeat constructor. Qed.

Lemma statusLines_clean (fn d : string) (status gate : option string)
    (s e a : string) :
  clean fn -> clean d -> clean (FlightMCPServer.shown status) ->
  clean (FlightMCPServer.shown gate) -> clean s -> clean e -> clean a ->
  clean (String.concat "" (FlightMCPServer.statusLines fn d status gate s e a)).
Proof.
  intros Hfn Hd Hs Hg H1 H2 H3. unfold FlightMCPServer.statusLines.
  destruct (FlightMCPServer.same status "Cancelled"),
    (FlightMCPServer.same status "Delayed"),
    (FlightMCPServer.same status "Arrived"),
    (FlightMCPServer.same status "Departed");
    cbn [negb orb app String.concat]; solve_clean.
Qed.

Lemma statusLines_bn (fn d : string) (status gate : option string)
    (s e a : string) :
  Str.contains bn
    (String.concat "" (FlightMCPServer.statusLines fn d status gate s e a))
  = true.
Proof.
  unfold FlightMCPServer.statusLines. cbn [app String.concat].
  rewrite append_assoc. apply contains_bn.
Qed.

Lemma randomTime_clean (b : bool) (w w' : World) (t : string) :
  (if b then FlightMCPServer.generateRandomTime else ret "") w = (inr t, w') ->
  clean t.
Proof.
  destruct b; [rewrite generateRandomTime_eq | unfold ret]; intros H;
    apply run_returned in H; destruct H as [<- _];
    [apply clean_time_at | reflexivity].
Qed.

Lemma randomTime_returns (b : bool) (w : World) :
  exists t w',
    (if b then FlightMCPServer.generateRandomTime else ret "") w = (inr t, w').
Proof.
  destruct b;
    [exists (time_at w), (advance 2 w); apply generateRandomTime_eq
    |exists "", w; reflexivity].
Qed.

Lemma getFlightStatus_clean (rt : Runtime) (args : value) (w w' : World)
    (p : payload) :
  FlightMCPServer.getFlightStatus rt args w = (inr p, w') ->
  clean (text p) /\ Str.contains bn (text p) = true.
Proof.
  unfold FlightMCPServer.getFlightStatus.
  destruct (prop_cases args) as [Ht | (g & Hg)].
  { unfold bind. destruct (Ht "flight_number" w) as (e & E). rewrite E. stop. }
  unfold bind at 1. rewrite Hg. unfold bind at 1, lift.
  destruct (validateFlightNumber (g "flight_number")) as [e | fn] eqn:Efn;
    [stop|].
  unfold bind at 1. rewrite Hg. unfold bind at 1.
  destruct (validateDate rt (g "date") "date") as [e | d] eqn:Ed; [stop|].
  unfold bind at 1, Math_random at 1. cbn [draws cursor requests].
  unfold bind at 1, Math_random at 1. cbn [draws cursor requests].
  set (status := at_index FlightMCPServer.statuses _).
  set (gate := at_index FlightMCPServer.gates _).
  set (w2 := {| draws := draws w; cursor := S (S (cursor w));
                requests := requests w |}).
  unfold bind at 1.
  destruct (randomTime_returns (negb (FlightMCPServer.same status "Cancelled")) w2)
    as (t1 & w3 & E1). rewrite E1.
  unfold bind at 1.
  destruct (randomTime_returns
              (negb (FlightMCPServer.same status "Cancelled")
               && FlightMCPServer.same status "Delayed") w3)
    as (t2 & w4 & E2). rewrite E2.
  unfold bind at 1.
  destruct (randomTime_returns
              (negb (FlightMCPServer.same status "Cancelled")
               && (FlightMCPServer.same status "Arrived"
                   || FlightMCPServer.same status "Departed")) w4)
    as (t3 & w5 & E3). rewrite E3.
  unfold ret. intros H. apply run_returned in H. destruct H as [<- _].
  cbn [text]. split; [|apply statusLines_bn].
  apply statusLines_clean.
  - exact (clean_upper_or_digit _ (validateFlightNumber_chars _ _ Efn)).
  - exact (clean_digit_or_dash _ (validateDate_chars _ _ _ _ Ed)).
  - apply shown_clean, statuses_clean.
  - apply shown_clean, gates_clean.
  - exact (randomTime_clean _ _ _ _ E1).
  - exact (randomTime_clean _ _ _ _ E2).
  - exact (randomTime_clean _ _ _ _ E3).
Qed.

Lemma getAirlineInfo_clean (args : value) (w w' : World) (p : payload) :
  FlightMCPServer.getAirlineInfo args w = (inr p, w') ->
  clean (text p) /\ Str.contains bn (text p) = true.
Proof.
  unfold FlightMCPServer.getAirlineInfo.
  destruct (prop_cases args) as [Ht | (g & Hg)].
  { unfold bind. destruct (Ht "airline_code" w) as (e & E). rewrite E. stop. }
  unfold bind. rewrite Hg.
  destruct (g "airline_code") as [| | | | |s| |]; try (unfold throw; stop).
  destruct (negb (Js.truthy (VStr s))); [unfold throw; stop|].
  destruct (Regex.test Patterns.airline s) eqn:Er; cbn [negb];
    [|unfold throw; stop].
  destruct (FlightMCPServer.table_get (Str.toUpperCase s)
              FlightMCPServer.mockAirlines) as [airline|] eqn:Et;
    [|unfold throw; stop].
  unfold ret. intros H. apply run_returned in H. destruct H as [<- _].
  cbn [text]. split; [|apply contains_bn].
  pose proof (clean_upper _ (airline_code_upper s Er)) as Hcode.
  assert (Hin : In airline (List.map snd FlightMCPServer.mockAirlines)).
  { revert Et. generalize (Str.toUpperCase s). intros k.
    unfold FlightMCPServer.mockAirlines.
    cbn [FlightMCPServer.table_get List.map snd].
    repeat (destruct (String.eqb _ k);
            [intros H; inversion H; cbn [In]; tauto|]).
    discriminate. }
  unfold FlightMCPServer.mockAirlines in Hin. cbn [List.map snd] in Hin.
  unfold FlightMCPServer.showZ.
  repeat (destruct Hin as [Hin | Hin];
          [subst airline;
           cbn [FlightMCPServer.al_name FlightMCPServer.al_country
                FlightMCPServer.al_founded FlightMCPServer.al_hub
                FlightMCPServer.al_fleet_size FlightMCPServer.al_destinations];
           solve_clean|]).
  destruct Hin.
Qed.

(** ** Error payloads *)

Lemma stringify_at_undefined (rt : Runtime) (ind : string) (v : value) :
  Js.stringify_at rt ind v = None -> v = VUndefined.
Proof.
  destruct v as [| |b|q| |s|items|fields]; cbn; try discriminate;
    try reflexivity.
  - destruct b; discriminate.
  - destruct items; discriminate.
  - match goal with |- context [match ?parts with [] => _ | _ => _ end] =>
      destruct parts end; discriminate.
Qed.

Lemma stringify_details (rt : Runtime) (d : list (string * value)) :
  (exists k v, In (k, v) d /\ v <> VUndefined) ->
  exists t, Js.stringify rt (VObj d) = "{" ++ Str.nl ++ t.
Proof.
  intros (k & v & Hin & Hv). unfold Js.stringify. cbn [Js.stringify_at].
  match goal with |- context [match ?parts with [] => _ | _ => _ end] =>
    set (ps := parts) end.
  assert (Hne : ps <> []).
  { subst ps. induction d as [|[k' v'] d IH]; [destruct Hin|].
    cbn -[Js.stringify_at].
    destruct Hin as [E | Hin].
    - inversion E. subst k' v'.
      match goal with
      | |- context [Js.stringify_at rt ?i v] =>
          destruct (Js.stringify_at rt i v) eqn:Es
      end.
      + discriminate.
      + apply stringify_at_undefined in Es. contradiction.
    - match goal with
      | |- context [Js.stringify_at rt ?i v'] =>
          destruct (Js.stringify_at rt i v') eqn:Es
      end.
      + discriminate.
      + apply IH. exact Hin. }
  destruct ps; [contradiction|]. eexists. reflexivity.
Qed.

Lemma no_newline_bn : Str.no_newline bn = true.
Proof. reflexivity. Qed.

Section ErrorTexts.
Variable rt : Runtime.

Lemma validation_text (m f : string) (v : value) (p : payload) :
  formatError rt (ValidationError m f v) = inr p ->
  exists shown,
    Js.toString rt v = Some shown
    /\ Str.no_newline (text p)
       = Str.no_newline m && Str.no_newline f && Str.no_newline shown.
Proof.
  pose proof (formatError_cases rt (ValidationError m f v)) as Hc.
  cbv beta iota in Hc.
  destruct (Js.toString rt v) as [shown|]; rewrite Hc; [|discriminate].
  intros H. exists shown. split; [reflexivity|].
  assert (Ep : text p = "Validation Error: " ++ m ++ bn ++ bn
                        ++ "Field: " ++ f ++ bn ++ "Value: " ++ shown)
    by (injection H as <-; reflexivity).
  rewrite Ep, !no_newline_app, no_newline_bn.
  change (Str.no_newline "Validation Error: ") with true.
  change (Str.no_newline "Field: ") with true.
  change (Str.no_newline "Value: ") with true.
  cbn [andb]. now rewrite andb_assoc.
Qed.

Lemma domain_text_bare (m c : string) :
  exists p,
    formatError rt (FlightAPIError m c []) = inr p
    /\ Str.no_newline (text p) = Str.no_newline m && Str.no_newline c.
Proof.
  eexists. split; [reflexivity|].
  cbn [text length Nat.ltb Nat.leb].
  rewrite !no_newline_app, no_newline_bn.
  change (Str.no_newline "Flight API Error: ") with true.
  change (Str.no_newline "Error Code: ") with true.
  reflexivity.
Qed.

Lemma domain_text_details (m c : string) (d : list (string * value)) :
  (exists k v, In (k, v) d /\ v <> VUndefined) ->
  exists p,
    formatError rt (FlightAPIError m c d) = inr p
    /\ Str.no_newline (text p) = false.
Proof.
  intros H. destruct (stringify_details rt d H) as (t & E).
  destruct d as [|x d]; [destruct H as (? & ? & [] & _)|].
  eexists. split; [reflexivity|].
  cbn [text]. change (0 <? length (x :: d))%nat with true.
  cbv iota. rewrite E, !no_newline_app.
  change (Str.no_newline Str.nl) with false.
  now rewrite !andb_false_r.
Qed.

Lemma generic_text (t : thrown) (p : payload) :
  formatError rt (Thrown t) = inr p ->
  exists shown,
    Js.toString rt (th_message t) = Some shown
    /\ Str.no_newline (text p) = Str.no_newline shown.
Proof.
  pose proof (formatError_cases rt (Thrown t)) as Hc.
  cbv beta iota in Hc.
  destruct (Js.toString rt (th_message t)) as [shown|]; rewrite Hc;
    [|discriminate].
  intros H. exists shown. split; [reflexivity|].
  assert (Ep : text p = "An unexpected error occurred: " ++ shown ++ bn ++ bn
                        ++ "Please try again later or contact support if the issue persists.")
    by (injection H as <-; reflexivity).
  rewrite Ep, !no_newline_app, no_newline_bn.
  change (Str.no_newline "An unexpected error occurred: ") with true.
  change (Str.no_newline
            "Please try again later or contact support if the issue persists.")
    with true.
  cbn [andb]. now rewrite andb_true_r.
Qed.

Lemma error_text_bn (e : exn) (p : payload) :
  formatError rt e = inr p -> Str.contains bn (text p) = true.
Proof.
  pose proof (formatError_cases rt e) as Hc.
  destruct e as [m f v | m c d | t].
  - destruct (Js.toString rt v); rewrite Hc; [|discriminate].
    intros H.
    replace (text p) with (("Validation Error: " ++ m) ++ bn ++ bn
                           ++ "Field: " ++ f ++ bn ++ "Value: " ++ s)
      by (injection H as <-; cbn [text]; now rewrite append_assoc).
    apply contains_bn.
  - rewrite Hc. intros H.
    replace (text p)
      with (("Flight API Error: " ++ m) ++ bn ++ bn ++ "Error Code: " ++ c
            ++ match d with
               | [] => ""
               | _ => bn ++ bn ++ "Details:" ++ bn ++ Js.stringify rt (VObj d)
               end)
      by (injection H as <-; cbn [text]; now rewrite append_assoc).
    apply contains_bn.
  - destruct (Js.toString rt (th_message t)); rewrite Hc; [|discriminate].
    intros H.
    replace (text p)
      with (("An unexpected error occurred: " ++ s) ++ bn ++ bn
            ++ "Please try again later or contact support if the issue persists.")
      by (injection H as <-; cbn [text]; now rewrite append_assoc).
    apply contains_bn.
Qed.
End ErrorTexts.

(** A success result holds the line break of the templates; it holds no
    line feed when what the provider supplied holds none. *)
Lemma callTool_clean (rt : Runtime) (RawOffer : Type)
    (get : SearchRequest -> thrown + option (list RawOffer))
    (loc : string -> thrown + option (list RawAirport))
    (fmt : list RawOffer -> thrown + list FlightOffer)
    (mode : bool) (request : Request) (w w' : World) (p : payload) :
  (forall q, Str.no_newline (number_text rt q) = true) ->
  FlightMCPServer.callTool rt RawOffer get loc fmt mode request w
    = (inr p, w') ->
  Str.contains bn (text p) = true
  /\ ((mode = true -> clean_provider rt fmt loc) ->
      Str.no_newline (text p) = true).
Proof.
  intros Hnum. destruct request as [n a]. unfold FlightMCPServer.callTool.
  cbn [name arguments] in *.
  destruct (String.eqb_spec n "search_flights") as [-> | _].
  { intros H.
    destruct (searchFlights_clean rt Hnum _ _ _ _ _ _ _ _ H) as [H1 H2].
    split; [exact H1|]. intros Hp. apply H2. intros Hm.
    exact (proj1 (Hp Hm)). }
  destruct (String.eqb_spec n "get_airport_info") as [-> | _].
  { intros H.
    destruct (getAirportInfo_clean rt Hnum _ _ _ _ _ _ H) as [H1 H2].
    split; [exact H1|]. intros Hp. apply H2. intros Hm.
    exact (proj2 (Hp Hm)). }
  destruct (String.eqb_spec n "get_flight_status") as [-> | _].
  { intros H. destruct (getFlightStatus_clean _ _ _ _ _ H). now split. }
  destruct (String.eqb_spec n "get_airline_info") as [-> | _].
  { intros H. destruct (getAirlineInfo_clean _ _ _ _ H). now split. }
  unfold throw. stop.
Qed.

(** C8 (amended).  Every text block the handler returns, success result or
    error payload, contains the two-character sequence backslash-n.  A
    success result contains no newline byte, in either mode and for every
    tool, provided the engine prints numbers without one and, in live
    mode, the texts the provider supplies (those of the normalised offers,
    the values of the location) hold none.  An error payload is free of
    newline bytes exactly as far as the values interpolated in it are
    (message, field and rejected value of a validation error; message and
    kind of a domain error without details; message of any other error);
    a domain error with details of which one property at least is not
    [undefined] is rendered with the details as indented JSON, which holds
    actual newline bytes. *)
Theorem text_blocks_line_breaks (rt : Runtime) (RawOffer : Type)
    (get : SearchRequest -> thrown + option (list RawOffer))
    (loc : string -> thrown + option (list RawAirport))
    (fmt : list RawOffer -> thrown + list FlightOffer) :
  (forall q, Str.no_newline (number_text rt q) = true) ->
  (forall (mode : bool) (request : Request) (w w' : World) (p : payload),
     FlightMCPServer.callTool rt RawOffer get loc fmt mode request w
       = (inr p, w') ->
     Str.contains bn (text p) = true
     /\ ((mode = true -> clean_provider rt fmt loc) ->
         Str.no_newline (text p) = true))
  /\ (forall (mode : bool) (request : Request) (w w' : World) (p : payload),
        FlightMCPServer.handler rt RawOffer get loc fmt mode request w
          = (inr p, w') ->
        Str.contains bn (text p) = true)
  /\ (forall m f v p,
        formatError rt (ValidationError m f v) = inr p ->
        exists shown,
          Js.toString rt v = Some shown
          /\ Str.no_newline (text p)
             = Str.no_newline m && Str.no_newline f && Str.no_newline shown)
  /\ (forall m c,
        exists p,
          formatError rt (FlightAPIError m c []) = inr p
          /\ Str.no_newline (text p) = Str.no_newline m && Str.no_newline c)
  /\ (forall t p,
        formatError rt (Thrown t) = inr p ->
        exists shown,
          Js.toString rt (th_message t) = Some shown
          /\ Str.no_newline (text p) = Str.no_newline shown)
  /\ (forall m c d,
        (exists k v, In (k, v) d /\ v <> VUndefined) ->
        exists p,
          formatError rt (FlightAPIError m c d) = inr p
          /\ Str.no_newline (text p) = false).
Proof.
  intros Hnum.
  split; [|split; [|split; [apply validation_text|];
                    split; [apply domain_text_bare|];
                    split; [apply generic_text | apply domain_text_details]]].
  - intros mode request w w' p. now apply callTool_clean.
  - intros mode request w w' p. rewrite handler_eq.
    destruct (FlightMCPServer.callTool rt RawOffer get loc fmt mode request w)
      as [[e | q] w1] eqn:E.
    + intros H. inversion H. now apply (error_text_bn rt e).
    + intros H. inversion H. subst.
      exact (proj1 (callTool_clean rt RawOffer get loc fmt mode request
                      w w' p Hnum E)).
Qed.

Lemma text_blocks_line_breaks_witness :
  (forall q, Str.no_newline (number_text Sample.rt q) = true)
  /\ (forall p w',
        FlightMCPServer.callTool Sample.rt unit Sample.get_one Sample.loc_jfk
          Sample.fmt_b6 true
          {| name := "get_airport_info";
             arguments := VObj [("airport_code", VStr "jfk")] |}
          Sample.halves = (inr p, w') ->
        Str.contains bn (text p) = true /\ Str.no_newline (text p) = true)
  /\ (exists p,
        formatError Sample.rt
          (FlightAPIError "Airport information not found for code: XYZ"
             "INVALID_AIRPORT_CODE" [("airport_code", VStr "XYZ")]) = inr p
        /\ Str.no_newline (text p) = false).
Proof.
  pose proof (text_blocks_line_breaks Sample.rt unit Sample.get_one
                Sample.loc_jfk Sample.fmt_b6 (fun q => eq_refl))
    as (Hok & _ & _ & _ & _ & Hdetails).
  split; [intros q; reflexivity|]. split.
  - intros p w' E.
    destruct (Hok true _ Sample.halves w' p E) as [H1 H2].
    split; [exact H1|]. apply H2. intros _. split.
    + intros offers flights H. inversion H.
      apply Forall_forall. intros f Hin. apply in_map_iff in Hin.
      destruct Hin as (x & <- & _).
      repeat split; try reflexivity.
      intros b Hb. inversion Hb. reflexivity.
    + intros k a rest H. inversion H.
      repeat split; intros t Ht; inversion Ht; reflexivity.
  - apply Hdetails. exists "airport_code", (VStr "XYZ").
    split; [left; reflexivity | discriminate].
Defined.

Lemma unknown_airport_payload_counterexample :
  FlightMCPServer.callTool Sample.rt unit Sample.get Sample.loc Sample.fmt
    false Sample.unknown_airport Sample.halves
  = (inl (FlightAPIError "Airport information not found for code: XYZ"
            "INVALID_AIRPORT_CODE" [("airport_code", VStr "XYZ")]),
     Sample.halves)
  /\ (exists p,
        FlightMCPServer.handler Sample.rt unit Sample.get Sample.loc
          Sample.fmt false Sample.unknown_airport Sample.halves
        = (inr p, Sample.halves)
        /\ Str.contains Str.nl (text p) = true
        /\ Str.no_newline (text p) = false)
  /\ (exists p,
        FlightMCPServer.handler Sample.rt unit Sample.get Sample.loc
          Sample.fmt false Sample.two_line_request Sample.halves
        = (inr p, Sample.halves)
        /\ Str.no_newline (text p) = false)
  /\ (exists p w',
        FlightMCPServer.handler Sample.rt unit Sample.get
          Sample.loc_two_lines Sample.fmt true
          {| name := "get_airport_info";
             arguments := VObj [("airport_code", VStr "jfk")] |}
          Sample.halves
        = (inr p, w')
        /\ Str.no_newline (text p) = false).
Proof.
  split; [vm_compute; reflexivity|].
  split; [|split].
  - eexists. split; [vm_compute; reflexivity|].
    split; vm_compute; reflexivity.
  - eexists. split; [vm_compute; reflexivity|]. vm_compute; reflexivity.
  - do 2 eexists. split; [vm_compute; reflexivity|]. vm_compute; reflexivity.
Qed.

(** ** Occurrences of a label in a text *)

Lemma prefix_app (p s : string) : prefix p (p ++ s) = true.
Proof.
  induction p as [|c p IH]; cbn; [now destruct s|].
  destruct (ascii_dec c c); [exact IH | contradiction].
Qed.

Lemma contains_concat (x : string) (lines : list string) :
  In x lines -> Str.contains x (String.concat "" lines) = true.
Proof.
  induction lines as [|a l IH]; intros Hin; [destruct Hin|].
  cbn [String.concat]. destruct l as [|b l].
  - destruct Hin as [<- | []]. apply contains_prefix.
    rewrite <- (append_empty_r a) at 2. apply prefix_app.
  - destruct Hin as [<- | Hin].
    + apply contains_prefix, prefix_app.
    + apply contains_app_r. cbn [append]. exact (IH Hin).
Qed.

(** No occurrence of a pattern starts in a stretch that lacks its first
    character. *)
Lemma contains_skip_head (p0 : ascii) (pr x y : string) :
  Str.all (fun c => negb (Ascii.eqb c p0)) x = true ->
  Str.contains (String p0 pr) (x ++ y) = Str.contains (String p0 pr) y.
Proof.
  induction x as [|c x IH]; intros H; [reflexivity|].
  cbn [Str.all] in H. apply andb_true_iff in H. destruct H as [Hc Hx].
  cbn [append Str.contains prefix].
  destruct (ascii_dec p0 c) as [-> | _].
  - now rewrite Ascii.eqb_refl in Hc.
  - cbn [orb]. exact (IH Hx).
Qed.

(** Nor in a stretch that lacks its second character, when what follows
    does not begin with it either. *)
Lemma contains_skip_second (p0 p1 : ascii) (pr x y : string) :
  Str.all (fun c => negb (Ascii.eqb c p1)) x = true ->
  match y with
  | String c _ => Ascii.eqb c p1 = false
  | EmptyString => True
  end ->
  Str.contains (String p0 (String p1 pr)) (x ++ y)
  = Str.contains (String p0 (String p1 pr)) y.
Proof.
  induction x as [|c x IH]; intros H Hy; [reflexivity|].
  cbn [Str.all] in H. apply andb_true_iff in H. destruct H as [Hc Hx].
  cbn [append Str.contains].
  assert (E : prefix (String p0 (String p1 pr)) (String c (x ++ y)) = false).
  { cbn [prefix]. destruct (ascii_dec p0 c); [|reflexivity].
    destruct x as [|c' x]; cbn [append].
    - destruct y as [|c' y]; [reflexivity|]. cbn [prefix].
      destruct (ascii_dec p1 c') as [-> | _]; [|reflexivity].
      now rewrite Ascii.eqb_refl in Hy.
    - cbn [prefix].
      destruct (ascii_dec p1 c') as [-> | _]; [|reflexivity].
      cbn [Str.all] in Hx. now rewrite Ascii.eqb_refl in Hx. }
  rewrite E. cbn [orb]. exact (IH Hx Hy).
Qed.

Lemma upper_or_digit_not_a (c : ascii) :
  upper_or_digit c = true -> negb (Ascii.eqb c "a") = true.
Proof. each_ascii c; vm_compute; congruence. Qed.

Lemma digit_or_dash_not_G (c : ascii) :
  digit_or_dash c = true -> negb (Ascii.eqb c "G") = true.
Proof. each_ascii c; vm_compute; congruence. Qed.

(** The text of a cancelled flight holds no gate label. *)
Lemma cancelled_text_no_gate (fn d : string) (gate : option string)
    (s e a : string) :
  Str.all upper_or_digit fn = true -> Str.all digit_or_dash d = true ->
  Str.contains "Gate: "
    (String.concat ""
       (FlightMCPServer.statusLines fn d (Some "Cancelled") gate s e a))
  = false.
Proof.
  intros Hfn Hd.
  set (L1 := "Flight Status" ++ bn ++ bn
             ++ "Flight: ").
  set (L2 := bn ++ "Date: ").
  set (L3 := bn ++ "Status: Cancelled" ++ bn
             ++ "Flight has been cancelled. Please contact your airline for rebooking options."
             ++ bn).
  assert (E : String.concat ""
                (FlightMCPServer.statusLines fn d (Some "Cancelled") gate s e a)
              = L1 ++ fn ++ L2 ++ d ++ L3).
  { unfold FlightMCPServer.statusLines.
    cbn [FlightMCPServer.same FlightMCPServer.shown negb app String.concat
         String.eqb Ascii.eqb Bool.eqb].
    subst L1 L2 L3. rewrite !append_assoc. reflexivity. }
  rewrite E.
  rewrite (contains_skip_head "G" "ate: " L1) by reflexivity.
  rewrite (contains_skip_second "G" "a" "te: " fn).
  - rewrite (contains_skip_head "G" "ate: " L2) by reflexivity.
    rewrite (contains_skip_head "G" "ate: " d).
    + reflexivity.
    + eapply all_impl; [|exact Hd]. apply digit_or_dash_not_G.
  - eapply all_impl; [|exact Hfn]. apply upper_or_digit_not_a.
  - reflexivity.
Qed.

(** C6.  For every get_flight_status call with a valid flight number and a
    valid date, the draws being doubles of the unit interval: the status is
    the one of the enumeration the first draw selects, the gate the one of
    the fixed set the second draw selects, and the result is the
    concatenation of the pieces of [statusLines] for them.  When the status
    is cancelled, no more is drawn, no piece is a gate line and the text
    holds no "Gate: " at all.  When it is any other status,
    [generateRandomTime] is called for the third and fourth draws and the
    text holds the gate line and the scheduled departure line with the
    time it returned; when it is delayed, [generateRandomTime] is called
    once more and the text also holds the estimated departure line with
    that time and the fixed delay reason; when it is arrived or departed,
    likewise, the actual time line.  The times are times of day HH:MM. *)
Theorem flight_status_fields (rt : Runtime) (fs : list (string * value))
    (fn d : string) (w : World) :
  validateFlightNumber (Js.field "flight_number" fs) = inr fn ->
  validateDate rt (Js.field "date" fs) "date" = inr d ->
  draws_in_range w ->
  exists status gate scheduled later,
    status_at w = Some status /\ gate_at w = Some gate
    /\ In status FlightMCPServer.statuses
    /\ In gate FlightMCPServer.gates
    /\ FlightMCPServer.generateRandomTime (advance 2 w)
       = (inr scheduled, advance 4 w)
    /\ FlightMCPServer.generateRandomTime (advance 4 w)
       = (inr later, advance 6 w)
    /\ clock_time scheduled = true /\ clock_time later = true
    /\ let lines :=
         FlightMCPServer.statusLines fn d (Some status) (Some gate)
           scheduled later later in
       let result := String.concat "" lines in
       FlightMCPServer.getFlightStatus rt (VObj fs) w
         = (inr (text_block result), advance (draws_for status) w)
       /\ (status = "Cancelled" ->
           draws_for status = 2%nat
           /\ has_field "Gate: " lines = false
           /\ Str.contains "Gate: " result = false)
       /\ (status <> "Cancelled" ->
           (4 <= draws_for status)%nat
           /\ Str.contains ("Gate: " ++ gate ++ bn) result = true
           /\ Str.contains ("Scheduled Departure: " ++ scheduled ++ bn)
                result = true)
       /\ (status = "Delayed" ->
           draws_for status = 6%nat
           /\ Str.contains ("Estimated Departure: " ++ later ++ bn) result
              = true
           /\ Str.contains ("Delay Reason: Weather conditions" ++ bn) result
              = true)
       /\ (status = "Arrived" \/ status = "Departed" ->
           draws_for status = 6%nat
           /\ Str.contains ("Actual Time: " ++ later ++ bn) result = true).
Proof.
  intros Hfn Hd Hr.
  destruct (flight_status_lines rt fs fn d w Hfn Hd Hr)
    as (status & gate & Es & Eg & Hs & Hg & E & Hc & Hn & Hdel & Hact).
  exists status, gate, (time_at (advance 2 w)), (time_at (advance 4 w)).
  cbv zeta in *.
  split; [exact Es|]. split; [exact Eg|].
  split; [exact Hs|]. split; [exact Hg|].
  split; [reflexivity|]. split; [reflexivity|].
  split; [apply clock_time_at; now apply draws_in_range_advance|].
  split; [apply clock_time_at; now apply draws_in_range_advance|].
  split; [exact E|].
  split.
  { intros ->. split; [reflexivity|]. split; [now apply Hc|].
    apply cancelled_text_no_gate.
    - exact (validateFlightNumber_chars _ _ Hfn).
    - exact (validateDate_chars _ _ _ _ Hd). }
  split.
  { intros Hne. destruct (Hn Hne) as [H1 H2].
    split.
    - unfold FlightMCPServer.statuses in Hs.
      repeat (destruct Hs as [Hs | Hs];
              [subst status; try (exfalso; apply Hne; reflexivity);
               cbn; lia|]).
      destruct Hs.
    - split; now apply contains_concat. }
  split.
  { intros Hdl. destruct (Hdel Hdl) as [H1 H2]. subst status.
    split; [reflexivity|]. split; now apply contains_concat. }
  intros Ha. split; [destruct Ha as [-> | ->]; reflexivity|].
  apply contains_concat. now apply Hact.
Qed.

Lemma flight_status_fields_witness :
  validateFlightNumber (Js.field "flight_number" Sample.status_fields)
    = inr "AA123"
  /\ validateDate Sample.rt (Js.field "date" Sample.status_fields) "date"
     = inr "2025-12-25"
  /\ status_at Sample.halves = Some "Departed"
  /\ gate_at Sample.halves = Some "C14"
  /\ FlightMCPServer.getFlightStatus Sample.rt (VObj Sample.status_fields)
       Sample.halves
     = (inr (text_block
               (String.concat ""
                  (FlightMCPServer.statusLines "AA123" "2025-12-25"
                     (Some "Departed") (Some "C14") "12:30" "12:30" "12:30"))),
        advance 6 Sample.halves)
  /\ Str.contains ("Actual Time: 12:30" ++ bn)
       (String.concat ""
          (FlightMCPServer.statusLines "AA123" "2025-12-25"
             (Some "Departed") (Some "C14") "12:30" "12:30" "12:30"))
     = true.
Proof.
  split; [reflexivity|]. split; [reflexivity|].
  destruct (flight_status_fields Sample.rt Sample.status_fields
              "AA123" "2025-12-25" Sample.halves)
    as (status & gate & scheduled & later & Es & Eg & _ & _ & E1 & E2 & _ & _
        & E & _ & _ & _ & Ha).
  - reflexivity.
  - reflexivity.
  - intros n. repeat split; vm_compute; congruence.
  - assert (status = "Departed") by (vm_compute in Es; congruence).
    assert (gate = "C14") by (vm_compute in Eg; congruence).
    assert (scheduled = "12:30") by (vm_compute in E1; congruence).
    assert (later = "12:30") by (vm_compute in E2; congruence).
    subst. split; [exact Es|]. split; [exact Eg|]. split; [exact E|].
    exact (proj2 (Ha (or_intror eq_refl))).
Defined.

(** * Further properties *)

(** ** The shapes the validators accept *)

Lemma alpha_not_digit (c : ascii) :
  Str.isAlpha c = true -> Str.isDigit c = false.
Proof. each_ascii c; vm_compute; congruence. Qed.

Lemma if_same {A} (b : bool) (x : A) : (if b then x else x) = x.
Proof. now destruct b. Qed.

Lemma step_cons (it : Regex.item) (rest : Regex.regex) (c : ascii) :
  Regex.step (it :: rest) c
  = ((if (0 <? Regex.hi it)%nat && Regex.cls_test (Regex.cl it) c
      then [Regex.rep (Regex.cl it) (pred (Regex.lo it)) (pred (Regex.hi it))
            :: rest]
      else [])
     ++ (if (Regex.lo it =? 0)%nat then Regex.step rest c else []))%list.
Proof. reflexivity. Qed.

Lemma step_one_class (k : Regex.cls) (lo hi : nat) (c : ascii) :
  Regex.step [Regex.rep k lo hi] c
  = if (0 <? hi)%nat && Regex.cls_test k c
    then [[Regex.rep k (pred lo) (pred hi)]] else [].
Proof.
  cbn [Regex.step Regex.cl Regex.lo Regex.hi].
  destruct (lo =? 0)%nat; now rewrite app_nil_r.
Qed.

(** A pattern of one class: the length is within the bounds and every
    character is of the class. *)
Lemma run_one_class (k : Regex.cls) (s : string) :
  forall lo hi,
    Regex.run [[Regex.rep k lo hi]] s
    = (lo <=? String.length s)%nat && (String.length s <=? hi)%nat
      && Str.all (Regex.cls_test k) s.
Proof.
  induction s as [|c s IH]; intros lo hi.
  - cbn. destruct lo; reflexivity.
  - cbn [Regex.run flat_map String.length Str.all].
    rewrite app_nil_r, step_one_class.
    destruct hi as [|hi]; cbn [Nat.ltb Nat.leb andb pred].
    + rewrite run_nil. now rewrite andb_false_r.
    + destruct (Regex.cls_test k c).
      * rewrite IH. destruct lo; reflexivity.
      * rewrite run_nil. now rewrite !andb_false_r.
Qed.

Lemma run_letters_digits (s : string) :
  forall lo hi,
    Regex.run [[Regex.rep Regex.Alpha lo hi; Regex.rep Regex.Digit 1 4]] s
    = (lo <=? String.length (leading Str.isAlpha s))%nat
      && (String.length (leading Str.isAlpha s) <=? hi)%nat
      && (1 <=? String.length (after Str.isAlpha s))%nat
      && (String.length (after Str.isAlpha s) <=? 4)%nat
      && Str.all Str.isDigit (after Str.isAlpha s).
Proof.
  induction s as [|c s IH]; intros lo hi.
  - cbn. now rewrite !andb_false_r.
  - cbn [Regex.run flat_map]. rewrite app_nil_r.
    rewrite step_cons, step_one_class.
    cbn [Regex.cl Regex.lo Regex.hi Regex.cls_test leading after].
    destruct (Str.isAlpha c) eqn:Ha.
    + rewrite (alpha_not_digit c Ha). rewrite andb_false_r.
      rewrite if_same, app_nil_r, andb_true_r.
      destruct hi as [|hi]; cbn [Nat.ltb Nat.leb String.length pred].
      * rewrite run_nil. now rewrite andb_false_r.
      * rewrite IH. destruct lo; reflexivity.
    + rewrite andb_false_r. cbn [app String.length Nat.leb].
      destruct lo as [|lo]; cbn [Nat.eqb andb].
      * destruct (Str.isDigit c) eqn:Hd;
          change ((0 <? 4)%nat) with true; cbn [andb pred].
        -- rewrite run_one_class. cbn [Str.all Regex.cls_test Nat.leb andb].
           now rewrite Hd.
        -- rewrite run_nil. cbn [Str.all]. rewrite Hd.
           now rewrite andb_false_r.
      * apply run_nil.
Qed.

Lemma flight_test_shape (s : string) :
  Regex.test Patterns.flight s = flight_number_shape s.
Proof. apply run_letters_digits. Qed.

Lemma airline_test_shape (s : string) :
  Regex.test Patterns.airline s = airline_code_shape s.
Proof. apply (run_one_class Regex.Alpha). Qed.

Lemma run_cons (states : list Regex.regex) (c : ascii) (s : string) :
  Regex.run states (String c s)
  = Regex.run (flat_map (fun r => Regex.step r c) states) s.
Proof. reflexivity. Qed.

(** One character against a pattern that starts with an exact count. *)
Lemma run_exact (k : Regex.cls) (n : nat) (rest : Regex.regex) (c : ascii)
    (s : string) :
  Regex.run [Regex.rep k (S n) (S n) :: rest] (String c s)
  = Regex.cls_test k c && Regex.run [Regex.rep k n n :: rest] s.
Proof.
  rewrite run_cons. cbn [flat_map]. rewrite app_nil_r, step_cons.
  cbn [Regex.cl Regex.lo Regex.hi Nat.ltb Nat.leb Nat.eqb pred andb].
  rewrite app_nil_r.
  destruct (Regex.cls_test k c); [reflexivity | apply run_nil].
Qed.

(** A count that is used up gives way to the rest of the pattern. *)
Lemma run_done (k : Regex.cls) (rest : Regex.regex) (s : string) :
  Regex.run [Regex.rep k 0 0 :: rest] s = Regex.run [rest] s.
Proof.
  destruct s as [|c s].
  - reflexivity.
  - rewrite !run_cons. cbn [flat_map]. rewrite !app_nil_r, step_cons.
    reflexivity.
Qed.

Lemma date_test_shape (s : string) :
  Regex.test Patterns.date s = date_shape s.
Proof.
  unfold Regex.test, Patterns.date, Regex.exactly, date_shape.
  destruct s as [|y1 s]; [reflexivity|]. rewrite run_exact.
  destruct s as [|y2 s]; [now rewrite andb_false_r|]. rewrite run_exact.
  destruct s as [|y3 s]; [now rewrite !andb_false_r|]. rewrite run_exact.
  destruct s as [|y4 s]; [now rewrite !andb_false_r|].
  rewrite run_exact, run_done.
  destruct s as [|a s]; [now rewrite !andb_false_r|].
  rewrite run_exact, run_done.
  destruct s as [|m1 s]; [now rewrite !andb_false_r|]. rewrite run_exact.
  destruct s as [|m2 s]; [now rewrite !andb_false_r|].
  rewrite run_exact, run_done.
  destruct s as [|b s]; [now rewrite !andb_false_r|].
  rewrite run_exact, run_done.
  destruct s as [|d1 s]; [now rewrite !andb_false_r|]. rewrite run_exact.
  destruct s as [|d2 s]; [now rewrite !andb_false_r|].
  rewrite run_exact, run_done.
  cbn [Regex.cls_test Str.chars list_ascii_of_string].
  destruct s as [|x s].
  - cbn [Regex.run existsb Regex.nullable forallb].
    now rewrite orb_false_r, !andb_true_r, !andb_assoc.
  - rewrite run_cons. cbn [flat_map Regex.step app]. rewrite run_nil.
    now rewrite !andb_false_r.
Qed.

(** X1.  [validateFlightNumber] accepts exactly the strings made of two or
    three letters followed by one to four digits, and returns them in
    upper case.  The empty string and every value that is not a string
    are reported as missing, every other string as ill-formed; the error
    names the field "flight_number" and carries the input. *)
Theorem validateFlightNumber_shape (v : value) :
  validateFlightNumber v
  = match v with
    | VStr s =>
        if flight_number_shape s then inr (Str.toUpperCase s)
        else inl (ValidationError
                    (if String.eqb s "" then "Flight number is required"
                     else "Flight number must be in format: AA123, DL1234, etc.")
                    "flight_number" v)
    | _ => inl (ValidationError "Flight number is required" "flight_number" v)
    end.
Proof.
  destruct v; try reflexivity.
  unfold validateFlightNumber. rewrite flight_test_shape.
  destruct s as [|c s]; [reflexivity|].
  cbn [Js.truthy String.eqb negb].
  now destruct (flight_number_shape (String c s)).
Qed.

(** ** Normalisation *)

Lemma upper_classes (c : ascii) :
  Str.isAlpha (Str.upper c) = Str.isAlpha c
  /\ Str.isDigit (Str.upper c) = Str.isDigit c
  /\ Str.upper (Str.upper c) = Str.upper c.
Proof. each_ascii c; vm_compute; repeat split. Qed.

Lemma toUpperCase_idem (s : string) :
  Str.toUpperCase (Str.toUpperCase s) = Str.toUpperCase s.
Proof.
  unfold Str.toUpperCase. induction s as [|c s IH]; [reflexivity|].
  cbn [Str.map]. now rewrite IH, (proj2 (proj2 (upper_classes c))).
Qed.

Lemma length_toUpperCase (s : string) :
  String.length (Str.toUpperCase s) = String.length s.
Proof.
  unfold Str.toUpperCase. induction s as [|c s IH]; [reflexivity|].
  cbn [Str.map String.length]. now rewrite IH.
Qed.

Lemma all_toUpperCase (s : string) :
  Str.all Str.isAlpha (Str.toUpperCase s) = Str.all Str.isAlpha s
  /\ Str.all Str.isDigit (Str.toUpperCase s) = Str.all Str.isDigit s.
Proof.
  unfold Str.toUpperCase. induction s as [|c s [IH1 IH2]]; [now split|].
  cbn [Str.map Str.all].
  destruct (upper_classes c) as (-> & -> & _). now rewrite IH1, IH2.
Qed.

Lemma leading_toUpperCase (s : string) :
  leading Str.isAlpha (Str.toUpperCase s)
  = Str.toUpperCase (leading Str.isAlpha s)
  /\ after Str.isAlpha (Str.toUpperCase s)
     = Str.toUpperCase (after Str.isAlpha s).
Proof.
  unfold Str.toUpperCase. induction s as [|c s [IH1 IH2]]; [now split|].
  cbn [Str.map leading after].
  rewrite (proj1 (upper_classes c)).
  destruct (Str.isAlpha c); cbn [Str.map]; [now rewrite IH1, IH2|now split].
Qed.

Lemma flight_number_shape_upper (s : string) :
  flight_number_shape (Str.toUpperCase s) = flight_number_shape s.
Proof.
  unfold flight_number_shape.
  destruct (leading_toUpperCase s) as [-> ->].
  now rewrite !length_toUpperCase, (proj2 (all_toUpperCase _)).
Qed.

Lemma airport_test_shape (s : string) :
  Regex.test Patterns.airport s
  = (3 <=? String.length s)%nat && (String.length s <=? 3)%nat
    && Str.all Str.isAlpha s.
Proof. apply (run_one_class Regex.Alpha). Qed.

(** X2.  The two normalising validators are idempotent: an airport code
    or a flight number they have returned is accepted again and returned
    as it is. *)
Theorem normalisation_idempotent (v : value) (s : string) :
  (validateAirportCode v = inr s -> validateAirportCode (VStr s) = inr s)
  /\ (validateFlightNumber v = inr s -> validateFlightNumber (VStr s) = inr s).
Proof.
  split.
  - unfold validateAirportCode at 1. destruct v; try discriminate.
    destruct (negb (Js.truthy (VStr s0))); [discriminate|].
    destruct (String.length s0 =? 3)%nat eqn:Hlen; [|discriminate].
    destruct (Regex.test Patterns.airport s0) eqn:E; [|discriminate].
    cbn [negb]. intros H. inversion H. clear H. subst s.
    apply Nat.eqb_eq in Hlen.
    unfold validateAirportCode.
    rewrite airport_test_shape, length_toUpperCase,
      (proj1 (all_toUpperCase s0)), <- airport_test_shape, E, Hlen,
      toUpperCase_idem.
    destruct s0; [discriminate Hlen | reflexivity].
  - unfold validateFlightNumber at 1. destruct v; try discriminate.
    destruct (Js.truthy (VStr s0)) eqn:Et; [|discriminate].
    destruct (Regex.test Patterns.flight s0) eqn:E; [|discriminate].
    cbn [negb]. intros H. inversion H. clear H. subst s.
    unfold validateFlightNumber.
    rewrite flight_test_shape, flight_number_shape_upper,
      <- flight_test_shape, E, toUpperCase_idem.
    destruct s0; [discriminate Et | reflexivity].
Qed.

Lemma normalisation_idempotent_witness :
  validateAirportCode (VStr "LAX") = inr "LAX"
  /\ validateFlightNumber (VStr "AA123") = inr "AA123".
Proof.
  split.
  - apply (proj1 (normalisation_idempotent (VStr "lax") "LAX")). reflexivity.
  - apply (proj2 (normalisation_idempotent (VStr "aa123") "AA123")).
    reflexivity.
Defined.

(** ** The passenger count *)

Lemma Qred_inject_Z (n : Z) : Qred (inject_Z n) = inject_Z n.
Proof.
  unfold Qred, inject_Z. cbn [Qnum Qden].
  pose proof (Z.ggcd_gcd n 1) as Hg. pose proof (Z.ggcd_correct_divisors n 1) as Hd.
  destruct (Z.ggcd n 1) as [g [a b]]. cbn [fst snd] in *.
  rewrite Z.gcd_1_r in Hg. subst g. destruct Hd as [Ha Hb].
  rewrite Z.mul_1_l in Ha, Hb. subst a b. reflexivity.
Qed.

Lemma isInteger_spec (q : Q) :
  Js.isInteger (VNum q) = true <-> exists n, (q == inject_Z n)%Q.
Proof.
  unfold Js.isInteger. split.
  - intros H. apply Z.eqb_eq in H. exists (Qnum (Qred q)).
    rewrite <- (Qred_correct q) at 1.
    destruct (Qred q) as [a b]. cbn [Qnum Qden] in *.
    injection H as ->. reflexivity.
  - intros [n Hn]. rewrite (Qred_complete _ _ Hn), Qred_inject_Z.
    reflexivity.
Qed.

Lemma one_to_nine_spec (q : Q) :
  one_to_nine q = true <-> exists n, 1 <= n <= 9 /\ (q == inject_Z n)%Q.
Proof.
  unfold one_to_nine. rewrite existsb_exists. split.
  - intros (n & Hin & Hq). exists n. apply Qeq_bool_iff in Hq.
    split; [|exact Hq]. cbn in Hin. lia.
  - intros (n & Hn & Hq). exists n. split; [|now apply Qeq_bool_iff].
    cbn. lia.
Qed.

Lemma passenger_test (q : Q) :
  negb (Js.isInteger (VNum q)) || Js.lt q 1 || Js.gt q 9
  = negb (one_to_nine q).
Proof.
  destruct (one_to_nine q) eqn:E.
  - apply one_to_nine_spec in E. destruct E as (n & Hn & Hq).
    assert (Hi : Js.isInteger (VNum q) = true)
      by (apply isInteger_spec; now exists n).
    rewrite Hi. unfold Js.lt, Js.gt.
    assert (H1 : Qle_bool 1 q = true).
    { apply Qle_bool_iff. rewrite Hq. change 1%Q with (inject_Z 1).
      rewrite <- Zle_Qle. lia. }
    assert (H9 : Qle_bool q 9 = true).
    { apply Qle_bool_iff. rewrite Hq. change 9%Q with (inject_Z 9).
      rewrite <- Zle_Qle. lia. }
    now rewrite H1, H9.
  - cbn [negb].
    destruct (Js.isInteger (VNum q)) eqn:Hi; [|reflexivity].
    cbn [negb orb]. unfold Js.lt, Js.gt.
    destruct (Qle_bool 1 q) eqn:H1; [|reflexivity].
    destruct (Qle_bool q 9) eqn:H9; [|reflexivity].
    exfalso. apply isInteger_spec in Hi. destruct Hi as [n Hq].
    apply Qle_bool_iff in H1, H9. rewrite Hq in H1, H9.
    change 1%Q with (inject_Z 1) in H1. change 9%Q with (inject_Z 9) in H9.
    rewrite <- Zle_Qle in H1, H9.
    assert (Ht : one_to_nine q = true)
      by (apply one_to_nine_spec; exists n; split; [lia | exact Hq]).
    congruence.
Qed.

(** X3.  [validatePassengerCount] returns 1 for [undefined], returns the
    count itself when it is numerically one of the integers 1 to 9, and
    rejects every other value ([null], a numeric string, [NaN], 0, 10, a
    fraction) with a validation error on the field "adults" that carries
    the input. *)
Theorem validatePassengerCount_spec (v : value) :
  validatePassengerCount v
  = match v with
    | VUndefined => inr 1%Q
    | VNum q =>
        if one_to_nine q then inr q
        else inl (ValidationError "Number of adults must be between 1 and 9"
                    "adults" v)
    | _ => inl (ValidationError "Number of adults must be between 1 and 9"
                  "adults" v)
    end.
Proof.
  destruct v; try reflexivity.
  unfold validatePassengerCount. rewrite passenger_test.
  now destruct (one_to_nine q).
Qed.

(** ** The travel class *)

(** X4.  Whatever [validateTravelClass] returns is one of the four classes,
    and a truthy argument it accepts is returned as it is; a truthy
    argument that is not one of the four strings (another string, a number,
    an object) is rejected with the message that lists them. *)
Theorem validateTravelClass_result (v : value) :
  match validateTravelClass v with
  | inr c =>
      In c validClasses
      /\ (if Js.truthy v then v = VStr c else c = "economy")
  | inl e =>
      e = ValidationError
            "Travel class must be one of: economy, premium_economy, business, first"
            "travel_class" v
      /\ Js.truthy v = true
      /\ (forall c, In c validClasses -> v <> VStr c)
  end.
Proof.
  unfold validateTravelClass.
  destruct (Js.truthy v) eqn:Et; cbn [andb].
  - destruct (includes validClasses v) eqn:Ei; cbn [negb].
    + destruct v; try discriminate Ei.
      unfold includes, validClasses in Ei. cbn [existsb Js.is_string] in Ei.
      split; [|reflexivity].
      repeat (apply orb_true_iff in Ei; destruct Ei as [Ei | Ei];
              [apply String.eqb_eq in Ei; subst s; cbn; tauto|]).
      discriminate Ei.
    + split; [reflexivity|]. split; [reflexivity|].
      intros c Hc ->. unfold includes in Ei.
      assert (Ht : existsb (Js.is_string (VStr c)) validClasses = true).
      { apply existsb_exists. exists c. split; [exact Hc|].
        cbn. apply String.eqb_refl. }
      congruence.
  - split; [|destruct v; reflexivity].
    destruct v; cbn; tauto.
Qed.

Lemma validateTravelClass_result_witness :
  validateTravelClass (VStr "business") = inr "business"
  /\ validateTravelClass (VNum 2)
     = inl (ValidationError
              "Travel class must be one of: economy, premium_economy, business, first"
              "travel_class" (VNum 2)).
Proof.
  split.
  - pose proof (validateTravelClass_result (VStr "business")) as H.
    destruct (validateTravelClass (VStr "business")) as [e | c].
    + destruct H as (_ & _ & H). exfalso.
      apply (H "business"); [cbn; tauto | reflexivity].
    + destruct H as [_ H]. cbn in H. now inversion H.
  - pose proof (validateTravelClass_result (VNum 2)) as H.
    destruct (validateTravelClass (VNum 2)) as [e | c].
    + destruct H as (-> & _). reflexivity.
    + destruct H as [_ H]. cbn in H. discriminate H.
Defined.

(** ** Dates *)

Lemma parse_day (rt : Runtime) (s : string) (t : Z) :
  JsDate.parse rt s = Some t -> exists n, t = JsDate.msPerDay * n.
Proof.
  unfold JsDate.parse.
  destruct (Str.chars s) as [|y1 [|y2 [|y3 [|y4 [|x1 [|m1 [|m2 [|x2 [|d1 [|d2 [|z l]]]]]]]]]]];
    try discriminate.
  destruct (_ && _); [|discriminate].
  intros H. inversion H. eexists. reflexivity.
Qed.

(** X5.  [validateDate] never alters a date: what it returns is its
    argument, a string made of four digits, a dash, two digits, a dash and
    two digits, that [Date] can read.  Whatever it rejects, for whichever of its four
    reasons, it rejects with a validation error that names the field it
    was given and carries the argument. *)
Theorem validateDate_returns_input (rt : Runtime) (v : value) (f : string) :
  match validateDate rt v f with
  | inr s =>
      v = VStr s /\ date_shape s = true
      /\ exists n, JsDate.parse rt s = Some (JsDate.msPerDay * n)
  | inl e =>
      exists m, e = ValidationError m f v
                /\ In m [f ++ " is required";
                         f ++ " must be in YYYY-MM-DD format";
                         "Invalid " ++ f;
                         f ++ " cannot be in the past"]
  end.
Proof.
  unfold validateDate.
  destruct v; try (eexists; split; [reflexivity | cbn; tauto]).
  destruct (negb (Js.truthy (VStr s)));
    [eexists; split; [reflexivity | cbn; tauto]|].
  destruct (Regex.test Patterns.date s) eqn:E; cbn [negb];
    [|eexists; split; [reflexivity | cbn; tauto]].
  destruct (JsDate.parse rt s) as [t|] eqn:Ep;
    [|eexists; split; [reflexivity | cbn; tauto]].
  destruct (_ <? _); [eexists; split; [reflexivity | cbn; tauto]|].
  split; [reflexivity|]. split; [now rewrite <- date_test_shape|].
  destruct (parse_day rt s t Ep) as [n ->]. now exists n.
Qed.

(** X6.  Which days [validateDate] lets through, for a well-formed date
    that falls on day number [n] (counted from 1970-01-01): on a host at
    or east of UTC, the days from today on; on a host west of UTC, only
    the days after today. *)
Theorem validateDate_day_threshold (rt : Runtime) (s f : string) (n : Z) :
  -1440 <= utc_offset rt < 1440 ->
  Regex.test Patterns.date s = true ->
  JsDate.parse rt s = Some (JsDate.msPerDay * n) ->
  validateDate rt (VStr s) f
  = if (if utc_offset rt <? 0 then today_number rt <? n
        else today_number rt <=? n)
    then inr s
    else inl (ValidationError (f ++ " cannot be in the past") f (VStr s)).
Proof.
  intros Hoff Hre Hp.
  destruct (Z.ltb_spec (utc_offset rt) 0) as [Hw | He].
  - rewrite (validateDate_west rt s f n) by (assumption || lia).
    destruct (Z.leb_spec n (today_number rt)), (Z.ltb_spec (today_number rt) n);
      (reflexivity || lia).
  - rewrite (validateDate_east rt s f n) by (assumption || lia).
    destruct (Z.ltb_spec n (today_number rt)), (Z.leb_spec (today_number rt) n);
      (reflexivity || lia).
Qed.

Lemma validateDate_day_threshold_witness :
  validateDate Sample.rt_west (VStr "2025-06-16") "date" = inr "2025-06-16"
  /\ validateDate Sample.rt (VStr "2025-06-14") "date"
     = inl (ValidationError "date cannot be in the past" "date"
              (VStr "2025-06-14")).
Proof.
  split.
  - apply (validateDate_day_threshold Sample.rt_west "2025-06-16" "date"
             (JsDate.MakeDay 2025 6 16)).
    + cbn. lia.
    + reflexivity.
    + reflexivity.
  - apply (validateDate_day_threshold Sample.rt "2025-06-14" "date"
             (JsDate.MakeDay 2025 6 14)).
    + cbn. lia.
    + reflexivity.
    + reflexivity.
Defined.

(** ** Durations *)

Lemma digits_value_acc (d : Decimal.uint) :
  forall p,
    AmadeusFormat.digits_value (Zpos p) (NilEmpty.string_of_uint d)
    = Zpos (Pos.of_uint_acc d p).
Proof.
  induction d; intros p;
    cbn [NilEmpty.string_of_uint AmadeusFormat.digits_value Pos.of_uint_acc];
    [reflexivity | ..];
    match goal with
    | |- context [JsDate.digit ?c] =>
        let k := eval vm_compute in (JsDate.digit c) in
        change (JsDate.digit c) with k
    end;
    rewrite <- IHd; f_equal; lia.
Qed.

Lemma digits_value_uint (d : Decimal.uint) :
  AmadeusFormat.digits_value 0 (NilEmpty.string_of_uint d)
  = Z.of_N (Pos.of_uint d).
Proof.
  induction d;
    cbn [NilEmpty.string_of_uint AmadeusFormat.digits_value Pos.of_uint];
    [reflexivity | exact IHd | ..];
    match goal with
    | |- context [JsDate.digit ?c] =>
        let k := eval vm_compute in (10 * 0 + JsDate.digit c) in
        change (10 * 0 + JsDate.digit c) with k
    end;
    apply digits_value_acc.
Qed.

Lemma ofZ_pos (p : positive) :
  Str.ofZ (Zpos p) = NilEmpty.string_of_uint (Pos.to_uint p).
Proof.
  unfold Str.ofZ. cbn [Z.to_int NilZero.string_of_int].
  unfold NilZero.string_of_uint.
  pose proof (DecimalPos.Unsigned.to_uint_nonnil p) as H.
  destruct (Pos.to_uint p); [contradiction | reflexivity ..].
Qed.

(** [parseInt] reads back the decimal text of a number. *)
Lemma digits_value_ofZ (z : Z) :
  0 <= z -> AmadeusFormat.digits_value 0 (Str.ofZ z) = z.
Proof.
  intros Hz. destruct z as [|p|p]; [reflexivity | | lia].
  rewrite ofZ_pos, digits_value_uint, DecimalPos.Unsigned.of_to.
  reflexivity.
Qed.

Lemma all_digits_uint (d : Decimal.uint) :
  Str.all Str.isDigit (NilEmpty.string_of_uint d) = true.
Proof. induction d; cbn [NilEmpty.string_of_uint Str.all]; auto. Qed.

Lemma ofZ_digits (z : Z) :
  0 <= z ->
  Str.all Str.isDigit (Str.ofZ z) = true /\ Str.ofZ z <> "".
Proof.
  intros Hz. destruct z as [|p|p]; [split; [reflexivity | discriminate] | | lia].
  rewrite ofZ_pos. split; [apply all_digits_uint|].
  pose proof (DecimalPos.Unsigned.to_uint_nonnil p) as H.
  destruct (Pos.to_uint p); [contradiction | discriminate ..].
Qed.

Lemma leading_app (f : ascii -> bool) (a : string) (c : ascii) (b : string) :
  Str.all f a = true -> f c = false ->
  leading f (a ++ String c b) = a /\ after f (a ++ String c b) = String c b.
Proof.
  intros Ha Hc. induction a as [|x a IH]; cbn [append leading after].
  - now rewrite Hc.
  - cbn [Str.all] in Ha. apply andb_true_iff in Ha. destruct Ha as [Hx Ha].
    rewrite Hx. destruct (IH Ha) as [-> ->]. now split.
Qed.

Lemma leading_all (f : ascii -> bool) (a : string) :
  Str.all f a = true -> leading f a = a /\ after f a = "".
Proof.
  intros Ha. induction a as [|x a IH]; cbn [leading after]; [now split|].
  cbn [Str.all] in Ha. apply andb_true_iff in Ha. destruct Ha as [Hx Ha].
  rewrite Hx. destruct (IH Ha) as [-> ->]. now split.
Qed.

(** A group whose letter follows the digits captures them. *)
Lemma group_hit (letter : ascii) (z : Z) (rest : string) :
  0 <= z -> Str.isDigit letter = false ->
  AmadeusFormat.group letter (Str.ofZ z ++ String letter rest)
  = (Some (Str.ofZ z), rest).
Proof.
  intros Hz Hl. destruct (ofZ_digits z Hz) as [Hd Hne].
  unfold AmadeusFormat.group.
  destruct (leading_app Str.isDigit (Str.ofZ z) letter rest Hd Hl) as [-> ->].
  destruct (Str.ofZ z); [contradiction|].
  now rewrite Ascii.eqb_refl.
Qed.

(** A group whose digits are followed by another letter, or by nothing,
    captures nothing and consumes nothing. *)
Lemma group_miss (letter other : ascii) (z : Z) (rest : string) :
  0 <= z -> Str.isDigit other = false -> Ascii.eqb other letter = false ->
  AmadeusFormat.group letter (Str.ofZ z ++ String other rest)
  = (None, Str.ofZ z ++ String other rest).
Proof.
  intros Hz Ho Hne. destruct (ofZ_digits z Hz) as [Hd _].
  unfold AmadeusFormat.group.
  destruct (leading_app Str.isDigit (Str.ofZ z) other rest Hd Ho) as [-> ->].
  rewrite Hne. now destruct (Str.ofZ z).
Qed.

Lemma group_empty (letter : ascii) :
  AmadeusFormat.group letter "" = (None, "").
Proof. reflexivity. Qed.

(** X7.  [parseDuration] turns the ISO-8601 durations the provider sends
    into hours and minutes: PT4H25M becomes "4h 25m", and a part that is
    missing counts as 0 (PT2H is "2h 0m", PT45M is "0h 45m").  The numbers
    are those of the safe integer range, where [parseInt] is exact. *)
Theorem parseDuration_hours_minutes (h m : Z) :
  0 <= h <= 9007199254740991 -> 0 <= m <= 9007199254740991 ->
  AmadeusFormat.parseDuration ("PT" ++ Str.ofZ h ++ "H" ++ Str.ofZ m ++ "M")
  = Str.ofZ h ++ "h " ++ Str.ofZ m ++ "m"
  /\ AmadeusFormat.parseDuration ("PT" ++ Str.ofZ h ++ "H")
     = Str.ofZ h ++ "h 0m"
  /\ AmadeusFormat.parseDuration ("PT" ++ Str.ofZ m ++ "M")
     = "0h " ++ Str.ofZ m ++ "m".
Proof.
  intros [Hh _] [Hm _].
  unfold AmadeusFormat.parseDuration.
  cbn [append AmadeusFormat.after_PT Ascii.eqb Bool.eqb].
  repeat split.
  - rewrite (group_hit "H" h _ Hh eq_refl).
    rewrite (group_hit "M" m _ Hm eq_refl).
    cbn [AmadeusFormat.parseInt_or_0]. now rewrite !digits_value_ofZ.
  - rewrite (group_hit "H" h _ Hh eq_refl), group_empty.
    cbn [AmadeusFormat.parseInt_or_0]. now rewrite !digits_value_ofZ.
  - rewrite (group_miss "H" "M" m _ Hm eq_refl eq_refl).
    rewrite (group_hit "M" m _ Hm eq_refl).
    cbn [AmadeusFormat.parseInt_or_0]. now rewrite !digits_value_ofZ.
Qed.

Lemma parseDuration_hours_minutes_witness :
  AmadeusFormat.parseDuration "PT4H25M" = "4h 25m"
  /\ AmadeusFormat.parseDuration "PT4H" = "4h 0m"
  /\ AmadeusFormat.parseDuration "PT25M" = "0h 25m".
Proof.
  apply (parseDuration_hours_minutes 4 25); lia.
Defined.

Lemma after_PT_contains (s : string) :
  Str.contains "PT" s = false -> AmadeusFormat.after_PT s = None.
Proof.
  induction s as [|c s IH]; [reflexivity|].
  cbn [Str.contains]. intros H. apply orb_false_iff in H.
  destruct H as [Hp Hc]. specialize (IH Hc).
  cbn [AmadeusFormat.after_PT].
  destruct (Ascii.eqb c "P") eqn:Ec; [|exact IH].
  apply Ascii.eqb_eq in Ec. subst c.
  destruct s as [|c' rest]; [reflexivity|].
  destruct (Ascii.eqb c' "T") eqn:Et; [|exact IH].
  apply Ascii.eqb_eq in Et. subst c'. simpl in Hp. destruct rest; discriminate Hp.
Qed.

(** X8.  A duration in which "PT" does not occur is returned as it is:
    this is so of the empty string, and of every duration with a day part,
    such as P1DT2H30M, which therefore reaches the user in its raw
    form. *)
Theorem parseDuration_passes_unmatched (s : string) :
  Str.contains "PT" s = false -> AmadeusFormat.parseDuration s = s.
Proof.
  intros H. unfold AmadeusFormat.parseDuration.
  now rewrite (after_PT_contains s H).
Qed.

Lemma parseDuration_passes_unmatched_witness :
  AmadeusFormat.parseDuration "P1DT2H30M" = "P1DT2H30M".
Proof. apply parseDuration_passes_unmatched. reflexivity. Defined.

(** ** The tables of the provider client *)

(** X9.  The provider client and the server name the airlines alike: every
    carrier of the synthetic generator and every airline of the airline
    table has, under [getAirlineName], the name the server gives it.  A
    code that is not in the client's table is its own name, unless it names
    a property every object inherits ([constructor], [toString], ...):
    then the value inherited is returned, which is no string. *)
Theorem airline_names_agree (code : string) :
  (forall name, In (code, name) FlightMCPServer.airlines ->
                AmadeusFormat.getAirlineName code = Js.Text name)
  /\ (forall a, In (code, a) FlightMCPServer.mockAirlines ->
                AmadeusFormat.getAirlineName code
                = Js.Text (FlightMCPServer.al_name a))
  /\ (Js.own code AmadeusFormat.airlineNames = None ->
      Js.inherited code = false ->
      AmadeusFormat.getAirlineName code = Js.Text code)
  /\ (Js.inherited code = true ->
      AmadeusFormat.getAirlineName code = Js.Inherited code).
Proof.
  split; [|split; [|split]].
  - intros name H. unfold FlightMCPServer.airlines in H.
    repeat (destruct H as [H | H]; [inversion H; reflexivity|]).
    destruct H.
  - intros a H. unfold FlightMCPServer.mockAirlines in H.
    repeat (destruct H as [H | H]; [inversion H; reflexivity|]).
    destruct H.
  - intros H Hi. unfold AmadeusFormat.getAirlineName, Js.get_or.
    now rewrite H, Hi.
  - intros Hi. unfold Js.inherited in Hi. apply existsb_exists in Hi.
    destruct Hi as (k & Hin & E). apply String.eqb_eq in E. subst k.
    unfold Js.inherited_names in Hin.
    repeat (destruct Hin as [Hin | Hin]; [subst code; reflexivity|]).
    destruct Hin.
Qed.

Lemma airline_names_agree_witness :
  AmadeusFormat.getAirlineName "B6" = Js.Text "JetBlue Airways"
  /\ AmadeusFormat.getAirlineName "LH" = Js.Text "Lufthansa"
  /\ AmadeusFormat.getAirlineName "ZZ" = Js.Text "ZZ"
  /\ AmadeusFormat.getAirlineName "constructor" = Js.Inherited "constructor".
Proof.
  split; [|split; [|split]].
  - apply (proj1 (airline_names_agree "B6")). cbn. tauto.
  - apply (proj1 (proj2 (airline_names_agree "LH"))
             {| FlightMCPServer.al_name := "Lufthansa";
                FlightMCPServer.al_country := "Germany";
                FlightMCPServer.al_founded := 1953;
                FlightMCPServer.al_hub := "Frankfurt Airport";
                FlightMCPServer.al_fleet_size := "300+";
                FlightMCPServer.al_destinations := "220+" |}).
    cbn. tauto.
  - apply (proj1 (proj2 (proj2 (airline_names_agree "ZZ")))); reflexivity.
  - apply (proj2 (proj2 (proj2 (airline_names_agree "constructor")))).
    reflexivity.
Defined.

(** X10.  The cabin class survives the round trip through the provider:
    for whatever class [validateTravelClass] returns, the request asks for
    that class in upper case, and [mapCabinClass] maps the upper-case name
    back to the class. *)
Theorem cabin_class_round_trip (v : value) (c : string) (p : SearchParams) :
  validateTravelClass v = inr c ->
  travelClass (AmadeusFlightService.requestParams (with_class p c))
  = Some (Js.Text (Str.toUpperCase c))
  /\ AmadeusFormat.mapCabinClass (Str.toUpperCase c) = Js.Text c.
Proof.
  intros H.
  assert (Hin : In c validClasses).
  { unfold validateTravelClass in H.
    destruct (Js.truthy v) eqn:Et; cbn [andb] in H.
    - destruct (includes validClasses v) eqn:Ei; cbn [negb] in H;
        [|discriminate H].
      destruct v; try discriminate Ei. inversion H. subst s.
      unfold includes in Ei. apply existsb_exists in Ei.
      destruct Ei as (x & Hx & Ex). cbn in Ex. apply String.eqb_eq in Ex.
      now subst x.
    - inversion H. destruct v; cbn; tauto. }
  unfold validClasses in Hin.
  repeat (destruct Hin as [Hin | Hin]; [subst c; split; reflexivity|]).
  destruct Hin.
Qed.

Lemma cabin_class_round_trip_witness :
  travelClass (AmadeusFlightService.requestParams
                 (with_class Sample.search_params "premium_economy"))
  = Some (Js.Text "PREMIUM_ECONOMY")
  /\ AmadeusFormat.mapCabinClass "PREMIUM_ECONOMY"
     = Js.Text "premium_economy".
Proof.
  apply (cabin_class_round_trip (VStr "premium_economy") "premium_economy"
           Sample.search_params).
  reflexivity.
Defined.

(** ** What a call leaves untouched *)

Lemma keeps_ret {A B} (part : World -> B) (a : A) : keeps part (ret a).
Proof. intros w. reflexivity. Qed.

Lemma keeps_throw {A B} (part : World -> B) (e : exn) :
  keeps part (@throw A e).
Proof. intros w. reflexivity. Qed.

Lemma keeps_lift {A B} (part : World -> B) (r : result A) :
  keeps part (lift r).
Proof. intros w. reflexivity. Qed.

Lemma keeps_bind {A A' B} (part : World -> B) (m : M A) (k : A -> M A') :
  keeps part m -> (forall a, keeps part (k a)) -> keeps part (bind m k).
Proof.
  intros Hm Hk w. unfold bind. specialize (Hm w).
  destruct (m w) as [[e | a] w1]; cbn [snd] in *.
  - exact Hm.
  - rewrite Hk. exact Hm.
Qed.

Lemma keeps_try_catch {A B} (part : World -> B) (m : M A) (h : exn -> M A) :
  keeps part m -> (forall e, keeps part (h e)) -> keeps part (try_catch m h).
Proof.
  intros Hm Hh w. unfold try_catch. specialize (Hm w).
  destruct (m w) as [[e | a] w1]; cbn [snd] in *.
  - rewrite Hh. exact Hm.
  - exact Hm.
Qed.

Lemma keeps_prop {B} (part : World -> B) (args : value) (k : string) :
  keeps part (FlightMCPServer.prop args k).
Proof. intros w. destruct args; reflexivity. Qed.

Lemma keeps_rethrow {A B} (part : World -> B) (m : string) (e : exn) :
  keeps part (@FlightMCPServer.rethrow A m e).
Proof. intros w. destruct e; reflexivity. Qed.

Lemma random_keeps_requests : keeps requests Math_random.
Proof. intros w. reflexivity. Qed.

Lemma send_keeps_cursor (c : ProviderCall) : keeps cursor (send c).
Proof. intros w. reflexivity. Qed.

(** One step of the decomposition of a computation. *)
Ltac keeps_step :=
  match goal with
  | |- keeps _ (bind _ _) => apply keeps_bind; [|intros ?]
  | |- keeps _ (try_catch _ _) => apply keeps_try_catch; [|intros ?]
  | |- keeps _ (ret _) => apply keeps_ret
  | |- keeps _ (throw _) => apply keeps_throw
  | |- keeps _ (lift _) => apply keeps_lift
  | |- keeps _ (FlightMCPServer.prop _ _) => apply keeps_prop
  | |- keeps _ (FlightMCPServer.rethrow _ _) => apply keeps_rethrow
  | |- keeps requests Math_random => apply random_keeps_requests
  | |- keeps cursor (send _) => apply send_keeps_cursor
  | |- keeps _ (match ?x with _ => _ end) => destruct x
  end.

Ltac keeps_all := repeat keeps_step.

Section Untouched.
Variable rt : Runtime.
Variable RawOffer : Type.
Variable get : SearchRequest -> thrown + option (list RawOffer).
Variable loc : string -> thrown + option (list RawAirport).
Variable fmt : list RawOffer -> thrown + list FlightOffer.

Lemma validate_keeps {B} (part : World -> B) (args : value) :
  keeps part (FlightMCPServer.searchFlights_validate rt args).
Proof. unfold FlightMCPServer.searchFlights_validate. keeps_all. Qed.

Lemma generateRandomTime_keeps_requests :
  keeps requests FlightMCPServer.generateRandomTime.
Proof. unfold FlightMCPServer.generateRandomTime. keeps_all. Qed.

Lemma mockFlight_keeps_requests (o d dd : string) (a : Q) (c : string) :
  keeps requests (FlightMCPServer.mockFlight o d dd a c).
Proof.
  unfold FlightMCPServer.mockFlight.
  repeat (keeps_step || apply generateRandomTime_keeps_requests).
Qed.

Lemma mockLoop_keeps_requests (o d dd : string) (a : Q) (c : string)
    (n : nat) :
  forall flights,
    keeps requests (FlightMCPServer.mockLoop n flights o d dd a c).
Proof.
  induction n as [|n IH]; intros flights; cbn [FlightMCPServer.mockLoop].
  - apply keeps_ret.
  - apply keeps_bind; [apply mockFlight_keeps_requests | intros f; apply IH].
Qed.

Lemma getFlightStatus_keeps_requests (args : value) :
  keeps requests (FlightMCPServer.getFlightStatus rt args).
Proof.
  unfold FlightMCPServer.getFlightStatus.
  repeat (keeps_step || apply generateRandomTime_keeps_requests).
Qed.

Lemma getAirlineInfo_keeps {B} (part : World -> B) (args : value) :
  keeps part (FlightMCPServer.getAirlineInfo args).
Proof. unfold FlightMCPServer.getAirlineInfo. keeps_all. Qed.

Lemma fallback_searchFlights_keeps_requests (args : value) :
  keeps requests
    (FlightMCPServer.searchFlights rt RawOffer get fmt false args).
Proof.
  unfold FlightMCPServer.searchFlights, FlightMCPServer.searchFlights_try,
    FlightMCPServer.generateMockFlights.
  apply keeps_bind; [apply validate_keeps | intros v].
  repeat (keeps_step || apply mockLoop_keeps_requests).
Qed.

Lemma fallback_getAirportInfo_keeps {B} (part : World -> B) (args : value) :
  keeps part (FlightMCPServer.getAirportInfo rt loc false args).
Proof. unfold FlightMCPServer.getAirportInfo, FlightMCPServer.getAirportInfo_try. keeps_all. Qed.

Lemma await_keeps_cursor {A} (c : ProviderCall) (answer : thrown + A) :
  keeps cursor (AmadeusFlightService.await c answer).
Proof. unfold AmadeusFlightService.await. keeps_all. Qed.

Lemma live_searchFlights_keeps_cursor (args : value) :
  keeps cursor (FlightMCPServer.searchFlights rt RawOffer get fmt true args).
Proof.
  unfold FlightMCPServer.searchFlights, FlightMCPServer.searchFlights_try,
    AmadeusFlightService.searchFlights.
  apply keeps_bind; [apply validate_keeps | intros v].
  repeat (keeps_step || apply await_keeps_cursor).
Qed.

Lemma getAirportInfo_keeps_cursor (mode : bool) (args : value) :
  keeps cursor (FlightMCPServer.getAirportInfo rt loc mode args).
Proof.
  destruct mode; [|apply fallback_getAirportInfo_keeps].
  unfold FlightMCPServer.getAirportInfo, FlightMCPServer.getAirportInfo_try,
    AmadeusFlightService.getAirportInfo.
  repeat (keeps_step || apply await_keeps_cursor).
Qed.

Lemma handler_world (mode : bool) (request : Request) (w : World) :
  snd (FlightMCPServer.handler rt RawOffer get loc fmt mode request w)
  = snd (FlightMCPServer.callTool rt RawOffer get loc fmt mode request w).
Proof.
  rewrite handler_eq.
  now destruct (FlightMCPServer.callTool _ _ _ _ _ _ _ _) as [[e | p] w'].
Qed.

(** X11.  The provider is contacted only by a flight search or an airport
    lookup in live mode.  In Fallback mode no call of any tool sends a
    request, and in either mode the flight status and the airline
    information, like the answer to an unknown tool, come without one: the
    status reported is never the provider's. *)
Theorem provider_contacted_only_in_live_search_or_lookup
    (mode : bool) (request : Request) (w : World) :
  mode = false
  \/ (name request <> "search_flights"
      /\ name request <> "get_airport_info") ->
  requests
    (snd (FlightMCPServer.handler rt RawOffer get loc fmt mode request w))
  = requests w.
Proof.
  intros H. rewrite handler_world. unfold FlightMCPServer.callTool.
  destruct (String.eqb_spec (name request) "search_flights") as [E1 | N1].
  - destruct H as [-> | [H _]]; [|contradiction].
    apply fallback_searchFlights_keeps_requests.
  - destruct (String.eqb_spec (name request) "get_airport_info") as [E2 | N2].
    + destruct H as [-> | [_ H]]; [|contradiction].
      apply fallback_getAirportInfo_keeps.
    + destruct (String.eqb (name request) "get_flight_status").
      * apply getFlightStatus_keeps_requests.
      * destruct (String.eqb (name request) "get_airline_info").
        -- apply getAirlineInfo_keeps.
        -- reflexivity.
Qed.

(** X12.  Random draws are taken only by the flight status and by a flight
    search in Fallback mode.  A search in live mode and the airport and
    airline lookups take none: what they return does not depend on
    [Math.random]. *)
Theorem draws_taken_only_by_status_or_fallback_search
    (mode : bool) (request : Request) (w : World) :
  name request <> "get_flight_status" ->
  mode = true \/ name request <> "search_flights" ->
  cursor
    (snd (FlightMCPServer.handler rt RawOffer get loc fmt mode request w))
  = cursor w.
Proof.
  intros Hs H. rewrite handler_world. unfold FlightMCPServer.callTool.
  destruct (String.eqb_spec (name request) "search_flights") as [E1 | N1].
  - destruct H as [-> | H]; [|contradiction].
    apply live_searchFlights_keeps_cursor.
  - destruct (String.eqb (name request) "get_airport_info").
    + apply getAirportInfo_keeps_cursor.
    + destruct (String.eqb_spec (name request) "get_flight_status");
        [contradiction|].
      destruct (String.eqb (name request) "get_airline_info").
      * apply getAirlineInfo_keeps.
      * reflexivity.
Qed.

End Untouched.

Lemma provider_contacted_only_in_live_search_or_lookup_witness :
  requests
    (snd (FlightMCPServer.handler Sample.rt unit Sample.get Sample.loc
            Sample.fmt true
            {| name := "get_flight_status";
               arguments := VObj Sample.status_fields |}
            Sample.halves))
  = [].
Proof.
  apply (provider_contacted_only_in_live_search_or_lookup Sample.rt unit
           Sample.get Sample.loc Sample.fmt true
           {| name := "get_flight_status";
              arguments := VObj Sample.status_fields |} Sample.halves).
  right. split; discriminate.
Defined.

Lemma draws_taken_only_by_status_or_fallback_search_witness :
  cursor
    (snd (FlightMCPServer.handler Sample.rt unit Sample.get Sample.loc
            Sample.fmt true
            {| name := "search_flights";
               arguments := VObj Sample.search_fields |}
            Sample.halves))
  = 0%nat.
Proof.
  apply (draws_taken_only_by_status_or_fallback_search Sample.rt unit
           Sample.get Sample.loc Sample.fmt true
           {| name := "search_flights";
              arguments := VObj Sample.search_fields |} Sample.halves).
  - discriminate.
  - left. reflexivity.
Defined.

(** ** A search in live mode *)

Lemma validateTravelClass_in (v : value) (c : string) :
  validateTravelClass v = inr c -> In c validClasses.
Proof.
  unfold validateTravelClass.
  destruct (Js.truthy v) eqn:Et; cbn [andb].
  - destruct (includes validClasses v) eqn:Ei; cbn [negb]; [|discriminate].
    destruct v; try discriminate Ei. intros H. inversion H. subst s.
    unfold includes in Ei. apply existsb_exists in Ei.
    destruct Ei as (x & Hx & Ex). cbn in Ex. apply String.eqb_eq in Ex.
    now subst x.
  - intros H. inversion H. destruct v; cbn; tauto.
Qed.

Lemma validateDate_nonempty (rt : Runtime) (v : value) (f d : string) :
  validateDate rt v f = inr d -> String.eqb d "" = false.
Proof.
  unfold validateDate. destruct v; try discriminate.
  destruct s as [|c s]; [discriminate|]. cbn [Js.truthy String.eqb negb].
  destruct (negb _); [discriminate|].
  destruct (JsDate.parse rt _); [|discriminate].
  destruct (_ <? _); [discriminate|].
  intros H. inversion H. reflexivity.
Qed.

Lemma requestParams_valid (rt : Runtime) (fs : list (string * value))
    (p : SearchParams) :
  fields_valid rt fs p ->
  AmadeusFlightService.requestParams p = validated_request p.
Proof.
  intros ((_ & _ & _ & Ha & Hret) & Hc).
  unfold AmadeusFlightService.requestParams, validated_request.
  assert (E1 : Qeq_bool (adults p) 0 = false).
  { destruct (validatePassengerCount_range _ _ Ha) as [H1 _].
    destruct (Qeq_bool (adults p) 0) eqn:E; [|reflexivity].
    apply Qeq_bool_iff in E. rewrite E in H1.
    unfold Qle in H1. cbn in H1. lia. }
  assert (E2 : match return_date p with
               | Some d => if String.eqb d "" then None else Some d
               | None => None
               end = return_date p).
  { destruct (Js.truthy (Js.field "return_date" fs)).
    - destruct Hret as (d & Hd & ->).
      now rewrite (validateDate_nonempty _ _ _ _ Hd).
    - now rewrite Hret. }
  assert (E3 : (if String.eqb (travel_class p) "" then None
                else Some (Js.get_or (travel_class p)
                             AmadeusFlightService.cabinClassMap "ECONOMY"))
               = Some (Js.Text (Str.toUpperCase (travel_class p)))).
  { pose proof (validateTravelClass_in _ _ Hc) as Hin.
    unfold validClasses in Hin.
    repeat (destruct Hin as [Hin | Hin]; [rewrite <- Hin; reflexivity|]).
    destruct Hin. }
  now rewrite E1, E2, E3.
Qed.

(** When the message of rule 4 cannot be built, the kind of the failure
    is still ApiUnavailable. *)
Lemma message_fails_kind (rt : Runtime) (f : Failure) :
  message_fails rt f = true -> kind f = ApiUnavailable.
Proof.
  unfold message_fails, rule, kind.
  destruct (structured f); [|discriminate].
  destruct (first_rule rules f) as [[|[|[|[|n]]]]|]; cbn;
    try discriminate; reflexivity.
Qed.

(** What the server's [catch] makes of the error the client's [catch]
    threw: a domain error of the kind the failure mapping gives. *)
Lemma rethrow_catch (rt : Runtime) (t : thrown) (w : World) :
  exists m d,
    FlightMCPServer.rethrow (A := payload) "Failed to search for flights"
      (AmadeusFlightService.searchFlights_catch rt (Thrown t)) w
    = (inl (FlightAPIError m (kind_code (kind (Rejected t))) d), w).
Proof.
  pose proof (catch_rejected rt t) as Hc.
  destruct (message_fails rt (Rejected t)) eqn:Em.
  - rewrite Hc, (message_fails_kind rt _ Em). do 2 eexists. reflexivity.
  - destruct Hc as (m & d & E & _). rewrite E. now exists m, d.
Qed.

Ltac use_rethrow_catch rt t :=
  match goal with
  | |- context [FlightMCPServer.rethrow _ _ ?w0] =>
      let m := fresh "m" in
      let d := fresh "d" in
      let E := fresh "E" in
      destruct (rethrow_catch rt t w0) as (m & d & E); rewrite E;
      cbn [fst snd]
  end.

(** X13.  A search in live mode whose arguments are valid sends the
    provider exactly one request, which carries the validated values (the
    airport codes in upper case, the count of adults, the class in upper
    case, USD, at most 10 offers), and takes no random draw.  When the
    provider's search fails, the call fails with a domain error of the
    kind the failure mapping gives: it does not fall back on sample data.
    When it succeeds, the provider has answered with offers, their
    normalisation has returned, and the text is that of the normalised
    offers, marked as live data; were there none of them, the call would
    fail with FLIGHT_NOT_FOUND. *)
Theorem live_search_sends_one_request (rt : Runtime) (RawOffer : Type)
    (get : SearchRequest -> thrown + option (list RawOffer))
    (fmt : list RawOffer -> thrown + list FlightOffer)
    (fs : list (string * value)) (p : SearchParams) (w : World) :
  fields_valid rt fs p ->
  return_not_after rt p = false ->
  origin p <> destination p ->
  let out := FlightMCPServer.searchFlights rt RawOffer get fmt true
               (VObj fs) w in
  snd out = sent (FlightOffersSearch (validated_request p)) w
  /\ match failure_of (get (validated_request p)) fmt with
     | Some f =>
         exists m d, fst out = inl (FlightAPIError m (kind_code (kind f)) d)
     | None =>
         exists offers flights,
           get (validated_request p) = inr (Some offers)
           /\ offers <> []
           /\ fmt offers = inr flights
           /\ fst out
              = match flights with
                | [] =>
                    inl (FlightAPIError
                           "No flights found for the specified criteria"
                           "FLIGHT_NOT_FOUND"
                           [("origin", VStr (origin p));
                            ("destination", VStr (destination p));
                            ("date", VStr (departure_date p))])
                | _ =>
                    inr (text_block
                           (FlightMCPServer.formatFlightSearchResults rt true
                              flights (origin p) (destination p)
                              (departure_date p) (return_date p)))
                end
     end.
Proof.
  intros Hv Hna Hne. cbv zeta.
  unfold FlightMCPServer.searchFlights, bind.
  rewrite (validate_accepts rt fs p Hv w Hna Hne).
  unfold FlightMCPServer.searchFlights_try, AmadeusFlightService.searchFlights,
    AmadeusFlightService.await, try_catch, bind, send, throw, ret, failure_of.
  rewrite (requestParams_valid rt fs p Hv).
  destruct (get (validated_request p)) as [t | [[|o os]|]] eqn:Eget;
    cbn [fst snd].
  - use_rethrow_catch rt t.
    split; [reflexivity|]. now exists m, d.
  - split; [reflexivity|]. do 2 eexists. reflexivity.
  - destruct (fmt (o :: os)) as [t | flights] eqn:Ef; cbn [fst snd].
    + use_rethrow_catch rt t.
      split; [reflexivity|]. now exists m, d.
    + split; [destruct flights; reflexivity|].
      exists (o :: os), flights.
      split; [reflexivity|]. split; [discriminate|].
      split; [exact Ef|]. destruct flights; reflexivity.
  - split; [reflexivity|]. do 2 eexists. reflexivity.
Qed.

Lemma live_search_sends_one_request_witness :
  requests
    (snd (FlightMCPServer.searchFlights Sample.rt unit Sample.get_refused
            Sample.fmt true (VObj Sample.search_fields) Sample.halves))
  = [FlightOffersSearch
       {| originLocationCode := "LAX"; destinationLocationCode := "JFK";
          departureDate := "2025-12-25"; req_adults := 1;
          currencyCode := "USD"; max := 10; returnDate := None;
          travelClass := Some (Js.Text "ECONOMY") |}]
  /\ (exists m d,
        fst (FlightMCPServer.searchFlights Sample.rt unit Sample.get_refused
               Sample.fmt true (VObj Sample.search_fields) Sample.halves)
        = inl (FlightAPIError m "NETWORK_ERROR" d))
  /\ fst (FlightMCPServer.searchFlights Sample.rt unit Sample.get_one
            Sample.fmt_b6 true (VObj Sample.search_fields) Sample.halves)
     = inr (text_block
              (FlightMCPServer.formatFlightSearchResults Sample.rt true
                 [Sample.b6_offer] "LAX" "JFK" "2025-12-25" None)).
Proof.
  destruct (live_search_sends_one_request Sample.rt unit Sample.get_refused
              Sample.fmt Sample.search_fields Sample.search_params
              Sample.halves)
    as [Hw Hf].
  - repeat split.
  - reflexivity.
  - discriminate.
  - split; [rewrite Hw; reflexivity|]. split; [exact Hf|].
    destruct (live_search_sends_one_request Sample.rt unit Sample.get_one
                Sample.fmt_b6 Sample.search_fields Sample.search_params
                Sample.halves)
      as [_ (offers & flights & Eo & _ & Ef & E)].
    + repeat split.
    + reflexivity.
    + discriminate.
    + inversion Eo. subst offers. inversion Ef. subst flights. exact E.
Defined.

(** ** The tools listed and the tools served *)

Section Tools.
Variable rt : Runtime.
Variable RawOffer : Type.
Variable get : SearchRequest -> thrown + option (list RawOffer).
Variable loc : string -> thrown + option (list RawAirport).
Variable fmt : list RawOffer -> thrown + list FlightOffer.
Variable mode : bool.


(** X14.  The tools listed are the tools served.  A call of a name that is
    not listed is answered, whatever its arguments, with the domain error
    "Unknown tool" of kind GENERAL_ERROR, and leaves the world as it is.
    Every tool listed is dispatched to its operation: called without
    arguments, it fails on reading the first argument its schema
    requires. *)
Theorem listed_tools_are_served (n : string) (w : World) :
  (~ In n (List.map tool_name tools) ->
   forall args,
     FlightMCPServer.handler rt RawOffer get loc fmt mode
       {| name := n; arguments := args |} w
     = (inr (text_block
               ("Flight API Error: Unknown tool: " ++ n ++ bn ++ bn
                ++ "Error Code: GENERAL_ERROR")), w))
  /\ (forall t, In t tools -> tool_name t = n ->
        FlightMCPServer.callTool rt RawOffer get loc fmt mode
          {| name := n; arguments := VUndefined |} w
        = (inl (plain_error
                  ("Cannot read properties of undefined (reading '"
                   ++ hd "" (required t) ++ "')")), w)).
Proof.
  split.
  - intros Hn args. rewrite handler_eq. unfold FlightMCPServer.callTool.
    cbn [name arguments].
    destruct (String.eqb_spec n "search_flights") as [-> | _];
      [exfalso; apply Hn; cbn; tauto|].
    destruct (String.eqb_spec n "get_airport_info") as [-> | _];
      [exfalso; apply Hn; cbn; tauto|].
    destruct (String.eqb_spec n "get_flight_status") as [-> | _];
      [exfalso; apply Hn; cbn; tauto|].
    destruct (String.eqb_spec n "get_airline_info") as [-> | _];
      [exfalso; apply Hn; cbn; tauto|].
    reflexivity.
  - intros t Hin <-. unfold tools in Hin.
    repeat (destruct Hin as [<- | Hin]; [reflexivity|]). destruct Hin.
Qed.

Lemma airport_error (v : value) (e : exn) :
  validateAirportCode v = inl e ->
  exists m, e = ValidationError m "airport_code" v.
Proof.
  unfold validateAirportCode. destruct v; intros H;
    try (inversion H; eexists; reflexivity).
  destruct (negb (Js.truthy (VStr s)));
    [inversion H; eexists; reflexivity|].
  destruct (negb (String.length s =? 3)%nat);
    [inversion H; eexists; reflexivity|].
  destruct (negb (Regex.test Patterns.airport s));
    [inversion H; eexists; reflexivity | discriminate H].
Qed.

Lemma flight_number_error (v : value) (e : exn) :
  validateFlightNumber v = inl e ->
  exists m, e = ValidationError m "flight_number" v.
Proof.
  unfold validateFlightNumber. destruct v; intros H;
    try (inversion H; eexists; reflexivity).
  destruct (negb (Js.truthy (VStr s)));
    [inversion H; eexists; reflexivity|].
  destruct (negb (Regex.test Patterns.flight s));
    [inversion H; eexists; reflexivity | discriminate H].
Qed.

Lemma airport_falsy (v : value) :
  Js.truthy v = false ->
  validateAirportCode v
  = inl (ValidationError "Airport code is required" "airport_code" v).
Proof.
  intros H. unfold validateAirportCode. destruct v; try reflexivity.
  now rewrite H.
Qed.

Lemma flight_number_falsy (v : value) :
  Js.truthy v = false ->
  validateFlightNumber v
  = inl (ValidationError "Flight number is required" "flight_number" v).
Proof.
  intros H. unfold validateFlightNumber. destruct v; try reflexivity.
  now rewrite H.
Qed.

Lemma date_falsy (v : value) (f : string) :
  Js.truthy v = false ->
  validateDate rt v f = inl (ValidationError (f ++ " is required") f v).
Proof.
  intros H. unfold validateDate. destruct v; try reflexivity.
  now rewrite H.
Qed.

(** X15.  What a schema requires, the operation enforces: a call of a
    listed tool in which a required argument is missing, or is [null], the
    empty string or another falsy value, fails with a validation error,
    and nothing is drawn or requested. *)
Theorem required_arguments_enforced (t : Tool) (k : string)
    (fs : list (string * value)) (w : World) :
  In t tools -> In k (required t) ->
  Js.truthy (Js.field k fs) = false ->
  exists m f v,
    FlightMCPServer.callTool rt RawOffer get loc fmt mode
      {| name := tool_name t; arguments := VObj fs |} w
    = (inl (ValidationError m f v), w).
Proof.
  intros Ht Hk Hf. unfold tools in Ht.
  destruct Ht as [<- | [<- | [<- | [<- | []]]]];
    cbn [tool_name required] in Hk |- *.
  - change (FlightMCPServer.callTool rt RawOffer get loc fmt mode
              {| name := "search_flights"; arguments := VObj fs |} w)
      with (FlightMCPServer.searchFlights rt RawOffer get fmt mode
              (VObj fs) w).
    unfold FlightMCPServer.searchFlights,
      FlightMCPServer.searchFlights_validate, FlightMCPServer.prop,
      bind, lift, ret.
    destruct (validateAirportCode (Js.field "origin" fs)) as [e | o] eqn:Eo.
    { destruct (airport_error _ _ Eo) as [m ->].
      do 3 eexists. reflexivity. }
    destruct (validateAirportCode (Js.field "destination" fs))
      as [e | d] eqn:Ed.
    { destruct (airport_error _ _ Ed) as [m ->].
      do 3 eexists. reflexivity. }
    destruct Hk as [<- | [<- | [<- | []]]].
    + rewrite (airport_falsy _ Hf) in Eo. discriminate Eo.
    + rewrite (airport_falsy _ Hf) in Ed. discriminate Ed.
    + rewrite (date_falsy _ _ Hf). do 3 eexists. reflexivity.
  - destruct Hk as [<- | []].
    change (FlightMCPServer.callTool rt RawOffer get loc fmt mode
              {| name := "get_airport_info"; arguments := VObj fs |} w)
      with (FlightMCPServer.getAirportInfo rt loc mode (VObj fs) w).
    unfold FlightMCPServer.getAirportInfo, FlightMCPServer.getAirportInfo_try,
    FlightMCPServer.prop, bind, lift,
      ret.
    cbv beta iota. rewrite (airport_falsy _ Hf). do 3 eexists. reflexivity.
  - change (FlightMCPServer.callTool rt RawOffer get loc fmt mode
              {| name := "get_flight_status"; arguments := VObj fs |} w)
      with (FlightMCPServer.getFlightStatus rt (VObj fs) w).
    unfold FlightMCPServer.getFlightStatus, FlightMCPServer.prop, bind, lift,
      ret.
    destruct (validateFlightNumber (Js.field "flight_number" fs))
      as [e | n] eqn:En.
    { destruct (flight_number_error _ _ En) as [m ->].
      do 3 eexists. reflexivity. }
    destruct Hk as [<- | [<- | []]].
    + rewrite (flight_number_falsy _ Hf) in En. discriminate En.
    + rewrite (date_falsy _ _ Hf). do 3 eexists. reflexivity.
  - destruct Hk as [<- | []].
    change (FlightMCPServer.callTool rt RawOffer get loc fmt mode
              {| name := "get_airline_info"; arguments := VObj fs |} w)
      with (FlightMCPServer.getAirlineInfo (VObj fs) w).
    unfold FlightMCPServer.getAirlineInfo, FlightMCPServer.prop, bind, ret.
    cbv beta iota.
    destruct (Js.field "airline_code" fs) eqn:Ea;
      try (do 3 eexists; reflexivity).
    rewrite Hf. do 3 eexists. reflexivity.
Qed.

End Tools.

Lemma listed_tools_are_served_witness :
  FlightMCPServer.handler Sample.rt unit Sample.get Sample.loc Sample.fmt
    false {| name := "book_flight"; arguments := VObj [] |} Sample.halves
  = (inr (text_block
            ("Flight API Error: Unknown tool: book_flight" ++ bn ++ bn
             ++ "Error Code: GENERAL_ERROR")), Sample.halves).
Proof.
  apply (proj1 (listed_tools_are_served Sample.rt unit Sample.get Sample.loc
                  Sample.fmt false "book_flight" Sample.halves)).
  cbn. intros H. repeat (destruct H as [H | H]; [discriminate H|]). exact H.
Defined.

Lemma required_arguments_enforced_witness :
  exists m f v,
    FlightMCPServer.callTool Sample.rt unit Sample.get Sample.loc Sample.fmt
      true
      {| name := "search_flights";
         arguments := VObj [("origin", VStr "LAX");
                            ("destination", VStr "JFK");
                            ("departure_date", VNull)] |}
      Sample.halves
    = (inl (ValidationError m f v), Sample.halves).
Proof.
  apply (required_arguments_enforced Sample.rt unit Sample.get Sample.loc
           Sample.fmt true (hd (Build_Tool "" "" "" [] []) tools)
           "departure_date").
  - left. reflexivity.
  - cbn. tauto.
  - reflexivity.
Defined.

(** ** The synthetic offers in detail *)

Lemma mockFlight_details (o d dd : string) (a : Q) (c : string) (w : World) :
  draws_in_range w ->
  exists f,
    FlightMCPServer.mockFlight o d dd a c w = (inr f, advance 10 w)
    /\ mock_details o d dd a c f.
Proof.
  intros Hr.
  pose proof (floor_scaled0 _ 5 (Hr (cursor w)) ltac:(cbn; tauto)) as Hk.
  pose proof (floor_scaled _ 800 200 999 (Hr (2 + cursor w)%nat)
                ltac:(cbn; tauto)) as Hb.
  pose proof (floor_scaled _ 8 2 10 (Hr (3 + cursor w)%nat)
                ltac:(cbn; tauto)) as Hd.
  pose proof (floor_scaled0 _ 60 (Hr (8 + cursor w)%nat) ltac:(cbn; tauto))
    as Hm.
  pose proof (clock_time_at (advance 4 w) (draws_in_range_advance _ _ Hr))
    as Ht1.
  pose proof (clock_time_at (advance 6 w) (draws_in_range_advance _ _ Hr))
    as Ht2.
  destruct (at_index_Some FlightMCPServer.airlines
              (Math_floor (Js.mul (draws w (cursor w)) (inject_Z 5))))
    as [[code name] Ha];
    [change (Z.of_nat (length FlightMCPServer.airlines)) with 5; lia|].
  unfold FlightMCPServer.mockFlight, FlightMCPServer.generateRandomTime,
    bind, Math_random, ret.
  cbn [draws cursor requests].
  change (inject_Z (Z.of_nat (length FlightMCPServer.airlines)))
    with (inject_Z 5).
  rewrite Ha. cbn [draws cursor requests].
  eexists. split; [reflexivity|].
  unfold mock_details.
  cbn [offer_origin offer_destination offer_departure_date
       offer_travel_class price_currency aircraft booking_class segments
       price_per_person price_amount departure_time arrival_time duration
       stops].
  repeat (split; [reflexivity|]).
  split.
  { eexists. split; [exact Hb|]. split; reflexivity. }
  split; [exact Ht1|]. split; [exact Ht2|].
  split.
  { do 2 eexists. split; [exact Hd|]. split; [exact Hm|]. reflexivity. }
  destruct (Js.gt _ _); tauto.
Qed.

Lemma mockLoop_details (o d dd : string) (a : Q) (c : string) (n : nat) :
  forall (acc : list FlightOffer) (w : World),
    draws_in_range w ->
    Forall (mock_details o d dd a c) acc ->
    exists flights,
      fst (FlightMCPServer.mockLoop n acc o d dd a c w) = inr flights
      /\ Forall (mock_details o d dd a c) flights.
Proof.
  induction n as [|n IH]; intros acc w Hr Hacc.
  - exists acc. now split.
  - destruct (mockFlight_details o d dd a c w Hr) as (f & Ef & Hf).
    cbn [FlightMCPServer.mockLoop]. unfold bind. rewrite Ef.
    apply IH; [now apply draws_in_range_advance|].
    apply Forall_app. split; [exact Hacc | now constructor].
Qed.

(** X16.  Every offer of the synthetic generator repeats the origin, the
    destination, the date and the class it was asked for, is priced in USD
    at a whole amount per person from 200 to 999 times the number of
    adults, departs and arrives at a time HH:MM between 00:00 and 23:59,
    lasts from 2 to 10 hours and 0 to 59 minutes, has no or one stop, and
    always the same aircraft and booking class.  The return date asked for
    changes nothing.  The 10 hours of the source's comment are reached:
    when the draw is the greatest double below 1, the sum [draw * 8 + 2]
    rounds to 10, and the offer lasts 10h 59m. *)
Theorem mock_offers_in_detail (o d dd : string) (r : option string)
    (a : Q) (c : string) (w : World) :
  draws_in_range w ->
  (exists flights,
     fst (FlightMCPServer.generateMockFlights o d dd r a c w) = inr flights
     /\ Forall (mock_details o d dd a c) flights)
  /\ FlightMCPServer.generateMockFlights o d dd r a c w
     = FlightMCPServer.generateMockFlights o d dd None a c w
  /\ (draws_in_range Sample.highest
      /\ exists flights,
           fst (FlightMCPServer.generateMockFlights "LAX" "JFK" "2025-12-25"
                  None 1 "economy" Sample.highest) = inr flights
           /\ length flights = 5%nat
           /\ Forall (fun f => duration f = duration_text 10 59) flights).
Proof.
  intros Hr. split; [|split; [reflexivity|]].
  - destruct (mockLoop_details o d dd a c 5 [] w Hr (Forall_nil _))
      as (flights & E & Hall).
    exists (FlightMCPServer.sort_by_amount flights).
    unfold FlightMCPServer.generateMockFlights, bind.
    destruct (FlightMCPServer.mockLoop 5 [] o d dd a c w) as [[e | fl] w'];
      cbn [fst] in E; [discriminate E|].
    inversion E. subst fl. split; [reflexivity|].
    eapply Permutation_Forall; [apply sort_by_amount_perm | exact Hall].
  - split; [intros n; repeat split; vm_compute; congruence|].
    eexists. split; [vm_compute; reflexivity|].
    split; [reflexivity|]. repeat constructor.
Qed.

Lemma mock_offers_in_detail_witness :
  exists flights,
    fst (FlightMCPServer.generateMockFlights "LAX" "JFK" "2025-12-25"
           (Some "2026-01-05") 2 "business" Sample.halves) = inr flights
    /\ Forall (mock_details "LAX" "JFK" "2025-12-25" 2 "business") flights.
Proof.
  apply (mock_offers_in_detail "LAX" "JFK" "2025-12-25" (Some "2026-01-05")
           2 "business" Sample.halves).
  intros n. repeat split; vm_compute; congruence.
Defined.

(** ** The flight numbers of the offers and the flight status *)

Lemma digit_classes (c : ascii) :
  Str.isDigit c = true -> Str.isAlpha c = false /\ Str.upper c = c.
Proof. each_ascii c; vm_compute; split; congruence. Qed.

Lemma toUpperCase_digits (s : string) :
  Str.all Str.isDigit s = true -> Str.toUpperCase s = s.
Proof.
  unfold Str.toUpperCase. induction s as [|c s IH]; [reflexivity|].
  cbn [Str.all Str.map]. intros H. apply andb_true_iff in H.
  destruct H as [Hc Hs]. now rewrite (proj2 (digit_classes c Hc)), IH.
Qed.

Lemma toUpperCase_app (a b : string) :
  Str.toUpperCase (a ++ b) = Str.toUpperCase a ++ Str.toUpperCase b.
Proof.
  unfold Str.toUpperCase. induction a as [|c a IH]; [reflexivity|].
  cbn [append Str.map]. now rewrite IH.
Qed.

Lemma shape_two_letters (a b d1 d2 d3 d4 : ascii) :
  Str.isAlpha a = true -> Str.isAlpha b = true ->
  Str.isDigit d1 = true -> Str.isDigit d2 = true ->
  Str.isDigit d3 = true -> Str.isDigit d4 = true ->
  flight_number_shape
    (String a (String b (String d1 (String d2 (String d3 (String d4 ""))))))
  = true.
Proof.
  intros Ha Hb H1 H2 H3 H4. unfold flight_number_shape.
  cbn [leading after]. rewrite Ha, Hb, (proj1 (digit_classes d1 H1)).
  cbn [String.length Nat.leb andb Str.all]. now rewrite H1, H2, H3, H4.
Qed.

Lemma shape_letter_digit (a b : ascii) (s : string) :
  Str.isAlpha a = true -> Str.isDigit b = true ->
  flight_number_shape (String a (String b s)) = false.
Proof.
  intros Ha Hb. unfold flight_number_shape.
  cbn [leading after]. now rewrite Ha, (proj1 (digit_classes b Hb)).
Qed.

Lemma mock_number_validation (code name : string) (n : Z) :
  In (code, name) FlightMCPServer.airlines -> 1000 <= n <= 9999 ->
  validateFlightNumber (VStr (code ++ Str.ofZ n))
  = if String.eqb name "JetBlue Airways" then
      inl (ValidationError
             "Flight number must be in format: AA123, DL1234, etc."
             "flight_number" (VStr (code ++ Str.ofZ n)))
    else inr (code ++ Str.ofZ n).
Proof.
  intros Hin Hn.
  pose proof suffixes_checked as H.
  rewrite forallb_forall in H. specialize (H n (suffixes_spec n Hn)).
  unfold four_digits in H. apply andb_true_iff in H. destruct H as [Hlen Hd].
  apply Nat.eqb_eq in Hlen.
  pose proof (toUpperCase_digits _ Hd) as Hup.
  unfold validateFlightNumber.
  rewrite flight_test_shape, toUpperCase_app, Hup.
  destruct (Str.ofZ n) as [|d1 [|d2 [|d3 [|d4 [|d5 s]]]]];
    try discriminate Hlen.
  cbn [Str.all] in Hd.
  repeat (apply andb_true_iff in Hd; destruct Hd as [? Hd]).
  unfold FlightMCPServer.airlines in Hin.
  destruct Hin as [Hin | [Hin | [Hin | [Hin | [Hin | []]]]]];
    inversion Hin; subst code name; cbn [append];
    try (rewrite shape_two_letters by (assumption || reflexivity);
         reflexivity).
  rewrite shape_letter_digit by reflexivity. reflexivity.
Qed.

(** X17.  The server does not accept all the flight numbers it hands out:
    of the offers of a Fallback search, the flight numbers of American,
    Delta, United and Southwest pass [validateFlightNumber], the
    validator of the flight status, unchanged, and those of JetBlue, whose
    carrier code B6 holds a digit, are rejected as ill-formed. *)
Theorem mock_flight_numbers_and_status (o d dd : string) (r : option string)
    (a : Q) (c : string) (w : World) :
  draws_in_range w ->
  exists flights,
    fst (FlightMCPServer.generateMockFlights o d dd r a c w) = inr flights
    /\ Forall
         (fun f =>
            validateFlightNumber (VStr (flight_number f))
            = if String.eqb (airline f) "JetBlue Airways" then
                inl (ValidationError
                       "Flight number must be in format: AA123, DL1234, etc."
                       "flight_number" (VStr (flight_number f)))
              else inr (flight_number f))
         flights.
Proof.
  intros Hr.
  destruct (generateMockFlights_ok o d dd r a c w Hr)
    as (pre & flights & _ & E & _ & _ & _ & Hall & _).
  exists flights. rewrite E. split; [reflexivity|].
  eapply Forall_impl; [|exact Hall].
  intros f (code & name & n & bp & Hin & Hn & _ & Ha & Hf & _).
  rewrite Ha, Hf. now apply mock_number_validation.
Qed.

Lemma mock_flight_numbers_and_status_witness :
  exists flights,
    fst (FlightMCPServer.generateMockFlights "LAX" "JFK" "2025-12-25" None
           1 "economy" Sample.nine_tenths) = inr flights
    /\ Forall
         (fun f =>
            validateFlightNumber (VStr (flight_number f))
            = if String.eqb (airline f) "JetBlue Airways" then
                inl (ValidationError
                       "Flight number must be in format: AA123, DL1234, etc."
                       "flight_number" (VStr (flight_number f)))
              else inr (flight_number f))
         flights.
Proof.
  apply (mock_flight_numbers_and_status "LAX" "JFK" "2025-12-25" None 1
           "economy" Sample.nine_tenths).
  intros n. repeat split; vm_compute; congruence.
Defined.

(** ** The probe at start-up *)

(** Whatever the client's [catch] throws has a message that is a string. *)
Lemma catch_message (rt : Runtime) (t : thrown) :
  exists m,
    exn_message (AmadeusFlightService.searchFlights_catch rt (Thrown t))
    = VStr m.
Proof.
  pose proof (catch_rejected rt t) as Hc.
  destruct (message_fails rt (Rejected t)).
  - rewrite Hc. eexists. reflexivity.
  - destruct Hc as (m & d & E & _). rewrite E. now exists m.
Qed.

(** X18.  The probe at start-up never throws and sends the provider one
    request: NYC to LAX on 2025-12-25, one adult, economy.  It switches the
    server to live mode exactly when the provider answers with at least
    one offer and the normalisation of the offers returns at least one;
    a rejection, an empty answer or a failure of the normalisation leaves
    the server in Fallback mode. *)
Theorem probe_outcome (rt : Runtime) (RawOffer : Type)
    (get : SearchRequest -> thrown + option (list RawOffer))
    (fmt : list RawOffer -> thrown + list FlightOffer) (w : World) :
  Startup.testAmadeusConnection rt RawOffer get fmt w
  = (inr match get probe_request with
         | inr (Some (o :: os)) =>
             match fmt (o :: os) with
             | inr (_ :: _) => true
             | _ => false
             end
         | _ => false
         end,
     sent (FlightOffersSearch probe_request) w).
Proof.
  unfold Startup.testAmadeusConnection, AmadeusFlightService.searchFlights,
    AmadeusFlightService.await, try_catch, bind, send, throw, ret.
  change (AmadeusFlightService.requestParams Startup.testSearchParams)
    with probe_request.
  unfold Startup.message_includes.
  destruct (get probe_request) as [t | [[|o os]|]]; try reflexivity.
  - destruct (catch_message rt t) as [m E]. now rewrite E.
  - destruct (fmt (o :: os)) as [t | [|f fl]]; try reflexivity.
    destruct (catch_message rt t) as [m E]. now rewrite E.
Qed.

(** ** The lookups *)

Lemma validateAirportCode_accepts (s : string) :
  String.length s = 3%nat -> Str.all Str.isAlpha s = true ->
  validateAirportCode (VStr s) = inr (Str.toUpperCase s).
Proof.
  intros Hlen Hall. unfold validateAirportCode.
  rewrite airport_test_shape, Hlen, Hall.
  destruct s; [discriminate Hlen | reflexivity].
Qed.

Lemma table_get_none {A} (k : string) (t : list (string * A)) :
  one_of (List.map fst t) k = false -> FlightMCPServer.table_get k t = None.
Proof.
  unfold one_of. induction t as [|[k' v] t IH]; [reflexivity|].
  cbn [List.map fst existsb FlightMCPServer.table_get].
  intros H. apply orb_false_iff in H. destruct H as [Hk Ht].
  rewrite String.eqb_sym, Hk. exact (IH Ht).
Qed.

Lemma ends_with_refl (e : string) : exists b, e = b ++ e.
Proof. now exists "". Qed.

Lemma ends_with_step (x t e : string) :
  (exists b, t = b ++ e) -> exists b, x ++ t = b ++ e.
Proof. intros [b ->]. exists (x ++ b). now rewrite append_assoc. Qed.

(** X19.  The airport lookup in Fallback mode, for a code of three
    letters in any case: the code in upper case is looked up among LAX,
    JFK, LHR and NRT.  One of these is answered with the data the sample
    table holds for it: after the heading, the code, the name, the city,
    the country, the time zone and the coordinates, one to a line, and the
    mark "Sample data".  Any other is a domain error INVALID_AIRPORT_CODE
    that carries the upper-case code.  Nothing is drawn or requested. *)
Theorem fallback_airport_lookup (rt : Runtime)
    (loc : string -> thrown + option (list RawAirport))
    (fs : list (string * value)) (s : string) (w : World) :
  Js.field "airport_code" fs = VStr s ->
  String.length s = 3%nat -> Str.all Str.isAlpha s = true ->
  let code := Str.toUpperCase s in
  let out := FlightMCPServer.getAirportInfo rt loc false (VObj fs) w in
  snd out = w
  /\ if one_of sample_airports code then
       exists name city country timezone lat lon,
         FlightMCPServer.table_get code FlightMCPServer.mockAirports
         = Some (FlightMCPServer.mockAirport code name city country timezone
                   lat lon)
         /\ fst out
            = inr (text_block
                     (lines
                        (airport_lines code name city country timezone
                           (Js.number_toString rt lat)
                           (Js.number_toString rt lon) "Sample data")))
     else
       fst out
       = inl (FlightAPIError
                ("Airport information not found for code: " ++ code)
                "INVALID_AIRPORT_CODE" [("airport_code", VStr code)]).
Proof.
  intros Hf Hlen Hall. cbv zeta.
  unfold FlightMCPServer.getAirportInfo, FlightMCPServer.getAirportInfo_try,
    FlightMCPServer.prop, bind, lift,
    ret, try_catch.
  cbv beta iota. rewrite Hf, (validateAirportCode_accepts s Hlen Hall).
  destruct (one_of sample_airports (Str.toUpperCase s)) eqn:E.
  - unfold one_of, sample_airports in E. cbn [existsb] in E.
    repeat (apply orb_true_iff in E; destruct E as [E | E];
            [apply String.eqb_eq in E; rewrite E; split; [reflexivity|];
             do 6 eexists; split; [reflexivity|];
             unfold lines, airport_lines; cbn [String.concat];
             rewrite !append_assoc; reflexivity|]).
    discriminate E.
  - rewrite (table_get_none _ FlightMCPServer.mockAirports E).
    split; reflexivity.
Qed.

Lemma fallback_airport_lookup_witness :
  fst (FlightMCPServer.getAirportInfo Sample.rt Sample.loc false
         (VObj [("airport_code", VStr "jfk")]) Sample.halves)
  = inr (text_block
           (lines
              ["Airport Information"; "";
               "Code: JFK";
               "Name: John F. Kennedy International Airport";
               "City: New York";
               "Country: United States";
               "Timezone: America/New_York";
               "Coordinates: 1.5, 1.5";
               "";
               "Sample data"]))
  /\ fst (FlightMCPServer.getAirportInfo Sample.rt Sample.loc false
            (VObj [("airport_code", VStr "sfo")]) Sample.halves)
     = inl (FlightAPIError "Airport information not found for code: SFO"
              "INVALID_AIRPORT_CODE" [("airport_code", VStr "SFO")]).
Proof.
  split.
  - destruct (proj2 (fallback_airport_lookup Sample.rt Sample.loc
                       [("airport_code", VStr "jfk")] "jfk" Sample.halves
                       eq_refl eq_refl eq_refl))
      as (name & city & country & timezone & lat & lon & Et & E).
    rewrite E. inversion Et. reflexivity.
  - exact (proj2 (fallback_airport_lookup Sample.rt Sample.loc
                    [("airport_code", VStr "sfo")] "sfo" Sample.halves
                    eq_refl eq_refl eq_refl)).
Defined.

(** X20.  The airline lookup, for a code of two or three letters in any
    case: the code in upper case is looked up among AA, DL, UA and LH.  One
    of these is answered with the data the table holds for it: after the
    heading, the code, the name, the country, the year of foundation, the
    main hub, the fleet size and the destinations, one to a line.  Any
    other is a domain error, of kind FLIGHT_NOT_FOUND, that carries the
    upper-case code.  A code of three letters passes the validation and is
    never found.  Nothing is drawn or requested. *)
Theorem airline_lookup (fs : list (string * value)) (s : string) (w : World) :
  Js.field "airline_code" fs = VStr s ->
  airline_code_shape s = true ->
  let code := Str.toUpperCase s in
  let out := FlightMCPServer.getAirlineInfo (VObj fs) w in
  snd out = w
  /\ (if one_of sample_airlines code then
        exists a,
          FlightMCPServer.table_get code FlightMCPServer.mockAirlines = Some a
          /\ fst out = inr (text_block (lines (airline_lines code a)))
      else
        fst out
        = inl (FlightAPIError
                 ("Airline information not found for code: " ++ code)
                 "FLIGHT_NOT_FOUND" [("airline_code", VStr code)]))
  /\ (String.length s = 3%nat -> one_of sample_airlines code = false).
Proof.
  intros Hf Hs. cbv zeta.
  assert (Hne : Js.truthy (VStr s) = true).
  { destruct s; [discriminate Hs | reflexivity]. }
  unfold FlightMCPServer.getAirlineInfo, FlightMCPServer.prop, bind, ret,
    throw.
  cbv beta iota. rewrite Hf, Hne, airline_test_shape, Hs. cbn [negb].
  assert (Hin : one_of sample_airlines (Str.toUpperCase s) = true ->
                String.length s = 2%nat).
  { intros E. rewrite <- length_toUpperCase.
    unfold one_of, sample_airlines in E. cbn [existsb] in E.
    repeat (apply orb_true_iff in E; destruct E as [E | E];
            [apply String.eqb_eq in E; now rewrite E|]).
    discriminate E. }
  destruct (one_of sample_airlines (Str.toUpperCase s)) eqn:E.
  - split; [|split; [|intros H3; specialize (Hin eq_refl); lia]].
    + unfold one_of, sample_airlines in E. cbn [existsb] in E.
      repeat (apply orb_true_iff in E; destruct E as [E | E];
              [apply String.eqb_eq in E; rewrite E; reflexivity|]).
      discriminate E.
    + unfold one_of, sample_airlines in E. cbn [existsb] in E.
      repeat (apply orb_true_iff in E; destruct E as [E | E];
              [apply String.eqb_eq in E; rewrite E;
               cbn [FlightMCPServer.table_get FlightMCPServer.mockAirlines
                    String.eqb Ascii.eqb Bool.eqb fst];
               eexists; split; reflexivity|]).
      discriminate E.
  - rewrite (table_get_none _ FlightMCPServer.mockAirlines E).
    repeat split.
Qed.

Lemma airline_lookup_witness :
  fst (FlightMCPServer.getAirlineInfo
         (VObj [("airline_code", VStr "lh")]) Sample.halves)
  = inr (text_block
           (lines
              ["Airline Information"; "";
               "Code: LH";
               "Name: Lufthansa";
               "Country: Germany";
               "Founded: 1953";
               "Main Hub: Frankfurt Airport";
               "Fleet Size: 300+";
               "Destinations: 220+"]))
  /\ fst (FlightMCPServer.getAirlineInfo
            (VObj [("airline_code", VStr "DLH")]) Sample.halves)
     = inl (FlightAPIError "Airline information not found for code: DLH"
              "FLIGHT_NOT_FOUND" [("airline_code", VStr "DLH")]).
Proof.
  split.
  - destruct (proj1 (proj2 (airline_lookup [("airline_code", VStr "lh")] "lh"
                              Sample.halves eq_refl eq_refl)))
      as (a & Et & E).
    rewrite E. inversion Et. reflexivity.
  - exact (proj1 (proj2 (airline_lookup [("airline_code", VStr "DLH")] "DLH"
                           Sample.halves eq_refl eq_refl))).
Defined.

Lemma try_bind_returned {A B} (m : M A) (k : A -> M B) (h : exn -> M B)
    (w : World) (a : A) (w1 : World) :
  m w = (inr a, w1) -> try_catch (bind m k) h w = try_catch (k a) h w1.
Proof. intros E. unfold try_catch, bind. now rewrite E. Qed.

Lemma try_bind_thrown {A B} (m : M A) (k : A -> M B) (h : exn -> M B)
    (w : World) (e : exn) (w1 : World) :
  m w = (inl e, w1) -> try_catch (bind m k) h w = h e w1.
Proof. intros E. unfold try_catch, bind. now rewrite E. Qed.

(** The seven templates of the airport text, run one after the other. *)
Lemma airport_templates (rt : Runtime) (live : bool) (a : Airport)
    (w : World) (h : exn -> M payload) :
  try_catch
    (code <- lift (template rt (ap_code a)) ;;
     name <- lift (template rt (ap_name a)) ;;
     city <- lift (template rt (ap_city a)) ;;
     country <- lift (template rt (ap_country a)) ;;
     timezone <- lift (template rt (ap_timezone a)) ;;
     lat <- lift (template rt (ap_lat a)) ;;
     lon <- lift (template rt (ap_lon a)) ;;
     ret (text_block
            ("Airport Information" ++ bn ++ bn
             ++ "Code: " ++ code ++ bn
             ++ "Name: " ++ name ++ bn
             ++ "City: " ++ city ++ bn
             ++ "Country: " ++ country ++ bn
             ++ "Timezone: " ++ timezone ++ bn
             ++ "Coordinates: " ++ lat ++ ", " ++ lon ++ bn ++ bn
             ++ (if live then "Data from Amadeus API" else "Sample data"))))
    h w
  = match texts rt [ap_code a; ap_name a; ap_city a; ap_country a;
                    ap_timezone a; ap_lat a; ap_lon a] with
    | Some [code; name; city; country; timezone; lat; lon] =>
        (inr (text_block
                (lines
                   (airport_lines code name city country timezone lat lon
                      (if live then "Data from Amadeus API"
                       else "Sample data")))), w)
    | _ => h cannot_convert w
    end.
Proof.
  unfold try_catch, bind, lift, ret, template, texts.
  destruct (Js.toString rt (ap_code a)); [|reflexivity].
  destruct (Js.toString rt (ap_name a)); [|reflexivity].
  destruct (Js.toString rt (ap_city a)); [|reflexivity].
  destruct (Js.toString rt (ap_country a)); [|reflexivity].
  destruct (Js.toString rt (ap_timezone a)); [|reflexivity].
  destruct (Js.toString rt (ap_lat a)); [|reflexivity].
  destruct (Js.toString rt (ap_lon a)); [|reflexivity].
  unfold lines, airport_lines. cbn [String.concat].
  rewrite !append_assoc. reflexivity.
Qed.

(** X21.  The airport lookup in live mode, for a code of three letters:
    one request is sent, a search of the locations of subtype AIRPORT for
    the code in upper case, limited to one result, and nothing is drawn.
    A rejection by the provider, of whatever kind (a refused connection
    and a 429 included), is reported as API_UNAVAILABLE with the
    provider's message; an answer without data as INVALID_AIRPORT_CODE.
    Otherwise the text shows the first location returned: after the
    heading, its code, its name, its city, country and time zone
    ("Unknown" for one that is missing), its coordinates (0 for one that is
    missing), one to a line, and the mark "Data from Amadeus API" -- unless
    one of these values has no conversion to a string: the call then fails
    with API_UNAVAILABLE and the message of the [TypeError]. *)
Theorem live_airport_lookup (rt : Runtime)
    (loc : string -> thrown + option (list RawAirport))
    (fs : list (string * value)) (s : string) (w : World) :
  Js.field "airport_code" fs = VStr s ->
  String.length s = 3%nat -> Str.all Str.isAlpha s = true ->
  let code := Str.toUpperCase s in
  let out := FlightMCPServer.getAirportInfo rt loc true (VObj fs) w in
  snd out = sent (LocationsSearch code "AIRPORT" 1) w
  /\ match loc code with
     | inl t =>
         fst out
         = inl (FlightAPIError "Failed to get airport information"
                  "API_UNAVAILABLE" [("originalError", th_message t)])
     | inr None | inr (Some []) =>
         fst out
         = inl (FlightAPIError
                  ("Airport information not found for code: " ++ code)
                  "INVALID_AIRPORT_CODE" [("airport_code", VStr code)])
     | inr (Some (airport :: _)) =>
         match texts rt (printed airport) with
         | Some [code'; name; city; country; timezone; lat; lon] =>
             fst out
             = inr (text_block
                      (lines
                         (airport_lines code' name city country timezone
                            lat lon "Data from Amadeus API")))
         | _ =>
             fst out
             = inl (FlightAPIError "Failed to get airport information"
                      "API_UNAVAILABLE"
                      [("originalError",
                        VStr "Cannot convert object to primitive value")])
         end
     end.
Proof.
  intros Hf Hlen Hall. cbv zeta.
  assert (E : FlightMCPServer.getAirportInfo rt loc true (VObj fs) w
              = FlightMCPServer.getAirportInfo_try rt loc true
                  (Str.toUpperCase s) w).
  { unfold FlightMCPServer.getAirportInfo, FlightMCPServer.prop, bind, lift,
      ret.
    now rewrite Hf, (validateAirportCode_accepts s Hlen Hall). }
  rewrite E. clear E. unfold FlightMCPServer.getAirportInfo_try.
  set (code := Str.toUpperCase s).
  destruct (loc code) as [t | [[|a l]|]] eqn:El.
  - rewrite (try_bind_thrown
               (AmadeusFlightService.getAirportInfo loc code) _ _ w
               (FlightAPIError "Failed to get airport information"
                  "API_UNAVAILABLE" [("originalError", th_message t)])
               (sent (LocationsSearch code "AIRPORT" 1) w)).
    + split; reflexivity.
    + unfold AmadeusFlightService.getAirportInfo, AmadeusFlightService.await,
        try_catch, bind, send, throw, ret.
      now rewrite El.
  - rewrite (try_bind_thrown
               (AmadeusFlightService.getAirportInfo loc code) _ _ w
               (FlightAPIError
                  ("Airport information not found for code: " ++ code)
                  "INVALID_AIRPORT_CODE" [("airport_code", VStr code)])
               (sent (LocationsSearch code "AIRPORT" 1) w)).
    + split; reflexivity.
    + unfold AmadeusFlightService.getAirportInfo, AmadeusFlightService.await,
        try_catch, bind, send, throw, ret.
      now rewrite El.
  - rewrite (try_bind_returned
               (AmadeusFlightService.getAirportInfo loc code) _ _ w
               {| ap_code := iataCode a;
                  ap_name := raw_name a;
                  ap_city :=
                    AmadeusFlightService.or_else (cityName a)
                      (VStr "Unknown");
                  ap_country :=
                    AmadeusFlightService.or_else (countryName a)
                      (VStr "Unknown");
                  ap_timezone :=
                    AmadeusFlightService.or_else (timeZoneOffset a)
                      (VStr "Unknown");
                  ap_lat :=
                    AmadeusFlightService.or_else (latitude a) (VNum 0);
                  ap_lon :=
                    AmadeusFlightService.or_else (longitude a) (VNum 0) |}
               (sent (LocationsSearch code "AIRPORT" 1) w)).
    + cbv beta.
      match goal with
      | |- context [try_catch _ ?h ?w0] =>
          match goal with
          | |- context [ap_code ?r] =>
              pose proof (airport_templates rt true r w0 h) as Ht
          end
      end.
      cbv beta in Ht. rewrite Ht. clear Ht.
      cbn [ap_code ap_name ap_city ap_country ap_timezone ap_lat ap_lon].
      change (texts rt _) with (texts rt (printed a)).
      destruct (texts rt (printed a))
        as [[|c1 [|c2 [|c3 [|c4 [|c5 [|c6 [|c7 [|c8 r]]]]]]]]|];
        split; reflexivity.
    + unfold AmadeusFlightService.getAirportInfo, AmadeusFlightService.await,
        try_catch, bind, send, throw, ret.
      now rewrite El.
  - rewrite (try_bind_thrown
               (AmadeusFlightService.getAirportInfo loc code) _ _ w
               (FlightAPIError
                  ("Airport information not found for code: " ++ code)
                  "INVALID_AIRPORT_CODE" [("airport_code", VStr code)])
               (sent (LocationsSearch code "AIRPORT" 1) w)).
    + split; reflexivity.
    + unfold AmadeusFlightService.getAirportInfo, AmadeusFlightService.await,
        try_catch, bind, send, throw, ret.
      now rewrite El.
Qed.

Lemma live_airport_lookup_witness :
  fst (FlightMCPServer.getAirportInfo Sample.rt Sample.loc_jfk true
         (VObj [("airport_code", VStr "jfk")]) Sample.halves)
  = inr (text_block
           (lines
              ["Airport Information"; "";
               "Code: JFK";
               "Name: JOHN F KENNEDY INTL";
               "City: NEW YORK";
               "Country: Unknown";
               "Timezone: -04:00";
               "Coordinates: 40, -74";
               "";
               "Data from Amadeus API"]))
  /\ fst (FlightMCPServer.getAirportInfo Sample.rt Sample.loc_odd true
            (VObj [("airport_code", VStr "jfk")]) Sample.halves)
     = inl (FlightAPIError "Failed to get airport information"
              "API_UNAVAILABLE"
              [("originalError",
                VStr "Cannot convert object to primitive value")])
  /\ fst (FlightMCPServer.getAirportInfo Sample.rt Sample.loc true
            (VObj [("airport_code", VStr "jfk")]) Sample.halves)
     = inl (FlightAPIError "Airport information not found for code: JFK"
              "INVALID_AIRPORT_CODE" [("airport_code", VStr "JFK")]).
Proof.
  split; [|split].
  - exact (proj2 (live_airport_lookup Sample.rt Sample.loc_jfk
                    [("airport_code", VStr "jfk")] "jfk" Sample.halves
                    eq_refl eq_refl eq_refl)).
  - exact (proj2 (live_airport_lookup Sample.rt Sample.loc_odd
                    [("airport_code", VStr "jfk")] "jfk" Sample.halves
                    eq_refl eq_refl eq_refl)).
  - exact (proj2 (live_airport_lookup Sample.rt Sample.loc
                    [("airport_code", VStr "jfk")] "jfk" Sample.halves
                    eq_refl eq_refl eq_refl)).
Defined.

(** ** The schemas and the validators *)

(** X22.  The input schema of [search_flights] and the validators agree:
    an integer count of adults is accepted exactly when it lies between
    the [minimum] and the [maximum] of the schema, and a non-empty string
    is accepted as travel class exactly when it is one of the schema's
    [enum]. *)
Theorem schema_agrees_with_validators (adults_schema class_schema : Property)
    (lo hi : Z) (classes : list string) :
  schema_of "search_flights" "adults" = Some adults_schema ->
  minimum adults_schema = Some lo -> maximum adults_schema = Some hi ->
  schema_of "search_flights" "travel_class" = Some class_schema ->
  enum class_schema = Some classes ->
  (forall n : Z,
     is_validation_error (validatePassengerCount (VNum (inject_Z n)))
     = negb ((lo <=? n) && (n <=? hi)))
  /\ (forall c : string,
        c <> "" ->
        is_validation_error (validateTravelClass (VStr c))
        = negb (one_of classes c)).
Proof.
  intros Ha Hlo Hhi Hc He.
  vm_compute in Ha. inversion Ha. subst adults_schema. clear Ha.
  vm_compute in Hc. inversion Hc. subst class_schema. clear Hc.
  cbn in Hlo, Hhi, He. inversion Hlo. inversion Hhi. inversion He.
  subst lo hi classes. clear Hlo Hhi He.
  split.
  - intros n. unfold validatePassengerCount. rewrite passenger_test.
    destruct (one_to_nine (inject_Z n)) eqn:E; cbn [is_validation_error negb].
    + apply one_to_nine_spec in E. destruct E as (k & Hk & Hq).
      assert (n = k).
      { unfold Qeq, inject_Z in Hq. cbn in Hq. lia. }
      subst k. symmetry. apply negb_false_iff.
      apply andb_true_iff. split; lia.
    + symmetry. apply negb_true_iff. apply andb_false_iff.
      destruct (Z.leb_spec 1 n); [|now left].
      destruct (Z.leb_spec n 9); [|now right].
      exfalso.
      assert (Ht : one_to_nine (inject_Z n) = true)
        by (apply one_to_nine_spec; exists n; split; [lia | reflexivity]).
      congruence.
  - intros c Hne. unfold validateTravelClass.
    assert (Ht : Js.truthy (VStr c) = true).
    { destruct c; [contradiction | reflexivity]. }
    rewrite Ht. cbn [andb].
    assert (Ei : includes validClasses (VStr c)
                 = one_of ["economy"; "premium_economy"; "business"; "first"]
                     c).
    { unfold includes, one_of, validClasses. cbn [existsb Js.is_string].
      reflexivity. }
    rewrite Ei.
    now destruct (one_of _ c).
Qed.

Lemma schema_agrees_with_validators_witness :
  is_validation_error (validatePassengerCount (VNum (inject_Z 10))) = true
  /\ is_validation_error (validateTravelClass (VStr "first")) = false.
Proof.
  destruct (schema_agrees_with_validators
              {| prop_type := "integer";
                 prop_description := "Number of adult passengers (default: 1)";
                 minimum := Some 1; maximum := Some 9; enum := None |}
              {| prop_type := "string";
                 prop_description := "Travel class preference";
                 minimum := None; maximum := None;
                 enum := Some ["economy"; "premium_economy"; "business";
                               "first"] |}
              1 9 ["economy"; "premium_economy"; "business"; "first"]
              eq_refl eq_refl eq_refl eq_refl eq_refl)
    as [Hn Hc].
  split.
  - exact (Hn 10).
  - apply (Hc "first"). discriminate.
Defined.

(** ** The offers of a live search *)

Lemma formatFlightOffers_by_length {RawOffer : Type}
    (formatOne : RawOffer -> thrown + FlightOffer) (offers : list RawOffer) :
  forall flights,
    formatFlightOffers_by formatOne offers = inr flights ->
    length flights = length offers.
Proof.
  induction offers as [|o offers IH]; intros flights H; cbn in H.
  - now inversion H.
  - destruct (formatOne o); [discriminate H|].
    destruct (formatFlightOffers_by formatOne offers); [discriminate H|].
    inversion H. cbn. f_equal. now apply IH.
Qed.

(** X23.  In live mode the text of a search shows as many offers as the
    provider returned, and the server's own test for an empty result never
    fires: a valid search either fails with the error of the failure
    mapping or returns the text of one offer at least.  Likewise the probe
    at start-up chooses live mode as soon as the provider's answer holds an
    offer and the normalisation does not throw. *)
Theorem live_search_shows_every_offer (rt : Runtime) (RawOffer : Type)
    (get : SearchRequest -> thrown + option (list RawOffer))
    (formatOne : RawOffer -> thrown + FlightOffer)
    (fs : list (string * value)) (p : SearchParams) (w : World) :
  fields_valid rt fs p ->
  return_not_after rt p = false ->
  origin p <> destination p ->
  let fmt := formatFlightOffers_by formatOne in
  (match failure_of (get (validated_request p)) fmt with
   | Some f =>
       exists m d,
         fst (FlightMCPServer.searchFlights rt RawOffer get fmt true
                (VObj fs) w)
         = inl (FlightAPIError m (kind_code (kind f)) d)
   | None =>
       exists offers flights,
         get (validated_request p) = inr (Some offers)
         /\ (0 < length offers)%nat
         /\ length flights = length offers
         /\ fst (FlightMCPServer.searchFlights rt RawOffer get fmt true
                   (VObj fs) w)
            = inr (text_block
                     (FlightMCPServer.formatFlightSearchResults rt true
                        flights (origin p) (destination p)
                        (departure_date p) (return_date p)))
   end)
  /\ fst (Startup.testAmadeusConnection rt RawOffer get fmt w)
     = inr match failure_of (get probe_request) fmt with
           | Some _ => false
           | None => true
           end.
Proof.
  intros Hv Hna Hne. cbv zeta. split.
  - unfold FlightMCPServer.searchFlights, bind.
    rewrite (validate_accepts rt fs p Hv w Hna Hne).
    unfold FlightMCPServer.searchFlights_try,
      AmadeusFlightService.searchFlights, AmadeusFlightService.await,
      try_catch, bind, send, throw, ret, failure_of.
    rewrite (requestParams_valid rt fs p Hv).
    destruct (get (validated_request p)) as [t | [[|o os]|]]; cbn [fst snd].
    + use_rethrow_catch rt t. now exists m, d.
    + do 2 eexists. reflexivity.
    + destruct (formatFlightOffers_by formatOne (o :: os))
        as [t | flights] eqn:Ef; cbn [fst snd].
      * use_rethrow_catch rt t. now exists m, d.
      * pose proof (formatFlightOffers_by_length _ _ _ Ef) as Hlen.
        exists (o :: os), flights.
        split; [reflexivity|]. split; [cbn; lia|]. split; [exact Hlen|].
        destruct flights; [discriminate Hlen | reflexivity].
    + do 2 eexists. reflexivity.
  - unfold Startup.testAmadeusConnection, AmadeusFlightService.searchFlights,
      AmadeusFlightService.await, try_catch, bind, send, throw, ret,
      failure_of.
    change (AmadeusFlightService.requestParams Startup.testSearchParams)
      with probe_request.
    unfold Startup.message_includes.
    destruct (get probe_request) as [t | [[|o os]|]]; try reflexivity.
    { destruct (catch_message rt t) as [m E]. now rewrite E. }
    destruct (formatFlightOffers_by formatOne (o :: os))
      as [t | flights] eqn:Ef.
    { destruct (catch_message rt t) as [m E]. now rewrite E. }
    pose proof (formatFlightOffers_by_length _ _ _ Ef) as Hlen.
    destruct flights; [discriminate Hlen | reflexivity].
Qed.

Lemma live_search_shows_every_offer_witness :
  fst (Startup.testAmadeusConnection Sample.rt unit Sample.get_refused
         (formatFlightOffers_by (fun _ : unit => inr Sample.b6_offer))
         Sample.halves)
  = inr false.
Proof.
  exact (proj2 (live_search_shows_every_offer Sample.rt unit
                  Sample.get_refused (fun _ : unit => inr Sample.b6_offer)
                  Sample.search_fields Sample.search_params Sample.halves
                  ltac:(repeat split) eq_refl ltac:(discriminate))).
Defined.

(** ** A round trip in Fallback mode *)

(** X24.  In Fallback mode the return date of a search is checked and then
    only echoed: the call is answered with the text of the same search
    without a return date, offers included, with one line more, which
    repeats the return date.  No return flight is offered. *)
Theorem fallback_round_trip_is_one_way (rt : Runtime) (RawOffer : Type)
    (get : SearchRequest -> thrown + option (list RawOffer))
    (fmt : list RawOffer -> thrown + list FlightOffer)
    (fs fs1 : list (string * value)) (p : SearchParams) (r : string)
    (w : World) :
  fields_valid rt fs p -> return_date p = Some r ->
  return_not_after rt p = false -> origin p <> destination p ->
  fields_valid rt fs1 (one_way p) ->
  draws_in_range w ->
  exists head tail w',
    FlightMCPServer.searchFlights rt RawOffer get fmt false (VObj fs1) w
    = (inr (text_block (head ++ tail)), w')
    /\ FlightMCPServer.searchFlights rt RawOffer get fmt false (VObj fs) w
       = (inr (text_block (head ++ "Return Date: " ++ r ++ bn ++ tail)), w').
Proof.
  intros Hv Hret Hna Hne Hv1 Hr.
  pose proof (validate_accepts rt fs p Hv w Hna Hne) as Hok.
  pose proof (validate_accepts rt fs1 (one_way p) Hv1 w eq_refl Hne) as Hok1.
  destruct (fallback_search rt RawOffer get fmt _ _ w Hok Hr)
    as (flights & Eg & Es & _).
  destruct (fallback_search rt RawOffer get fmt _ _ w Hok1 Hr)
    as (flights1 & Eg1 & Es1 & _).
  assert (flights1 = flights).
  { change (FlightMCPServer.generateMockFlights (origin p) (destination p)
              (departure_date p) (return_date p) (adults p) (travel_class p)
              w = (inr flights1, advance 50 w)) in Eg1.
    rewrite Eg in Eg1. now inversion Eg1. }
  subst flights1.
  assert (Hne_r : String.eqb r "" = false).
  { destruct Hv as ((_ & _ & _ & _ & H) & _).
    destruct (Js.truthy (Js.field "return_date" fs)).
    - destruct H as (d & Hd & E). rewrite Hret in E. inversion E. subst d.
      exact (validateDate_nonempty _ _ _ _ Hd).
    - rewrite Hret in H. discriminate H. }
  exists ("Flight Search Results" ++ bn
          ++ "Route: " ++ origin p ++ " " ++ FlightMCPServer.arrow ++ " "
          ++ destination p ++ bn
          ++ "Departure Date: " ++ departure_date p ++ bn),
         ("Sample data (configure API for real results)" ++ bn ++ bn
          ++ FlightMCPServer.formatOffers rt 0 flights
          ++ "Note: These are sample results. Real Amadeus API integration is available with valid credentials." ++ bn),
         (advance 50 w).
  rewrite Es, Es1. unfold FlightMCPServer.formatFlightSearchResults.
  rewrite Hret, Hne_r. cbn [return_date one_way origin destination
                            departure_date negb].
  split; do 3 f_equal; rewrite !append_assoc; reflexivity.
Qed.

Lemma fallback_round_trip_is_one_way_witness :
  exists head tail w',
    FlightMCPServer.searchFlights Sample.rt unit Sample.get Sample.fmt false
      (VObj Sample.search_fields) Sample.halves
    = (inr (text_block (head ++ tail)), w')
    /\ FlightMCPServer.searchFlights Sample.rt unit Sample.get Sample.fmt
         false
         (VObj (Sample.search_fields ++ [("return_date", VStr "2026-01-05")]))
         Sample.halves
       = (inr (text_block
                 (head ++ "Return Date: " ++ "2026-01-05" ++ bn ++ tail)),
          w').
Proof.
  apply (fallback_round_trip_is_one_way Sample.rt unit Sample.get Sample.fmt
           (Sample.search_fields ++ [("return_date", VStr "2026-01-05")])
           Sample.search_fields
           {| origin := "LAX"; destination := "JFK";
              departure_date := "2025-12-25";
              return_date := Some "2026-01-05";
              adults := 1; travel_class := "economy" |}
           "2026-01-05" Sample.halves).
  - repeat split. exists "2026-01-05". split; reflexivity.
  - reflexivity.
  - reflexivity.
  - discriminate.
  - repeat split.
  - intros n. repeat split; vm_compute; congruence.
Defined.

(** ** The prices of a Fallback search *)

Lemma number_toString_integer (rt : Runtime) (q : Q) (z : Z) :
  Z.abs z < 10 ^ 21 ->
  (q == inject_Z z)%Q -> Js.number_toString rt q = Str.ofZ z.
Proof.
  intros Hz H. unfold Js.number_toString.
  rewrite (Qred_complete _ _ H), Qred_inject_Z. cbn [Qnum Qden inject_Z].
  destruct (Z.ltb_spec (Z.abs z) (10 ^ 21)); [reflexivity | lia].
Qed.

(** X25.  For a whole number of adults from 1 to 9, as validation leaves
    it, the prices of the synthetic offers are whole numbers and are
    printed without a fraction: the price per person is a number from 200
    to 999 and the total is that number times the number of adults. *)
Theorem mock_prices_are_whole (rt : Runtime) (o d dd : string)
    (r : option string) (a : Q) (n : Z) (c : string) (w : World) :
  1 <= n <= 9 -> (a == inject_Z n)%Q ->
  draws_in_range w ->
  exists flights,
    fst (FlightMCPServer.generateMockFlights o d dd r a c w) = inr flights
    /\ Forall
         (fun f =>
            exists per,
              200 <= per <= 999
              /\ Js.number_toString rt (price_per_person f) = Str.ofZ per
              /\ Js.number_toString rt (price_amount f) = Str.ofZ (per * n))
         flights.
Proof.
  intros Hn Ha Hr.
  destruct (mockLoop_details o d dd a c 5 [] w Hr (Forall_nil _))
    as (flights & E & Hall).
  exists (FlightMCPServer.sort_by_amount flights).
  unfold FlightMCPServer.generateMockFlights, bind.
  destruct (FlightMCPServer.mockLoop 5 [] o d dd a c w) as [[e | fl] w'];
    cbn [fst] in E; [discriminate E|].
  inversion E. subst fl. split; [reflexivity|].
  eapply Permutation_Forall; [apply sort_by_amount_perm|].
  eapply Forall_impl; [|exact Hall].
  intros f (_ & _ & _ & _ & _ & _ & _ & _ & (bp & Hbp & Hpp & Hpa) & _).
  exists bp. split; [exact Hbp|]. split.
  - rewrite Hpp. apply number_toString_integer; [lia | reflexivity].
  - rewrite Hpa. apply number_toString_integer; [nia|].
    unfold Js.mul. apply round_integer; [nia|].
    rewrite Ha, inject_Z_mult. reflexivity.
Qed.

Lemma mock_prices_are_whole_witness :
  exists flights,
    fst (FlightMCPServer.generateMockFlights "LAX" "JFK" "2025-12-25" None
           (4 # 2) "economy" Sample.halves) = inr flights
    /\ Forall
         (fun f =>
            exists per,
              200 <= per <= 999
              /\ Js.number_toString Sample.rt (price_per_person f)
                 = Str.ofZ per
              /\ Js.number_toString Sample.rt (price_amount f)
                 = Str.ofZ (per * 2))
         flights.
Proof.
  apply (mock_prices_are_whole Sample.rt "LAX" "JFK" "2025-12-25" None
           (4 # 2) 2 "economy" Sample.halves).
  - lia.
  - reflexivity.
  - intros k. repeat split; vm_compute; congruence.
Defined.
